(** * HDB resale data processor: a shallow embedding of [data_processor.py]
      and of the heat-map route of [api/app.py]

    The development follows the Python source method by method.

    - A pandas [DataFrame] is a row count together with its named columns;
      a column ([Series]) is a list of dynamically typed cells.  Subscripting
      a frame by a column it lacks raises [KeyError], as in pandas.
    - Numbers are IEEE binary64 values ([PrimFloat]), the representation
      numpy gives the numeric columns; an integer column is represented by
      the binary64 values of the same magnitude.
    - Python exceptions are values of [exn]; a method is a function from the
      processor state to an outcome ([Ok] or [Raise]) and a new state
      (monad [M]).  The state holds [self.df], the file system and the
      records emitted through [logger] at warning level and above
      (the [info] records and [time.sleep] have no counterpart).
    - The remote source is the sequence of its answers, one per request.
      The [while True] loop of the fetcher is a function of a number of
      iterations it may use; it answers [None] when that number does not
      suffice.
    - A raw record is a JSON object whose values are null, numbers or
      strings.  The file system accepts every write.
    - The text conversions that pandas performs (parsing a number or a date
      out of a string, printing a number or a date) are the fields of the
      class [Pandas]; the theorems hold for every implementation of them,
      and the scenarios are run with the implementation [plain_text].
    - A Python [str] is represented by its UTF-8 encoding, a sequence of
      bytes: equality, the order [<] of Python (by code point) and
      [str.endswith] are then those of the byte sequences.  [str.title] and
      [str.strip] depend on the Unicode character database; they are fields
      of the class [Pandas] too.  [plain_text], which is meant for ASCII
      text, implements them by CPython's algorithms on the ASCII range;
      [unicode_text] implements them on an excerpt of the Unicode
      database. *)

From Stdlib Require Import String Ascii List ZArith Lia Bool Floats Uint63 PArith.
From Stdlib Require Import Sorted Permutation.
Import ListNotations.

Set Implicit Arguments.
Open Scope string_scope.
Open Scope list_scope.

(** ** Exceptions and outcomes *)

Inductive exn : Type :=
| RequestException            (* requests: transport failure, HTTP error status, undecodable body *)
| ValueError (msg : string)
| KeyError (key : string)
| AttributeError (msg : string)
| TypeError (msg : string)
| FileNotFoundError
| ArrowError                  (* pyarrow: conversion or file-format failure *)
| ParserError.                (* pandas: the CSV reader rejects the file *)

Inductive result (A : Type) : Type :=
| Ok (a : A)
| Raise (e : exn).

Arguments Ok {A} a.
Arguments Raise {A} e.

(** ** Python string methods used by the pipeline, on ASCII text *)

Definition is_upper (c : ascii) : bool :=
  let n := nat_of_ascii c in (65 <=? n)%nat && (n <=? 90)%nat.

Definition is_lower (c : ascii) : bool :=
  let n := nat_of_ascii c in (97 <=? n)%nat && (n <=? 122)%nat.

(** [_PyUnicode_IsCased] on the ASCII range. *)
Definition is_cased (c : ascii) : bool := is_upper c || is_lower c.

Definition to_lower (c : ascii) : ascii :=
  if is_upper c then ascii_of_nat (nat_of_ascii c + 32) else c.

Definition to_upper (c : ascii) : ascii :=
  if is_lower c then ascii_of_nat (nat_of_ascii c - 32) else c.

(** [Py_UNICODE_ISSPACE] on the ASCII range: TAB, LF, VT, FF, CR, the four
    separators FS, GS, RS, US, and the space. *)
Definition is_space (c : ascii) : bool :=
  let n := nat_of_ascii c in
  ((9 <=? n)%nat && (n <=? 13)%nat) || ((28 <=? n)%nat && (n <=? 32)%nat).

(** [str.title]: a character that follows a cased character is lowered, any
    other character is put in title case; [previous_is_cased] is the flag
    CPython threads through the string. *)
Fixpoint title_from (previous_is_cased : bool) (s : string) : string :=
  match s with
  | EmptyString => EmptyString
  | String c rest =>
      String (if previous_is_cased then to_lower c else to_upper c)
             (title_from (is_cased c) rest)
  end.

Definition ascii_title (s : string) : string := title_from false s.

Fixpoint lstrip (s : string) : string :=
  match s with
  | EmptyString => EmptyString
  | String c rest => if is_space c then lstrip rest else s
  end.

Definition is_empty (s : string) : bool :=
  match s with EmptyString => true | String _ _ => false end.

Fixpoint rstrip (s : string) : string :=
  match s with
  | EmptyString => EmptyString
  | String c rest =>
      let r := rstrip rest in
      if is_space c && is_empty r then EmptyString else String c r
  end.

(** [str.strip]: leading and trailing white space removed. *)
Definition ascii_strip (s : string) : string := rstrip (lstrip s).

Fixpoint endswith (s suffix : string) : bool :=
  (s =? suffix) ||
  match s with
  | EmptyString => false
  | String _ rest => endswith rest suffix
  end.

(** ** Cells, series and frames *)

(** A pandas [Timestamp]: a calendar date and the nanoseconds elapsed since
    midnight. *)
Record Timestamp : Type := mkTs {
  ts_year : Z;
  ts_month : Z;
  ts_day : Z;
  ts_nanos : Z
}.

(** The values a cell of the frame may hold.  [Null] is a missing entry of an
    object or date column ([None], [NaN], [NaT]); a missing entry of a
    numeric column is [Num nan]. *)
Inductive cell : Type :=
| Null
| Num (x : float)
| Str (s : string)
| Ts (t : Timestamp).

Definition Series : Type := list cell.

(** [len(df)] and the columns in their order. *)
Record DataFrame : Type := mkFrame {
  nrows : nat;
  columns : list (string * Series)
}.

(** A raw record of the remote source: a JSON object whose values are null,
    numbers or strings (keys are distinct). *)
Definition record : Type := list (string * cell).

Definition is_str (c : cell) : bool := match c with Str _ => true | _ => false end.
Definition is_num (c : cell) : bool := match c with Num _ => true | _ => false end.
Definition is_ts (c : cell) : bool := match c with Ts _ => true | _ => false end.

(** [pd.isna] on one cell. *)
Definition isna (c : cell) : bool :=
  match c with
  | Null => true
  | Num x => is_nan x
  | _ => false
  end.

Fixpoint lookup {A : Type} (key : string) (l : list (string * A)) : option A :=
  match l with
  | [] => None
  | (k, v) :: rest => if k =? key then Some v else lookup key rest
  end.

(** [df[name] = values]: an existing column is replaced in place, a new one
    is appended. *)
Fixpoint assign {A : Type} (key : string) (v : A) (l : list (string * A)) : list (string * A) :=
  match l with
  | [] => [(key, v)]
  | (k, w) :: rest => if k =? key then (k, v) :: rest else (k, w) :: assign key v rest
  end.

Definition setcol (name : string) (values : Series) (d : DataFrame) : DataFrame :=
  mkFrame (nrows d) (assign name values (columns d)).

(** [df[name]]. *)
Definition getcol (name : string) (d : DataFrame) : result Series :=
  match lookup name (columns d) with
  | Some s => Ok s
  | None => Raise (KeyError name)
  end.

(** [df.empty]: no row or no column. *)
Definition empty (d : DataFrame) : bool :=
  (nrows d =? 0)%nat || match columns d with [] => true | _ => false end.

(** [pd.DataFrame(records)] on a list of dictionaries: the columns are the
    keys in the order in which they first occur; a record lacking a key
    holds a missing value there. *)
Definition add_keys (seen : list string) (r : record) : list string :=
  fold_left (fun acc kv => if existsb (String.eqb (fst kv)) acc then acc else acc ++ [fst kv]) r seen.

Definition keys_of (records : list record) : list string :=
  fold_left add_keys records [].

Definition field (key : string) (r : record) : cell :=
  match lookup key r with Some c => c | None => Null end.

Definition DataFrame_of_records (records : list record) : DataFrame :=
  mkFrame (length records)
          (map (fun k => (k, map (field k) records)) (keys_of records)).

(** Boolean indexing [df[mask]]. *)
Fixpoint select {A : Type} (mask : list bool) (l : list A) : list A :=
  match mask, l with
  | b :: m, x :: rest => if b then x :: select m rest else select m rest
  | _, _ => []
  end.

Definition count_true (mask : list bool) : nat := length (filter (fun b : bool => b) mask).

Definition select_rows (mask : list bool) (d : DataFrame) : DataFrame :=
  mkFrame (count_true mask)
          (map (fun kv => (fst kv, select mask (snd kv))) (columns d)).

(** Every column is as long as the index. *)
Definition well_formed (d : DataFrame) : Prop :=
  Forall (fun kv => length (snd kv) = nrows d) (columns d).

(** ** Numbers *)

Definition float_of_Z (z : Z) : float :=
  match z with
  | Z0 => 0%float
  | Zpos _ => PrimFloat.of_uint63 (Uint63.of_Z z)
  | Zneg _ => (- PrimFloat.of_uint63 (Uint63.of_Z (- z)))%float
  end.

Fixpoint insert_sorted (x : float) (l : list float) : list float :=
  match l with
  | [] => [x]
  | y :: rest => if (x <=? y)%float then x :: l else y :: insert_sorted x rest
  end.

Definition sort_floats (l : list float) : list float := fold_right insert_sorted [] l.

Definition median_floats (l : list float) : float :=
  let s := sort_floats l in
  let n := length s in
  if (n =? 0)%nat then nan
  else if Nat.odd n then nth (n / 2) s nan
       else ((nth (n / 2 - 1) s nan + nth (n / 2) s nan) / 2)%float.

Definition mean_floats (l : list float) : float :=
  match l with
  | [] => nan
  | _ => (fold_left PrimFloat.add l 0 / float_of_Z (Z.of_nat (length l)))%float
  end.

(** The non-missing numbers of a numeric column ([skipna=True]). *)
Definition dropna (s : Series) : list float :=
  flat_map (fun c => match c with
                     | Num x => if is_nan x then [] else [x]
                     | _ => []
                     end) s.

(** [Series.median()] of a numeric column. *)
Definition median (s : Series) : float := median_floats (dropna s).

(** [Series.fillna(value)]. *)
Definition fillna (value : float) (s : Series) : Series :=
  map (fun c => if isna c then Num value else c) s.

(** [a / b] on two numeric columns. *)
Definition cell_div (a b : cell) : cell :=
  match a, b with
  | Num x, Num y => Num (x / y)
  | _, _ => Num nan
  end.

Definition series_div (a b : Series) : Series :=
  map (fun p => cell_div (fst p) (snd p)) (combine a b).

(** [series > bound]: false on a missing value. *)
Definition cell_gt (bound : float) (c : cell) : bool :=
  match c with
  | Num x => (bound <? x)%float
  | _ => false
  end.

Definition mask_and (a b : list bool) : list bool :=
  map (fun p => fst p && snd p) (combine a b).

(** ** The text conversions of pandas *)

(** What pandas and Python do to the text of a cell is not part of the
    repository; the pipeline is stated over any implementation of it.
    [str_to_datetime] and [datetime_repr] receive the whole column, since
    pandas infers one date format per column.  [title] and [strip] are
    [str.title] and [str.strip], which [_clean_data] applies through the
    [.str] accessor and [get_town_data] to its argument. *)
Class Pandas : Type := {
  str_to_numeric : string -> option float;
  str_to_datetime : Series -> string -> option Timestamp;
  num_to_datetime : float -> option Timestamp;
  float_repr : float -> string;
  datetime_repr : Series -> Timestamp -> string;
  title : string -> string;
  strip : string -> string
}.

(** [pd.to_numeric(series, errors='coerce')]. *)
Definition numeric_of_cell `{Pandas} (c : cell) : cell :=
  match c with
  | Num x => Num x
  | Str s => match str_to_numeric s with Some x => Num x | None => Num nan end
  | Null => Num nan
  | Ts _ => Num nan
  end.

Definition to_numeric `{Pandas} (s : Series) : Series := map numeric_of_cell s.

(** [pd.to_datetime(series, errors='coerce')]. *)
Definition datetime_of_cell `{Pandas} (column : Series) (c : cell) : cell :=
  match c with
  | Ts t => Ts t
  | Str s => match str_to_datetime column s with Some t => Ts t | None => Null end
  | Num x => match num_to_datetime x with Some t => Ts t | None => Null end
  | Null => Null
  end.

Definition to_datetime `{Pandas} (s : Series) : Series := map (datetime_of_cell s) s.

(** [99 - (current_year - series.dt.year)] on a date column. *)
Definition lease_of_cell (current_year : Z) (c : cell) : cell :=
  match c with
  | Ts t => Num (float_of_Z (99 - (current_year - ts_year t)))
  | _ => Num nan
  end.

Definition lease_remaining_of (current_year : Z) (s : Series) : Series :=
  map (lease_of_cell current_year) s.

(** The [.str] accessor.  pandas refuses it ([AttributeError]) on a column
    of numeric or of date type, that is, one whose present values are all
    numbers or all dates; it accepts a column that holds some text, that
    holds no value at all, or that mixes kinds.  On an accepted column a
    method maps the strings and leaves a missing value everywhere else. *)
Definition str_accepts (s : Series) : bool :=
  existsb is_str s
  || negb (existsb is_num s || existsb is_ts s)
  || (existsb is_num s && existsb is_ts s).

Definition str_apply (f : string -> string) (c : cell) : cell :=
  match c with
  | Str x => Str (f x)
  | _ => Null
  end.

Definition str_method (f : string -> string) (s : Series) : result Series :=
  if str_accepts s then Ok (map (str_apply f) s)
  else Raise (AttributeError "Can only use .str accessor with string values!").

(** ** Files *)

(** One field of a delimited-text file: empty, the decimal text of a number
    (kept as the number it denotes), or any other text. *)
Inductive csv_field : Type :=
| FEmpty
| FNum (x : float)
| FText (s : string).

(** An Arrow array, the typed image of a column in a Parquet file: every
    slot is null or holds a value of the one type of the array.  A column
    without any value has the type null. *)
Inductive arrow_array : Type :=
| NullArray (slots : nat)
| DoubleArray (values : list (option float))
| StringArray (values : list (option string))
| TimestampArray (values : list (option Timestamp)).

(** The two kinds of cache artifact: a columnar binary file, which holds a
    row count and one typed array per column name, and a delimited text
    whose fields are kept column by column under the header names. *)
Inductive file : Type :=
| ParquetFile (rows : nat) (arrays : list (string * arrow_array))
| CsvFile (lines : nat) (fields : list (string * list csv_field)).

(** The outcomes of a sequence of conversions: the first failure, or all
    the results. *)
Fixpoint collect {A : Type} (l : list (result A)) : result (list A) :=
  match l with
  | [] => Ok []
  | Ok a :: rest => match collect rest with Ok r => Ok (a :: r) | Raise e => Raise e end
  | Raise e :: _ => Raise e
  end.

(** ** Processor state and the method monad *)

(** Records emitted through [logger] at warning level and above. *)
Inductive log_record : Type :=
| InitializationFailed (e : exn)      (* error *)
| AttemptingFallback                  (* warning *)
| ApiError (e : exn)                  (* error *)
| ReturningPartialData (n : nat)      (* warning *)
| NoCacheFileFound                    (* warning *)
| CacheLoadFailed (e : exn)           (* error *)
| CacheSaveFailed (e : exn)           (* error *)
| NoDataToClean                       (* warning *)
| LeaseDateError (e : exn)            (* error *)
| TryingCache                         (* warning *)
| CacheFailedGeneratingSample         (* error *)
| GeneratingSampleData.               (* critical *)

Record State : Type := mkState {
  df : option DataFrame;                 (* self.df *)
  files : list (string * file);          (* the file system *)
  log : list log_record
}.

Definition M (A : Type) : Type := State -> result A * State.

Definition ret {A : Type} (a : A) : M A := fun s => (Ok a, s).

Definition raise {A : Type} (e : exn) : M A := fun s => (Raise e, s).

Definition bind {A B : Type} (m : M A) (k : A -> M B) : M B :=
  fun s => match m s with
           | (Ok a, s') => k a s'
           | (Raise e, s') => (Raise e, s')
           end.

(** [try: body except Exception as e: handler(e)]. *)
Definition try_except {A : Type} (body : M A) (handler : exn -> M A) : M A :=
  fun s => match body s with
           | (Ok a, s') => (Ok a, s')
           | (Raise e, s') => handler e s'
           end.

Declare Scope method_scope.
Delimit Scope method_scope with method.
Notation "x <- m ;; k" := (bind m (fun x => k))
  (at level 61, m at next level, right associativity) : method_scope.
Notation "m ;; k" := (bind m (fun _ => k))
  (at level 61, right associativity) : method_scope.
Open Scope method_scope.

Definition lift {A : Type} (r : result A) : M A := fun s => (r, s).

Definition get_df : M (option DataFrame) := fun s => (Ok (df s), s).

Definition set_df (d : option DataFrame) : M unit :=
  fun s => (Ok tt, mkState d (files s) (log s)).

Definition emit (r : log_record) : M unit :=
  fun s => (Ok tt, mkState (df s) (files s) (log s ++ [r])).

Definition not_subscriptable : exn := TypeError "'NoneType' object is not subscriptable".

(** [self.df[name]] *)
Definition getitem (name : string) : M Series :=
  d <- get_df ;;
  match d with
  | Some d => lift (getcol name d)
  | None => raise not_subscriptable
  end.

(** [self.df[name] = values] *)
Definition setitem (name : string) (values : Series) : M unit :=
  d <- get_df ;;
  match d with
  | Some d => set_df (Some (setcol name values d))
  | None => raise not_subscriptable
  end.

(** ** The cleaning pipeline: [_clean_data] *)

(** The body of the loop over [resale_price] and [floor_area_sqm]. *)
Definition convert_numeric `{Pandas} (col : string) : M unit :=
  c <- getitem col ;;
  setitem col (to_numeric c) ;;
  c <- getitem col ;;
  let median_val := median c in
  c <- getitem col ;;
  setitem col (fillna median_val c).

(** The body of the [try] that derives [lease_remaining]. *)
Definition lease_dates `{Pandas} (current_year : Z) : M unit :=
  c <- getitem "lease_commence_date" ;;
  setitem "lease_commence_date" (to_datetime c) ;;
  c <- getitem "lease_commence_date" ;;
  setitem "lease_remaining" (lease_remaining_of current_year c).

Definition lease_failed (e : exn) : M unit :=
  emit (LeaseDateError e) ;;
  d <- get_df ;;
  setitem "lease_remaining" (repeat (Num nan) (match d with Some d => nrows d | None => 0 end)).

Definition filter_outliers : M unit :=
  p <- getitem "resale_price" ;;
  a <- getitem "floor_area_sqm" ;;
  d <- get_df ;;
  set_df (option_map (select_rows (mask_and (map (cell_gt 10000) p) (map (cell_gt 20) a))) d).

Definition _clean_data `{Pandas} (current_year : Z) : M unit :=
  d <- get_df ;;
  match d with
  | None => emit NoDataToClean
  | Some d =>
      if empty d then emit NoDataToClean
      else
        m <- getitem "month" ;;
        setitem "month" (to_datetime m) ;;
        convert_numeric "resale_price" ;;
        convert_numeric "floor_area_sqm" ;;
        p <- getitem "resale_price" ;;
        a <- getitem "floor_area_sqm" ;;
        setitem "price_per_sqm" (series_div p a) ;;
        try_except (lease_dates current_year) lease_failed ;;
        t <- getitem "town" ;;
        t <- lift (str_method title t) ;;
        t <- lift (str_method strip t) ;;
        setitem "town" t ;;
        filter_outliers
  end.

(** ** The cache store: [_save_cache] and [_load_from_cache] *)

Definition exists_path (path : string) : M bool :=
  fun s => (Ok (match lookup path (files s) with Some _ => true | None => false end), s).

Definition write_file (path : string) (f : file) : M unit :=
  fun s => (Ok tt, mkState (df s) (assign path f (files s)) (log s)).

Definition read_file (path : string) : M file :=
  fun s => match lookup path (files s) with
           | Some f => (Ok f, s)
           | None => (Raise FileNotFoundError, s)
           end.

(** pyarrow converts a column only if its present values are of one kind;
    in a column of text or of dates every missing value is stored as null. *)
Definition arrow_accepts (s : Series) : bool :=
  let present := filter (fun c => negb (isna c)) s in
  forallb is_num present || forallb is_str present || forallb is_ts present.

Definition arrow_column (s : Series) : Series :=
  if existsb is_str s || existsb is_ts s
  then map (fun c => if isna c then Null else c) s
  else s.

Definition is_null (c : cell) : bool := match c with Null => true | _ => false end.

Definition string_slot (c : cell) : option string :=
  match c with Str w => Some w | _ => None end.

Definition timestamp_slot (c : cell) : option Timestamp :=
  match c with Ts t => Some t | _ => None end.

Definition double_slot (c : cell) : option float :=
  match c with Num x => Some x | _ => None end.

(** The conversion of a column to an Arrow array when the frame is
    written.  The type of the array is that of the values the column
    holds: text, dates, or numbers; a column that holds text (or dates)
    and a present value of another kind is refused.  In an array of text
    or of dates a missing value, [None] or [nan], becomes a null slot; in
    an array of numbers [nan] is a value and [None] a null slot. *)
Definition arrow_of_series (s : Series) : result arrow_array :=
  if forallb is_null s then Ok (NullArray (length s))
  else if existsb is_str s then
    if forallb (fun c => is_str c || isna c) s
    then Ok (StringArray (map string_slot s))
    else Raise ArrowError
  else if existsb is_ts s then
    if forallb (fun c => is_ts c || isna c) s
    then Ok (TimestampArray (map timestamp_slot s))
    else Raise ArrowError
  else Ok (DoubleArray (map double_slot s)).

(** The conversion of an Arrow array to a column when the file is read. *)
Definition series_of_arrow (a : arrow_array) : Series :=
  match a with
  | NullArray n => repeat Null n
  | DoubleArray values =>
      map (fun v => match v with Some x => Num x | None => Null end) values
  | StringArray values =>
      map (fun v => match v with Some w => Str w | None => Null end) values
  | TimestampArray values =>
      map (fun v => match v with Some t => Ts t | None => Null end) values
  end.

(** [df.to_parquet(path)], up to the write itself. *)
Definition to_parquet (d : DataFrame) : result file :=
  match collect (map (fun kv => match arrow_of_series (snd kv) with
                                | Ok a => Ok (fst kv, a)
                                | Raise e => Raise e
                                end) (columns d)) with
  | Ok arrays => Ok (ParquetFile (nrows d) arrays)
  | Raise e => Raise e
  end.

(** [pd.read_parquet(path)] *)
Definition read_parquet (f : file) : result DataFrame :=
  match f with
  | ParquetFile rows arrays =>
      Ok (mkFrame rows (map (fun ka => (fst ka, series_of_arrow (snd ka))) arrays))
  | CsvFile _ _ => Raise ArrowError
  end.

(** [df.to_csv(path, index=False)]: a missing value is written as an empty
    field, a date in the date format of its column. *)
Definition csv_of_cell `{Pandas} (column : Series) (c : cell) : csv_field :=
  match c with
  | Null => FEmpty
  | Num x => if is_nan x then FEmpty else FNum x
  | Str s => FText s
  | Ts t => FText (datetime_repr column t)
  end.

Definition to_csv `{Pandas} (d : DataFrame) : file :=
  CsvFile (nrows d)
          (map (fun kv => (fst kv, map (csv_of_cell (snd kv)) (snd kv))) (columns d)).

(** The strings [pd.read_csv] reads as a missing value. *)
Definition na_values : list string :=
  [""; "#N/A"; "#N/A N/A"; "#NA"; "-1.#IND"; "-1.#QNAN"; "-NaN"; "-nan";
   "1.#IND"; "1.#QNAN"; "<NA>"; "N/A"; "NA"; "NULL"; "NaN"; "None"; "n/a";
   "nan"; "null"].

Definition is_na_text (s : string) : bool := existsb (String.eqb s) na_values.

(** A field that stays text when the column is read. *)
Definition is_text_field `{Pandas} (f : csv_field) : bool :=
  match f with
  | FText s => negb (is_na_text s) &&
               match str_to_numeric s with Some _ => false | None => true end
  | _ => false
  end.

Definition numeric_of_field `{Pandas} (f : csv_field) : cell :=
  match f with
  | FEmpty => Num nan
  | FNum x => Num x
  | FText s => if is_na_text s then Num nan
               else match str_to_numeric s with Some x => Num x | None => Num nan end
  end.

Definition object_of_field `{Pandas} (f : csv_field) : cell :=
  match f with
  | FEmpty => Null
  | FNum x => Str (float_repr x)
  | FText s => if is_na_text s then Null else Str s
  end.

(** Type inference of [pd.read_csv], column by column: a column whose
    fields are all numbers or missing becomes numeric, any other column
    keeps its text.  No column is parsed as dates ([parse_dates] is not
    passed). *)
Definition infer_column `{Pandas} (fields : list csv_field) : Series :=
  if existsb is_text_field fields
  then map object_of_field fields
  else map numeric_of_field fields.

(** [pd.read_csv(path)] *)
Definition read_csv `{Pandas} (f : file) : result DataFrame :=
  match f with
  | CsvFile _ [] => Raise ParserError
  | CsvFile n fields => Ok (mkFrame n (map (fun kv => (fst kv, infer_column (snd kv))) fields))
  | ParquetFile _ _ => Raise ParserError
  end.

Definition unsupported_format : exn := ValueError "Unsupported cache file format".

Definition _load_from_cache `{Pandas} (cache_file : string) : M unit :=
  try_except
    (present <- exists_path cache_file ;;
     if present : bool then
       (if endswith cache_file ".parquet" then
          f <- read_file cache_file ;;
          d <- lift (read_parquet f) ;;
          set_df (Some d)
        else if endswith cache_file ".csv" then
          f <- read_file cache_file ;;
          d <- lift (read_csv f) ;;
          set_df (Some d)
        else raise unsupported_format)
     else emit NoCacheFileFound)
    (fun e => emit (CacheLoadFailed e)).

Definition _save_cache `{Pandas} (cache_file : string) : M unit :=
  d <- get_df ;;
  match d with
  | None => ret tt
  | Some d =>
      if empty d then ret tt
      else
        try_except
          (if endswith cache_file ".parquet" then
             f <- lift (to_parquet d) ;;
             write_file cache_file f
           else write_file cache_file (to_csv d))
          (fun e => emit (CacheSaveFailed e))
  end.

(** ** The fallback chain *)

Definition sample : DataFrame :=
  mkFrame 2
    [("month", [Str "2023-01"; Str "2023-02"]);
     ("town", [Str "Ang Mo Kio"; Str "Bedok"]);
     ("resale_price", [Num 400000; Num 420000]);
     ("floor_area_sqm", [Num 80; Num 85]);
     ("flat_type", [Str "4 ROOM"; Str "5 ROOM"]);
     ("lease_commence_date", [Num 1985; Num 1990])].

Definition _generate_sample_data `{Pandas} (current_year : Z) : M unit :=
  emit GeneratingSampleData ;;
  set_df (Some sample) ;;
  _clean_data current_year.

Definition _fallback_procedure `{Pandas} (current_year : Z) (cache_file : string) : M unit :=
  try_except
    (emit TryingCache ;;
     _load_from_cache cache_file)
    (fun _ => emit CacheFailedGeneratingSample ;;
              _generate_sample_data current_year).

(** ** The record fetcher: [_load_from_api] *)

(** What one GET of the paginated endpoint may produce.  [Page None _] is
    an envelope that holds the records but no [total]. *)
Inductive response : Type :=
| TransportError
| InvalidEnvelope
| Page (total : option Z) (records : list record).

(** A method that may also run forever: [None] stands for "no answer
    within the given number of loop iterations". *)
Definition D (A : Type) : Type := State -> option (result A * State).

(** The [except (requests.RequestException, ValueError)] clause. *)
Definition api_failed (e : exn) (all_records : list record) (offset : Z) : M (list record) :=
  emit (ApiError e) ;;
  if (offset >? 0)%Z then
    emit (ReturningPartialData (length all_records)) ;;
    ret all_records
  else raise e.

(** The [while True] loop; [request] counts the GETs issued so far and
    [responses request] is the answer to the next one. *)
Fixpoint fetch_pages (responses : nat -> response) (fuel request : nat)
    (all_records : list record) (offset : Z) (total_records : option Z)
    : D (list record) :=
  match fuel with
  | O => fun _ => None
  | S fuel =>
      match responses request with
      | TransportError =>
          fun s => Some (api_failed RequestException all_records offset s)
      | InvalidEnvelope =>
          fun s => Some (api_failed (ValueError "Invalid API response structure")
                                    all_records offset s)
      | Page total records =>
          match (match total_records with Some t => Some t | None => total end) with
          | None => fun s => Some (Raise (KeyError "total"), s)
          | Some t =>
              let all_records := all_records ++ records in
              let offset := (offset + Z.of_nat (length records))%Z in
              if (offset >=? t)%Z then fun s => Some (Ok all_records, s)
              else fetch_pages responses fuel (S request) all_records offset (Some t)
          end
      end
  end.

Definition _load_from_api (responses : nat -> response) (fuel : nat) : D unit :=
  fun s =>
    match fetch_pages responses fuel 0 [] 0%Z None s with
    | None => None
    | Some (Ok all_records, s') => Some (set_df (Some (DataFrame_of_records all_records)) s')
    | Some (Raise e, s') => Some (Raise e, s')
    end.

(** ** The constructor *)

Definition __init__ `{Pandas} (responses : nat -> response) (fuel : nat) (current_year : Z)
    (use_api : bool) (cache_file : string) : D unit :=
  fun s0 =>
    let s := mkState None (files s0) (log s0) in
    let attempt : option (result unit * State) :=
      if use_api then
        match _load_from_api responses fuel s with
        | None => None
        | Some (Ok _, s') => Some ((_clean_data current_year ;; _save_cache cache_file) s')
        | Some (Raise e, s') => Some (Raise e, s')
        end
      else Some (_load_from_cache cache_file s) in
    match attempt with
    | None => None
    | Some (Ok _, s') => Some (Ok tt, s')
    | Some (Raise e, s') =>
        Some ((emit (InitializationFailed e) ;;
               emit AttemptingFallback ;;
               _fallback_procedure current_year cache_file) s')
    end.

(** ** The query layer *)

Definition ts_key (t : Timestamp) : list Z := [ts_year t; ts_month t; ts_day t; ts_nanos t].

Fixpoint lex_leb (a b : list Z) : bool :=
  match a, b with
  | x :: a', y :: b' => (x <? y)%Z || ((x =? y)%Z && lex_leb a' b')
  | [], _ => true
  | _ :: _, [] => false
  end.

Definition ts_eqb (a b : Timestamp) : bool :=
  (ts_year a =? ts_year b)%Z && (ts_month a =? ts_month b)%Z &&
  (ts_day a =? ts_day b)%Z && (ts_nanos a =? ts_nanos b)%Z.

(** Equality of two cells as keys: missing values count as one key. *)
Definition cell_eqb (a b : cell) : bool :=
  match a, b with
  | Null, Null => true
  | Num x, Num y => (x =? y)%float || (is_nan x && is_nan y)
  | Str s, Str t => s =? t
  | Ts s, Ts t => ts_eqb s t
  | _, _ => false
  end.

(** [<=] between two values of one kind. *)
Definition cell_leb (a b : cell) : bool :=
  match a, b with
  | Str s, Str t => String.leb s t
  | Num x, Num y => (x <=? y)%float
  | Ts s, Ts t => lex_leb (ts_key s) (ts_key t)
  | _, _ => true
  end.

(** [Series.unique()]: the values in the order of their first occurrence. *)
Fixpoint unique (l : list cell) : list cell :=
  match l with
  | [] => []
  | c :: rest => c :: filter (fun x => negb (cell_eqb c x)) (unique rest)
  end.

Fixpoint insert_by {A : Type} (leb : A -> A -> bool) (x : A) (l : list A) : list A :=
  match l with
  | [] => [x]
  | y :: rest => if leb x y then x :: l else y :: insert_by leb x rest
  end.

Definition sort_by {A : Type} (leb : A -> A -> bool) (l : list A) : list A :=
  fold_right (insert_by leb) [] l.

(** Values Python can order among themselves: text only, numbers only
    (a missing number being [nan]), or dates only. *)
Definition comparable (l : list cell) : bool :=
  (length l <=? 1)%nat
  || forallb is_str l
  || forallb (fun c => is_num c || match c with Null => true | _ => false end) l
  || forallb is_ts l.

Definition not_ordered : exn := TypeError "'<' not supported between these instances".

(** [sorted(values)] *)
Definition sorted (l : list cell) : result (list cell) :=
  if comparable l then Ok (sort_by cell_leb l) else Raise not_ordered.

Definition get_towns : M (list cell) :=
  d <- get_df ;;
  match d with
  | Some _ => t <- getitem "town" ;; lift (sorted (unique t))
  | None => ret []
  end.

Definition get_flat_types : M (list cell) :=
  d <- get_df ;;
  match d with
  | Some _ => t <- getitem "flat_type" ;; lift (sorted (unique t))
  | None => ret []
  end.

(** [pd.DataFrame()] *)
Definition empty_frame : DataFrame := mkFrame 0 [].

Definition equals_str (v : string) (c : cell) : bool :=
  match c with
  | Str s => s =? v
  | _ => false
  end.

(** One aggregate over the group of a key; pandas raises when the group
    holds a value that is not a number. *)
Definition aggregate (f : list float -> float) (group : Series) : result cell :=
  if existsb (fun c => is_str c || is_ts c) group
  then Raise (TypeError "agg function failed")
  else Ok (Num (f (dropna group))).

(** The group keys of [groupby]: the present values, each once, sorted. *)
Definition group_keys (keys : Series) : result (list cell) :=
  sorted (unique (filter (fun c => negb (isna c)) keys)).

Definition aggregate_column (f : list float -> float) (keys : Series)
    (groups : list cell) (values : Series) : result Series :=
  collect (map (fun k => aggregate f (select (map (cell_eqb k) keys) values)) groups).

(** [frame.groupby('month').agg({...: 'mean'}).reset_index()] *)
Definition monthly_mean (d : DataFrame) : result DataFrame :=
  match getcol "month" d with
  | Raise e => Raise e
  | Ok keys =>
    match group_keys keys with
    | Raise e => Raise e
    | Ok groups =>
      let agg name :=
        match getcol name d with
        | Raise e => Raise e
        | Ok values => aggregate_column mean_floats keys groups values
        end in
      match agg "resale_price", agg "price_per_sqm", agg "lease_remaining" with
      | Ok p, Ok q, Ok l =>
          Ok (mkFrame (length groups)
                [("month", groups); ("resale_price", p);
                 ("price_per_sqm", q); ("lease_remaining", l)])
      | Raise e, _, _ => Raise e
      | _, Raise e, _ => Raise e
      | _, _, Raise e => Raise e
      end
    end
  end.

Definition get_town_data `{Pandas} (town : string) : M DataFrame :=
  d <- get_df ;;
  match d with
  | None => ret empty_frame
  | Some d =>
      t <- getitem "town" ;;
      let town_data := select_rows (map (equals_str (title town)) t) d in
      lift (monthly_mean town_data)
  end.

Definition get_full_data : M DataFrame :=
  d <- get_df ;;
  match d with
  | Some d => ret d
  | None => ret empty_frame
  end.

(** *** The heat-map route of [api/app.py] *)

(** [processor] is an instance of a class that defines neither [__bool__]
    nor [__len__]: Python takes it for true. *)
Definition processor_is_true (s : State) : bool := true.

Definition pair_eqb (a b : cell * cell) : bool :=
  cell_eqb (fst a) (fst b) && cell_eqb (snd a) (snd b).

Definition pair_leb (a b : cell * cell) : bool :=
  if cell_eqb (fst a) (fst b) then cell_leb (snd a) (snd b) else cell_leb (fst a) (fst b).

Fixpoint unique_pairs (l : list (cell * cell)) : list (cell * cell) :=
  match l with
  | [] => []
  | c :: rest => c :: filter (fun x => negb (pair_eqb c x)) (unique_pairs rest)
  end.

(** [df.groupby(['town', 'flat_type']).agg({'price_per_sqm': 'median'}).reset_index()] *)
Definition heatmap_of (d : DataFrame) : result DataFrame :=
  match getcol "town" d, getcol "flat_type" d, getcol "price_per_sqm" d with
  | Ok towns, Ok flats, Ok values =>
      let rows := combine towns flats in
      let present := filter (fun p => negb (isna (fst p)) && negb (isna (snd p))) rows in
      let groups := unique_pairs present in
      if comparable (map fst groups) && comparable (map snd groups) then
        let groups := sort_by pair_leb groups in
        match collect (map (fun k => aggregate median_floats
                                       (select (map (pair_eqb k) rows) values)) groups) with
        | Ok medians =>
            Ok (mkFrame (length groups)
                  [("town", map fst groups); ("flat_type", map snd groups);
                   ("price_per_sqm", medians)])
        | Raise e => Raise e
        end
      else Raise not_ordered
  | Raise e, _, _ => Raise e
  | _, Raise e, _ => Raise e
  | _, _, Raise e => Raise e
  end.

Definition no_groupby : exn := AttributeError "'NoneType' object has no attribute 'groupby'".

Definition get_heatmap_data : M DataFrame :=
  fun s =>
    if negb (processor_is_true s) then (Ok empty_frame, s)
    else
      (d <- get_df ;;
       match d with
       | Some d => lift (heatmap_of d)
       | None => raise no_groupby
       end) s.

(** The calls made on a constructed processor: the routes of [api/app.py]
    and the [__main__] block use the queries and [_save_cache]. *)
Inductive call : Type :=
| GetTowns
| GetFlatTypes
| GetTownData (town : string)
| GetFullData
| GetHeatmapData
| SaveCache (cache_file : string).

Definition discard {A : Type} (m : M A) : State -> State := fun s => snd (m s).

Definition run_call `{Pandas} (c : call) : State -> State :=
  match c with
  | GetTowns => discard get_towns
  | GetFlatTypes => discard get_flat_types
  | GetTownData town => discard (get_town_data town)
  | GetFullData => discard get_full_data
  | GetHeatmapData => discard get_heatmap_data
  | SaveCache cache_file => discard (_save_cache cache_file)
  end.

Definition run_calls `{Pandas} (calls : list call) (s : State) : State :=
  fold_left (fun s c => run_call c s) calls s.

(** ** One implementation of the text conversions

    The scenarios below are run with this implementation: decimal numerals
    of at most fifteen digits, ISO dates, numbers read as nanoseconds since
    1970-01-01, numbers printed in full positional notation. *)

Definition digit_of (c : ascii) : option Z :=
  let n := nat_of_ascii c in
  if ((48 <=? n) && (n <=? 57))%nat then Some (Z.of_nat (n - 48)) else None.

Fixpoint digits_from (acc : Z) (s : string) : option Z :=
  match s with
  | EmptyString => Some acc
  | String c rest =>
      match digit_of c with
      | Some d => digits_from (10 * acc + d) rest
      | None => None
      end
  end.

(** A non-empty run of decimal digits. *)
Definition parse_digits (s : string) : option Z :=
  match s with
  | EmptyString => None
  | _ => digits_from 0 s
  end.

Fixpoint split_at (sep : ascii) (s : string) : string * option string :=
  match s with
  | EmptyString => (EmptyString, None)
  | String c rest =>
      if Ascii.eqb c sep then (EmptyString, Some rest)
      else let (a, b) := split_at sep rest in (String c a, b)
  end.

Definition parse_unsigned (s : string) : option float :=
  let (int_part, frac) := split_at "." s in
  let frac_part := match frac with Some f => f | None => EmptyString end in
  if (15 <? String.length int_part + String.length frac_part)%nat then None
  else
    match parse_digits int_part,
          (match frac with Some f => parse_digits f | None => Some 0%Z end) with
    | Some i, Some f =>
        let scale := (10 ^ Z.of_nat (String.length frac_part))%Z in
        Some (float_of_Z (i * scale + f) / float_of_Z scale)%float
    | _, _ => None
    end.

Definition parse_decimal (s : string) : option float :=
  match ascii_strip s with
  | String "-" rest => option_map PrimFloat.opp (parse_unsigned rest)
  | String "+" rest => parse_unsigned rest
  | t => parse_unsigned t
  end.

Definition in_range (lo hi z : Z) : bool := (lo <=? z)%Z && (z <=? hi)%Z.

Definition parse_iso_date (s : string) : option Timestamp :=
  let (y, rest) := split_at "-" s in
  match parse_digits y, String.length y with
  | Some year, 4%nat =>
      match rest with
      | None => Some (mkTs year 1 1 0)
      | Some rest =>
          let (m, rest) := split_at "-" rest in
          match parse_digits m, String.length m with
          | Some month, 2%nat =>
              if in_range 1 12 month then
                match rest with
                | None => Some (mkTs year month 1 0)
                | Some d =>
                    match parse_digits d, String.length d with
                    | Some day, 2%nat =>
                        if in_range 1 31 day then Some (mkTs year month day 0) else None
                    | _, _ => None
                    end
                end
              else None
          | _, _ => None
          end
      end
  | _, _ => None
  end.

(** The integer part of a finite number. *)
Definition Z_of_float (x : float) : option Z :=
  match Prim2SF x with
  | S754_zero _ => Some 0%Z
  | S754_finite sign m e =>
      let magnitude := if (0 <=? e)%Z then Z.shiftl (Zpos m) e else Z.shiftr (Zpos m) (- e) in
      Some (if sign then - magnitude else magnitude)%Z
  | _ => None
  end.

Definition nanos_per_day : Z := 86400000000000.

(** The proleptic Gregorian date of a day number counted from 1970-01-01. *)
Definition civil_from_days (days : Z) : Z * Z * Z :=
  let z := (days + 719468)%Z in
  let era := (z / 146097)%Z in
  let doe := (z - era * 146097)%Z in
  let yoe := ((doe - doe / 1460 + doe / 36524 - doe / 146096) / 365)%Z in
  let doy := (doe - (365 * yoe + yoe / 4 - yoe / 100))%Z in
  let mp := ((5 * doy + 2) / 153)%Z in
  let d := (doy - (153 * mp + 2) / 5 + 1)%Z in
  let m := if (mp <? 10)%Z then (mp + 3)%Z else (mp - 9)%Z in
  let y := (yoe + era * 400 + (if (m <=? 2)%Z then 1 else 0))%Z in
  (y, m, d).

Definition epoch_nanos (x : float) : option Timestamp :=
  match Z_of_float x with
  | Some ns =>
      if in_range (- 2 ^ 63 + 1) (2 ^ 63 - 1) ns then
        let '(y, m, d) := civil_from_days (ns / nanos_per_day) in
        Some (mkTs y m d (ns mod nanos_per_day))
      else None
  | None => None
  end.

Fixpoint digits_onto (fuel : nat) (n : Z) (acc : string) : string :=
  match fuel with
  | O => acc
  | S fuel =>
      let acc := String (ascii_of_nat (48 + Z.to_nat (n mod 10))) acc in
      if (n <? 10)%Z then acc else digits_onto fuel (n / 10) acc
  end.

Definition decimal (n : Z) : string :=
  digits_onto (S (Z.to_nat (Z.log2 n))) n EmptyString.

Fixpoint zeros (n : nat) : string :=
  match n with
  | O => EmptyString
  | S n => String "0" (zeros n)
  end.

(** [n] in at least [width] digits. *)
Definition padded (width : nat) (n : Z) : string :=
  let d := decimal n in
  (zeros (width - String.length d) ++ d)%string.

Fixpoint drop_trailing_zeros (s : string) : string :=
  match s with
  | EmptyString => EmptyString
  | String c rest =>
      let r := drop_trailing_zeros rest in
      if Ascii.eqb c "0" && is_empty r then EmptyString else String c r
  end.

Definition positional (x : float) : string :=
  match Prim2SF x with
  | S754_zero sign => if sign then "-0.0" else "0.0"
  | S754_infinity sign => if sign then "-inf" else "inf"
  | S754_nan => "nan"
  | S754_finite sign m e =>
      let body :=
        if (0 <=? e)%Z then (decimal (Z.shiftl (Zpos m) e) ++ ".0")%string
        else
          let k := (- e)%Z in
          let whole := Z.shiftr (Zpos m) k in
          let part := ((Zpos m mod 2 ^ k) * 5 ^ k)%Z in
          let digits := drop_trailing_zeros (padded (Z.to_nat k) part) in
          (decimal whole ++ "." ++ (if is_empty digits then "0" else digits))%string in
      if sign then String "-" body else body
  end.

Definition at_midnight (c : cell) : bool :=
  match c with
  | Ts t => (ts_nanos t =? 0)%Z
  | _ => true
  end.

Definition iso_date (t : Timestamp) : string :=
  (padded 4 (ts_year t) ++ "-" ++ padded 2 (ts_month t) ++ "-" ++ padded 2 (ts_day t))%string.

Definition iso_time (t : Timestamp) : string :=
  let secs := (ts_nanos t / 1000000000)%Z in
  (padded 2 (secs / 3600) ++ ":" ++ padded 2 (secs / 60 mod 60) ++ ":" ++ padded 2 (secs mod 60)
     ++ "." ++ padded 9 (ts_nanos t mod 1000000000))%string.

Definition iso_datetime (column : Series) (t : Timestamp) : string :=
  if forallb at_midnight column then iso_date t
  else (iso_date t ++ " " ++ iso_time t)%string.

#[export] Instance plain_text : Pandas := {
  str_to_numeric := parse_decimal;
  str_to_datetime := fun _ => parse_iso_date;
  num_to_datetime := epoch_nanos;
  float_repr := positional;
  datetime_repr := iso_datetime;
  title := ascii_title;
  strip := ascii_strip
}.

(** *** [str.title] and [str.strip] on an excerpt of the Unicode database *)

(** The code points of a UTF-8 byte sequence.  A Python [str] always
    encodes to well-formed UTF-8; on other byte sequences the result has no
    meaning. *)
Fixpoint utf8_decode (s : string) : list N :=
  match s with
  | EmptyString => []
  | String b0 rest =>
      let n0 := N_of_ascii b0 in
      if (n0 <? 128)%N then n0 :: utf8_decode rest
      else if (n0 <? 224)%N then
        match rest with
        | String b1 rest1 =>
            ((n0 - 192) * 64 + (N_of_ascii b1 - 128))%N :: utf8_decode rest1
        | EmptyString => [n0]
        end
      else if (n0 <? 240)%N then
        match rest with
        | String b1 (String b2 rest2) =>
            ((n0 - 224) * 4096 + (N_of_ascii b1 - 128) * 64 + (N_of_ascii b2 - 128))%N
            :: utf8_decode rest2
        | _ => [n0]
        end
      else
        match rest with
        | String b1 (String b2 (String b3 rest3)) =>
            ((n0 - 240) * 262144 + (N_of_ascii b1 - 128) * 4096
             + (N_of_ascii b2 - 128) * 64 + (N_of_ascii b3 - 128))%N
            :: utf8_decode rest3
        | _ => [n0]
        end
  end.

Definition utf8_encode_point (c : N) : string :=
  if (c <? 128)%N then String (ascii_of_N c) EmptyString
  else if (c <? 2048)%N then
    String (ascii_of_N (192 + c / 64))
      (String (ascii_of_N (128 + c mod 64)) EmptyString)
  else if (c <? 65536)%N then
    String (ascii_of_N (224 + c / 4096))
      (String (ascii_of_N (128 + (c / 64) mod 64))
         (String (ascii_of_N (128 + c mod 64)) EmptyString))
  else
    String (ascii_of_N (240 + c / 262144))
      (String (ascii_of_N (128 + (c / 4096) mod 64))
         (String (ascii_of_N (128 + (c / 64) mod 64))
            (String (ascii_of_N (128 + c mod 64)) EmptyString))).

Definition utf8_encode (l : list N) : string :=
  fold_right (fun c s => (utf8_encode_point c ++ s)%string) EmptyString l.

Definition between (lo hi c : N) : bool := ((lo <=? c) && (c <=? hi))%N.

(** [Py_UNICODE_ISSPACE]: every white-space character of Unicode. *)
Definition unicode_spaces : list N :=
  [9; 10; 11; 12; 13; 28; 29; 30; 31; 32; 133; 160; 5760;
   8192; 8193; 8194; 8195; 8196; 8197; 8198; 8199; 8200; 8201; 8202;
   8232; 8233; 8239; 8287; 12288]%N.

Definition unicode_is_space (c : N) : bool := existsb (N.eqb c) unicode_spaces.

(** The casing of the characters of Basic Latin and Latin-1 Supplement,
    of LATIN SMALL LETTER J WITH CARON (U+01F0) and of COMBINING CARON
    (U+030C).  Every other character is taken to be uncased and without
    case mapping, which is not what the database says of it. *)
Definition unicode_is_upper (c : N) : bool :=
  between 65 90 c || (between 192 222 c && negb (c =? 215)%N).

Definition unicode_is_lower (c : N) : bool :=
  between 97 122 c || (between 223 255 c && negb (c =? 247)%N)
  || (c =? 170)%N || (c =? 181)%N || (c =? 186)%N || (c =? 496)%N.

(** [_PyUnicode_IsCased] *)
Definition unicode_is_cased (c : N) : bool := unicode_is_upper c || unicode_is_lower c.

(** [_PyUnicode_ToLowerFull] *)
Definition unicode_lower (c : N) : list N :=
  if unicode_is_upper c then [c + 32]%N else [c].

(** [_PyUnicode_ToTitleFull]: the sharp s becomes "Ss", the j with caron a
    "J" followed by the combining caron; the title case of the y with
    diaeresis and of the micro sign lies outside Latin-1; the two ordinal
    indicators are cased and have no title case. *)
Definition unicode_title_case (c : N) : list N :=
  if (c =? 223)%N then [83; 115]%N
  else if (c =? 255)%N then [376]%N
  else if (c =? 181)%N then [924]%N
  else if (c =? 496)%N then [74; 780]%N
  else if ((c =? 170) || (c =? 186))%N then [c]
  else if unicode_is_lower c then [c - 32]%N
  else [c].

(** The loop of [do_title] in CPython's [unicodeobject.c]. *)
Fixpoint unicode_title_from (previous_is_cased : bool) (l : list N) : list N :=
  match l with
  | [] => []
  | c :: rest =>
      (if previous_is_cased then unicode_lower c else unicode_title_case c)
      ++ unicode_title_from (unicode_is_cased c) rest
  end.

Definition unicode_title (s : string) : string :=
  utf8_encode (unicode_title_from false (utf8_decode s)).

Fixpoint unicode_lstrip (l : list N) : list N :=
  match l with
  | [] => []
  | c :: rest => if unicode_is_space c then unicode_lstrip rest else l
  end.

Fixpoint unicode_rstrip (l : list N) : list N :=
  match l with
  | [] => []
  | c :: rest =>
      match unicode_rstrip rest with
      | [] => if unicode_is_space c then [] else [c]
      | r => c :: r
      end
  end.

Definition unicode_strip (s : string) : string :=
  utf8_encode (unicode_rstrip (unicode_lstrip (utf8_decode s))).

(** [plain_text] with the two string methods of the excerpt. *)
Definition unicode_text : Pandas := {|
  str_to_numeric := parse_decimal;
  str_to_datetime := fun _ => parse_iso_date;
  num_to_datetime := epoch_nanos;
  float_repr := positional;
  datetime_repr := iso_datetime;
  title := unicode_title;
  strip := unicode_strip
|}.

(** ** Vocabulary of the statements *)

(** A numeric column after coercion and median fill. *)
Definition filled `{Pandas} (c : Series) : Series :=
  fillna (median (to_numeric c)) (to_numeric c).

(** The rows the outlier filter keeps. *)
Definition keep_mask `{Pandas} (p a : Series) : list bool :=
  mask_and (map (cell_gt 10000) (filled p)) (map (cell_gt 20) (filled a)).

Definition normalize_town `{Pandas} (t : Series) : Series :=
  map (str_apply strip) (map (str_apply title) t).

(** Title-casing then trimming does nothing more to the title-cased and
    trimmed form of a text.  It is so of every ASCII text; it is not of
    every text, [str.title] being not idempotent on all of Unicode. *)
Definition settles `{Pandas} (c : cell) : Prop :=
  match c with
  | Str w => strip (title (strip (title w))) = strip (title w)
  | _ => True
  end.

(** The frame after the lease stage, and what that stage logs. *)
Definition with_lease `{Pandas} (current_year : Z) (d : DataFrame) : DataFrame * list log_record :=
  match getcol "lease_commence_date" d with
  | Ok l =>
      (setcol "lease_remaining" (lease_remaining_of current_year (to_datetime l))
         (setcol "lease_commence_date" (to_datetime l) d), [])
  | Raise e =>
      (setcol "lease_remaining" (repeat (Num nan) (nrows d)) d, [LeaseDateError e])
  end.

(** The frame after the conversions and the derivation of
    [price_per_sqm]; [m], [p] and [a] are the month, price and area columns
    of [d]. *)
Definition converted `{Pandas} (d : DataFrame) (m p a : Series) : DataFrame :=
  setcol "price_per_sqm" (series_div (filled p) (filled a))
    (setcol "floor_area_sqm" (filled a)
      (setcol "resale_price" (filled p)
        (setcol "month" (to_datetime m) d))).

(** The frame [_clean_data] leaves when no statement of it raises; [t] is
    the town column of [d]. *)
Definition cleaned `{Pandas} (current_year : Z) (d : DataFrame) (m p a t : Series) : DataFrame :=
  select_rows (keep_mask p a)
    (setcol "town" (normalize_town t)
      (fst (with_lease current_year (converted d m p a)))).

Definition cell_at (name : string) (i : nat) (d : DataFrame) : option cell :=
  match lookup name (columns d) with
  | Some s => nth_error s i
  | None => None
  end.

(** Row [i] passes the outlier predicate. *)
Definition row_ok (d : DataFrame) (i : nat) : Prop :=
  exists p a : float,
    cell_at "resale_price" i d = Some (Num p) /\ (10000 <? p)%float = true /\
    cell_at "floor_area_sqm" i d = Some (Num a) /\ (20 <? a)%float = true.

(** The coercion of [pd.to_numeric(..., errors='coerce')] fails on a cell. *)
Definition fails_coercion `{Pandas} (c : cell) : Prop := isna (numeric_of_cell c) = true.

(** The records a response carries. *)
Definition records_of (r : response) : list record :=
  match r with
  | Page _ records => records
  | _ => []
  end.

(** The records of the first [n] responses, in order. *)
Definition fetched (responses : nat -> response) (n : nat) : list record :=
  flat_map (fun i => records_of (responses i)) (seq 0 n).

(** The total the first response reports. *)
Definition reported_total (responses : nat -> response) : option Z :=
  match responses 0 with
  | Page total _ => total
  | _ => None
  end.

(** The exception a failed request raises inside the loop. *)
Definition error_of (r : response) : option exn :=
  match r with
  | TransportError => Some RequestException
  | InvalidEnvelope => Some (ValueError "Invalid API response structure")
  | Page _ _ => None
  end.

Definition logged (s : State) (l : list log_record) : State :=
  mkState (df s) (files s) (log s ++ l).

(** How the loop may come to an end: with all records once their number
    has reached the total, with the records accumulated so far after a
    failed request, or with the exception of a failed request when nothing
    has been accumulated (or of a first envelope without total). *)
Definition stops_properly (responses : nat -> response) (s : State)
    (r : result (list record)) (s' : State) : Prop :=
  match r with
  | Ok records =>
      exists total, reported_total responses = Some total /\
        (((total <= Z.of_nat (length records))%Z /\ s' = s) \/
         (0 < length records /\
          exists e, s' = logged s [ApiError e; ReturningPartialData (length records)]))
  | Raise e =>
      (e = KeyError "total" /\ s' = s) \/ s' = logged s [ApiError e]
  end.

(** A computation that gives no answer, whatever the number of iterations
    it is allowed. *)
Definition diverges {A : Type} (run : nat -> D A) (s : State) : Prop :=
  forall fuel, run fuel s = None.

(** A source that answers every request with an empty page and a total
    of one record. *)
Definition empty_pages : nat -> response := fun _ => Page (Some 1%Z) [].

(** A source whose first answer is an empty page and which then fails. *)
Definition empty_page_then_error : nat -> response :=
  fun k => match k with
           | O => Page (Some 5%Z) []
           | S _ => TransportError
           end.

(** A source whose first page carries two of five records and whose second
    answer is a transport error. *)
Definition page_then_error : nat -> response :=
  fun k => match k with
           | O => Page (Some 5%Z) [[("town", Str "Bedok")]; [("town", Str "Yishun")]]
           | S _ => TransportError
           end.

(** A source that serves a table of three records, two per page. *)
Definition three_records : nat -> response :=
  fun k => match k with
           | O => Page (Some 3%Z) [[("town", Str "Bedok")]; [("town", Str "Yishun")]]
           | _ => Page (Some 3%Z) [[("town", Str "Tampines")]]
           end.

(** A column the columnar format stores as it is: its present values are
    of one kind, and a column of text or of dates holds no [nan]. *)
Definition stored_exactly (s : Series) : bool :=
  arrow_accepts s
  && (negb (existsb is_str s || existsb is_ts s) || negb (existsb is_num s)).

(** Two records whose [flat_type] is text in one and a number in the other. *)
Definition mixed_records : list record :=
  [ [("month", Str "2023-01"); ("town", Str "Bedok"); ("flat_type", Str "4 ROOM");
     ("floor_area_sqm", Num 92); ("resale_price", Num 400000);
     ("lease_commence_date", Str "1985")];
    [("month", Str "2023-02"); ("town", Str "Bedok"); ("flat_type", Num 5);
     ("floor_area_sqm", Num 110); ("resale_price", Num 420000);
     ("lease_commence_date", Str "1990")] ].



(** The table the sample generator leaves in year 2026, with [plain_text]. *)
Definition cleaned_sample : DataFrame :=
  Eval vm_compute in
    match df (snd (@_generate_sample_data plain_text 2026 (mkState None [] []))) with
    | Some d => d
    | None => empty_frame
    end.


(** The character [str.title] puts at a position. *)
Definition recase (previous_is_cased : bool) (c : ascii) : ascii :=
  if previous_is_cased then to_lower c else to_upper c.

(** A method that leaves the state as it found it. *)
Definition read_only {A : Type} (m : M A) : Prop := forall s, snd (m s) = s.

(** A cell of a date column. *)
Definition dated (c : cell) : Prop :=
  match c with
  | Ts _ | Null => True
  | _ => False
  end.

(** A processor that holds the raw sample table. *)
Definition sample_state : State := mkState (Some sample) [] [].

(** The scenario of the specification: the first record has an unreadable
    price, an area of 80 and the town " bedok ". *)
Definition scenario_records : list record :=
  [ [("month", Str "2023-01"); ("town", Str " bedok "); ("flat_type", Str "3 ROOM");
     ("floor_area_sqm", Num 80); ("resale_price", Str "bad");
     ("lease_commence_date", Str "1979")];
    [("month", Str "2023-01"); ("town", Str "ANG MO KIO"); ("flat_type", Str "4 ROOM");
     ("floor_area_sqm", Str "92"); ("resale_price", Str "400000");
     ("lease_commence_date", Str "1985")];
    [("month", Str "2023-02"); ("town", Str "bedok"); ("flat_type", Str "5 ROOM");
     ("floor_area_sqm", Num 110); ("resale_price", Num 420000);
     ("lease_commence_date", Str "1990")] ].


(** Raw tables in which no price can be read. *)
Definition unreadable_prices : list record :=
  [ [("month", Str "2023-01"); ("town", Str "Bedok");
     ("floor_area_sqm", Num 80); ("resale_price", Str "bad")];
    [("month", Str "2023-02"); ("town", Str "Bedok");
     ("floor_area_sqm", Num 85); ("resale_price", Null)] ].

Definition without_town : list record :=
  [ [("month", Str "2023-01"); ("floor_area_sqm", Num 80); ("resale_price", Str "bad")] ].

Definition without_month : list record :=
  [ [("town", Str "Bedok"); ("floor_area_sqm", Num 80); ("resale_price", Str "bad")] ].

Definition numeric_town : list record :=
  [ [("month", Str "2023-01"); ("town", Num 12); ("floor_area_sqm", Num 80);
     ("resale_price", Str "bad")] ].

(** The frame pyarrow gives back: that of [arrow_column] on every column. *)
Definition arrow_frame (d : DataFrame) : DataFrame :=
  mkFrame (nrows d) (map (fun kv => (fst kv, arrow_column (snd kv))) (columns d)).






(** Two records without any field: the raw table has two rows and no
    column. *)
Definition fieldless_records : list record := [[]; []].

(** One record whose town is LATIN SMALL LETTER J WITH CARON (U+01F0)
    followed by "a". *)
Definition caron_records : list record :=
  [ [("month", Str "2023-01"); ("town", Str (utf8_encode [496; 97]%N));
     ("flat_type", Str "3 ROOM"); ("floor_area_sqm", Num 80);
     ("resale_price", Num 400000); ("lease_commence_date", Str "1979")] ].


(** ** Vocabulary of the further properties *)

(** Method [m] adds to the log only records that satisfy [P]. *)
Definition logs_only {A : Type} (P : log_record -> Prop) (m : M A) : Prop :=
  forall s, exists l, log (snd (m s)) = log s ++ l /\ Forall P l.

(** A record other than the two the sample strategy emits. *)
Definition not_sample (r : log_record) : Prop :=
  r <> GeneratingSampleData /\ r <> CacheFailedGeneratingSample.

Definition has_column (name : string) (d : DataFrame) : bool :=
  match lookup name (columns d) with
  | Some _ => true
  | None => false
  end.

(** The frame has the columns [_clean_data] subscripts outside its [try],
    and a [town] column the [.str] accessor accepts. *)
Definition cleanable (d : DataFrame) : bool :=
  has_column "month" d && has_column "resale_price" d && has_column "floor_area_sqm" d
  && match lookup "town" (columns d) with
     | Some t => str_accepts t
     | None => false
     end.

(** The exceptions [_clean_data] can raise on a table it starts to clean. *)
Definition cleaning_error (e : exn) : Prop :=
  e = KeyError "month" \/ e = KeyError "resale_price" \/ e = KeyError "floor_area_sqm" \/
  e = KeyError "town" \/ e = AttributeError "Can only use .str accessor with string values!".

(** A town as the pipeline leaves it: missing, or the title-cased and then
    trimmed form of a text of the raw column. *)
Definition normalized_from `{Pandas} (raw : Series) (c : cell) : Prop :=
  match c with
  | Null => True
  | Str v => exists w, In (Str w) raw /\ v = strip (title w)
  | _ => False
  end.

(** A town that trimming leaves as it is, or a missing one. *)
Definition trimmed `{Pandas} (c : cell) : Prop :=
  match c with
  | Null => True
  | Str v => strip v = v
  | _ => False
  end.

Definition numeric (c : cell) : Prop :=
  match c with
  | Num _ => True
  | _ => False
  end.

Definition text (c : cell) : Prop :=
  match c with
  | Str _ => True
  | _ => False
  end.

(** The processor state a constructor call starts from: [self.df = None]. *)
Definition fresh (s : State) : State := mkState None (files s) (log s).

(** Method [m] leaves the file system alone. *)
Definition keeps_files {A : Type} (m : M A) : Prop :=
  forall s, files (snd (m s)) = files s.

(** Method [m] leaves the log alone. *)
Definition silent {A : Type} (m : M A) : Prop :=
  forall s, log (snd (m s)) = log s.

(** A source that serves the three records of the scenario in one page. *)
Definition scenario_source : nat -> response :=
  fun _ => Page (Some 3%Z) scenario_records.

(** The constructor took its [except] branch between the two states. *)
Definition fell_back (s0 s1 : State) : Prop :=
  exists l, log s1 = log s0 ++ l /\ In AttemptingFallback l.

Definition failing_source : nat -> response := fun _ => TransportError.

(** The columns [_clean_data] assigns. *)
Definition touched : list string :=
  ["month"; "resale_price"; "floor_area_sqm"; "price_per_sqm";
   "lease_commence_date"; "lease_remaining"; "town"].

(** The state in which the processor holds the raw table of the scenario. *)
Definition scenario_state : State :=
  mkState (Some (DataFrame_of_records scenario_records)) [] [].

(** The raw table of the scenario without its [lease_commence_date]. *)
Definition undated_state : State :=
  mkState (Some (DataFrame_of_records
                   (map (filter (fun kv : string * cell =>
                                   negb (fst kv =? "lease_commence_date")))
                        scenario_records))) [] [].

(** Column [name] exists and all its cells satisfy [Q]. *)
Definition column_is (Q : cell -> Prop) (name : string) (d : DataFrame) : Prop :=
  exists c, getcol name d = Ok c /\ Forall Q c.

(** A list of cells in ascending order of [cell_leb]. *)
Definition ascending (l : list cell) : Prop :=
  Sorted (fun a b => cell_leb a b = true) l.

Definition is_date (c : cell) : Prop :=
  match c with
  | Ts _ => True
  | _ => False
  end.

(** The cells on which [cell_eqb] is equality. *)
Definition keyed (c : cell) : Prop :=
  match c with
  | Str _ | Ts _ => True
  | _ => False
  end.

(** [l] lists the values of [t], each once, in ascending order. *)
Definition listed (t l : list cell) : Prop :=
  ascending l /\ NoDup l /\ forall c, In c l <-> In c t.

(** The frame [get_town_data] returns when no row matches. *)
Definition empty_series : DataFrame :=
  mkFrame 0 [("month", []); ("resale_price", []); ("price_per_sqm", []);
             ("lease_remaining", [])].

(** The rows [get_town_data] selects for [town]. *)
Definition town_mask `{Pandas} (town : string) (towns : Series) : list bool :=
  map (equals_str (title town)) towns.

(** The state a successful cleaning of the scenario leaves. *)
Definition scenario_cleaned : State := snd (@_clean_data plain_text 2026 scenario_state).

(** The mean of [values] over the rows whose key is [k], missing values
    skipped: one cell of the aggregated frame. *)
Definition group_mean (keys values : Series) (k : cell) : cell :=
  Num (mean_floats (dropna (select (map (cell_eqb k) keys) values))).

Definition present (c : cell) : bool := negb (isna c).

(** The frame [get_town_data] builds from the selected rows: one row per
    group, with the means of the three aggregated columns. *)
Definition series_frame (groups m p q l : Series) : DataFrame :=
  mkFrame (length groups)
    [("month", groups);
     ("resale_price", map (group_mean m p) groups);
     ("price_per_sqm", map (group_mean m q) groups);
     ("lease_remaining", map (group_mean m l) groups)].

(** *** Vocabulary of the heat map *)








(** *** Vocabulary of the fetcher *)

(** Two sources that give the same first answer and, request by request,
    the same failure or the same records; the totals of their later pages
    may differ. *)
Definition same_stream (r r' : nat -> response) : Prop :=
  r 0 = r' 0 /\
  forall k, error_of (r k) = error_of (r' k) /\ records_of (r k) = records_of (r' k).

(** [three_records] with a second page that reports no total. *)
Definition three_records_untotalled : nat -> response :=
  fun k => match k with
           | O => Page (Some 3%Z) [[("town", Str "Bedok")]; [("town", Str "Yishun")]]
           | _ => Page None [[("town", Str "Tampines")]]
           end.

(** A source whose first page holds a record but reports no total. *)
Definition untotalled_source : nat -> response :=
  fun _ => Page None [[("town", Str "Bedok")]].

(** A columnar file that holds the raw table of [unreadable_prices]. *)
Definition stale_cache : file :=
  ParquetFile 2
    [("month", StringArray [Some "2023-01"; Some "2023-02"]);
     ("town", StringArray [Some "Bedok"; Some "Bedok"]);
     ("floor_area_sqm", DoubleArray [Some 80%float; Some 85%float]);
     ("resale_price", StringArray [Some "bad"; None])].

(** * Properties *)

Unset Implicit Arguments.

(** ** Characters and strings *)

Ltac by_cases_on_char c :=
  destruct c as [[] [] [] [] [] [] [] []]; vm_compute; congruence.

Lemma to_lower_idem (c : ascii) : to_lower (to_lower c) = to_lower c.
Proof. by_cases_on_char c. Qed.

Lemma to_upper_idem (c : ascii) : to_upper (to_upper c) = to_upper c.
Proof. by_cases_on_char c. Qed.

Lemma is_cased_to_lower (c : ascii) : is_cased (to_lower c) = is_cased c.
Proof. by_cases_on_char c. Qed.

Lemma is_cased_to_upper (c : ascii) : is_cased (to_upper c) = is_cased c.
Proof. by_cases_on_char c. Qed.

Lemma is_space_to_lower (c : ascii) : is_space (to_lower c) = is_space c.
Proof. by_cases_on_char c. Qed.

Lemma is_space_to_upper (c : ascii) : is_space (to_upper c) = is_space c.
Proof. by_cases_on_char c. Qed.

Lemma space_is_not_cased (c : ascii) : is_space c = true -> is_cased c = false.
Proof. by_cases_on_char c. Qed.

Lemma recase_idem (b : bool) (c : ascii) : recase b (recase b c) = recase b c.
Proof. destruct b; simpl; [apply to_lower_idem | apply to_upper_idem]. Qed.

Lemma is_cased_recase (b : bool) (c : ascii) : is_cased (recase b c) = is_cased c.
Proof. destruct b; simpl; [apply is_cased_to_lower | apply is_cased_to_upper]. Qed.

Lemma is_space_recase (b : bool) (c : ascii) : is_space (recase b c) = is_space c.
Proof. destruct b; simpl; [apply is_space_to_lower | apply is_space_to_upper]. Qed.

Lemma title_from_cons (b : bool) (c : ascii) (s : string) :
  title_from b (String c s) = String (recase b c) (title_from (is_cased c) s).
Proof. reflexivity. Qed.

Lemma title_from_idem (s : string) :
  forall b, title_from b (title_from b s) = title_from b s.
Proof.
  induction s as [|c s IH]; intro b; [reflexivity|].
  rewrite !title_from_cons, recase_idem, is_cased_recase, IH. reflexivity.
Qed.

Lemma is_empty_title_from (b : bool) (s : string) :
  is_empty (title_from b s) = is_empty s.
Proof. destruct s; reflexivity. Qed.

Lemma lstrip_title (s : string) :
  lstrip (title_from false s) = title_from false (lstrip s).
Proof.
  induction s as [|c s IH]; [reflexivity|].
  rewrite title_from_cons. cbn [lstrip]. rewrite is_space_recase.
  destruct (is_space c) eqn:Hc.
  - rewrite (space_is_not_cased c Hc). exact IH.
  - reflexivity.
Qed.

Lemma rstrip_title (s : string) :
  forall b, rstrip (title_from b s) = title_from b (rstrip s).
Proof.
  induction s as [|c s IH]; intro b; [reflexivity|].
  rewrite title_from_cons. cbn [rstrip].
  rewrite is_space_recase, IH, is_empty_title_from.
  destruct (is_space c && is_empty (rstrip s)); reflexivity.
Qed.

Lemma strip_title (s : string) : ascii_strip (ascii_title s) = ascii_title (ascii_strip s).
Proof. unfold ascii_strip, ascii_title. rewrite lstrip_title. apply rstrip_title. Qed.

Lemma rstrip_idem (s : string) : rstrip (rstrip s) = rstrip s.
Proof.
  induction s as [|c s IH]; [reflexivity|].
  simpl. destruct (is_space c && is_empty (rstrip s)) eqn:E; [reflexivity|].
  simpl. rewrite IH, E. reflexivity.
Qed.

Lemma lstrip_head (s : string) :
  match lstrip s with
  | EmptyString => True
  | String c _ => is_space c = false
  end.
Proof.
  induction s as [|c s IH]; simpl; [exact I|].
  destruct (is_space c) eqn:E; [exact IH | exact E].
Qed.

Lemma lstrip_rstrip_fixed (s : string) :
  match s with EmptyString => True | String c _ => is_space c = false end ->
  lstrip (rstrip s) = rstrip s.
Proof.
  destruct s as [|c s]; [reflexivity|].
  intro Hc. simpl. rewrite Hc. simpl. rewrite Hc. reflexivity.
Qed.

Lemma strip_idem (s : string) : ascii_strip (ascii_strip s) = ascii_strip s.
Proof.
  unfold ascii_strip. rewrite (lstrip_rstrip_fixed (lstrip s) (lstrip_head s)).
  apply rstrip_idem.
Qed.

Lemma title_idem (s : string) : ascii_title (ascii_title s) = ascii_title s.
Proof. apply title_from_idem. Qed.

(** Title-casing then trimming is a no-op on a value it has produced. *)
Lemma normalize_idem (s : string) :
  ascii_strip (ascii_title (ascii_strip (ascii_title s))) = ascii_strip (ascii_title s).
Proof.
  rewrite (strip_title s), title_idem, strip_title, strip_idem. reflexivity.
Qed.

(** ** Numbers *)

Lemma SFcompare_refl (a : spec_float) :
  a <> S754_nan -> SFcompare a a = Some Eq.
Proof.
  destruct a as [s|s| |s m e]; intro H; simpl; try congruence.
  - destruct s; reflexivity.
  - rewrite Z.compare_refl.
    assert (Hm : PosDef.Pos.compare_cont Eq m m = Eq) by apply Pos.compare_cont_refl.
    rewrite Hm. destruct s; reflexivity.
Qed.

(** A number above a bound is not [nan]. *)
Lemma above_is_not_nan (bound x : float) :
  (bound <? x)%float = true -> is_nan x = false.
Proof.
  intro H. unfold is_nan.
  rewrite FloatAxioms.ltb_spec in H. rewrite FloatAxioms.eqb_spec.
  unfold SFltb in H. unfold SFeqb.
  rewrite SFcompare_refl; [reflexivity|].
  intro Hn. rewrite Hn in H. destruct (Prim2SF bound); discriminate.
Qed.

(** ** Columns *)

Lemma lookup_assign_eq {A : Type} (k : string) (v : A) (l : list (string * A)) :
  lookup k (assign k v l) = Some v.
Proof.
  induction l as [|[k' w] l IH]; simpl.
  - rewrite String.eqb_refl. reflexivity.
  - destruct (k' =? k) eqn:E; simpl; rewrite E; [reflexivity | exact IH].
Qed.

Lemma lookup_assign_ne {A : Type} (k k' : string) (v : A) (l : list (string * A)) :
  (k =? k') = false -> lookup k' (assign k v l) = lookup k' l.
Proof.
  intro Hne. induction l as [|[k0 w] l IH]; simpl.
  - rewrite Hne. reflexivity.
  - destruct (k0 =? k) eqn:E; simpl.
    + apply String.eqb_eq in E. subst k0. rewrite Hne. reflexivity.
    + destruct (k0 =? k'); [reflexivity | exact IH].
Qed.

Lemma assign_assign {A : Type} (k : string) (v w : A) (l : list (string * A)) :
  assign k w (assign k v l) = assign k w l.
Proof.
  induction l as [|[k0 u] l IH]; simpl.
  - rewrite String.eqb_refl. reflexivity.
  - destruct (k0 =? k) eqn:E; simpl; rewrite E; [reflexivity | rewrite IH; reflexivity].
Qed.

(** ** Running the methods *)

Lemma bind_run {A B : Type} (m : M A) (k : A -> M B) (s : State) :
  bind m k s = match m s with
               | (Ok a, s') => k a s'
               | (Raise e, s') => (Raise e, s')
               end.
Proof. reflexivity. Qed.

Lemma getitem_run (name : string) (d : DataFrame) fs lg :
  getitem name (mkState (Some d) fs lg) = (getcol name d, mkState (Some d) fs lg).
Proof. reflexivity. Qed.

Lemma setitem_run (name : string) (v : Series) (d : DataFrame) fs lg :
  setitem name v (mkState (Some d) fs lg)
  = (Ok tt, mkState (Some (setcol name v d)) fs lg).
Proof. reflexivity. Qed.

Lemma getcol_setcol_eq (name : string) (v : Series) (d : DataFrame) :
  getcol name (setcol name v d) = Ok v.
Proof. unfold getcol, setcol. simpl. rewrite lookup_assign_eq. reflexivity. Qed.

Lemma getcol_setcol_ne (k name : string) (v : Series) (d : DataFrame) :
  (k =? name) = false -> getcol name (setcol k v d) = getcol name d.
Proof. intro E. unfold getcol, setcol. simpl. rewrite lookup_assign_ne by exact E. reflexivity. Qed.

Lemma setcol_setcol (name : string) (v w : Series) (d : DataFrame) :
  setcol name w (setcol name v d) = setcol name w d.
Proof. unfold setcol. simpl. rewrite assign_assign. reflexivity. Qed.

(** One statement of a method body: unfold the sequencing, run the
    statement, continue with its outcome. *)
Ltac run_item :=
  rewrite bind_run;
  first [ rewrite getitem_run | rewrite setitem_run ];
  cbv beta iota.

Lemma str_apply_kinds (f : string -> string) (s : Series) :
  existsb is_num (map (str_apply f) s) = false /\
  existsb is_ts (map (str_apply f) s) = false.
Proof.
  induction s as [|c s [IH1 IH2]]; simpl; [split; reflexivity|].
  rewrite IH1, IH2. destruct c; split; reflexivity.
Qed.

(** The outcome of a [.str] method is a column [.str] accepts. *)
Lemma str_accepts_str_apply (f : string -> string) (s : Series) :
  str_accepts (map (str_apply f) s) = true.
Proof.
  unfold str_accepts. destruct (str_apply_kinds f s) as [E1 E2].
  rewrite E1, E2. simpl. rewrite orb_true_r. reflexivity.
Qed.

Section Cleaning.
Context `{Pandas}.

Lemma convert_numeric_run (col : string) (c : Series) (d : DataFrame) fs lg :
  getcol col d = Ok c ->
  convert_numeric col (mkState (Some d) fs lg)
  = (Ok tt, mkState (Some (setcol col (filled c) d)) fs lg).
Proof.
  intro Hc. unfold convert_numeric.
  run_item. rewrite Hc. cbv beta iota.
  run_item.
  run_item. rewrite getcol_setcol_eq. cbv beta iota zeta.
  run_item. rewrite getcol_setcol_eq. cbv beta iota.
  rewrite setitem_run, setcol_setcol. reflexivity.
Qed.

Lemma convert_numeric_fails (col : string) (e : exn) (d : DataFrame) fs lg :
  getcol col d = Raise e ->
  convert_numeric col (mkState (Some d) fs lg) = (Raise e, mkState (Some d) fs lg).
Proof.
  intro Hc. unfold convert_numeric. run_item. rewrite Hc. reflexivity.
Qed.

Lemma lease_stage_run (current_year : Z) (d : DataFrame) fs lg :
  try_except (lease_dates current_year) lease_failed (mkState (Some d) fs lg)
  = (Ok tt, mkState (Some (fst (with_lease current_year d))) fs
                    (lg ++ snd (with_lease current_year d))).
Proof.
  unfold try_except, lease_dates, with_lease.
  run_item.
  destruct (getcol "lease_commence_date" d) as [l|e] eqn:Hl; cbv beta iota.
  - run_item. run_item. rewrite getcol_setcol_eq. cbv beta iota.
    rewrite setitem_run. simpl. rewrite app_nil_r. reflexivity.
  - reflexivity.
Qed.

Lemma filter_outliers_run (p a : Series) (d : DataFrame) fs lg :
  getcol "resale_price" d = Ok p ->
  getcol "floor_area_sqm" d = Ok a ->
  filter_outliers (mkState (Some d) fs lg)
  = (Ok tt, mkState (Some (select_rows (mask_and (map (cell_gt 10000) p)
                                                (map (cell_gt 20) a)) d)) fs lg).
Proof.
  intros Hp Ha. unfold filter_outliers.
  run_item. rewrite Hp. cbv beta iota.
  run_item. rewrite Ha. cbv beta iota.
  reflexivity.
Qed.

Lemma getcol_with_lease (current_year : Z) (name : string) (d : DataFrame) :
  (name =? "lease_commence_date") = false ->
  (name =? "lease_remaining") = false ->
  getcol name (fst (with_lease current_year d)) = getcol name d.
Proof.
  intros H1 H2. unfold with_lease.
  assert (E1 : ("lease_commence_date" =? name) = false) by (rewrite String.eqb_sym; exact H1).
  assert (E2 : ("lease_remaining" =? name) = false) by (rewrite String.eqb_sym; exact H2).
  destruct (getcol "lease_commence_date" d); simpl;
    rewrite ?getcol_setcol_ne by assumption; reflexivity.
Qed.

Lemma clean_runs (current_year : Z) (d : DataFrame) (m p a t : Series) fs lg :
  empty d = false ->
  getcol "month" d = Ok m ->
  getcol "resale_price" d = Ok p ->
  getcol "floor_area_sqm" d = Ok a ->
  getcol "town" d = Ok t ->
  str_accepts t = true ->
  exists lease_log,
    _clean_data current_year (mkState (Some d) fs lg) =
      (Ok tt, mkState (Some (cleaned current_year d m p a t)) fs (lg ++ lease_log)).
Proof.
  intros He Hm Hp Ha Ht Hacc.
  eexists. unfold _clean_data, cleaned, converted.
  rewrite bind_run. unfold get_df at 1. cbn [df]. cbv beta iota. rewrite He.
  run_item. rewrite Hm. cbv beta iota.
  run_item.
  rewrite bind_run, convert_numeric_run with (c := p)
    by (rewrite getcol_setcol_ne by reflexivity; exact Hp).
  cbv beta iota.
  rewrite bind_run, convert_numeric_run with (c := a)
    by (rewrite !getcol_setcol_ne by reflexivity; exact Ha).
  cbv beta iota.
  run_item. rewrite getcol_setcol_ne, getcol_setcol_eq by reflexivity. cbv beta iota.
  run_item. rewrite getcol_setcol_eq. cbv beta iota.
  run_item.
  rewrite bind_run, lease_stage_run. cbv beta iota.
  run_item.
  rewrite getcol_with_lease, !getcol_setcol_ne, Ht by reflexivity. cbv beta iota.
  rewrite bind_run. unfold lift at 1, str_method at 1. rewrite Hacc. cbv beta iota.
  rewrite bind_run. unfold lift at 1, str_method at 1.
  rewrite str_accepts_str_apply. cbv beta iota.
  run_item.
  rewrite filter_outliers_run with (p := filled p) (a := filled a).
  - reflexivity.
  - rewrite getcol_setcol_ne, getcol_with_lease, getcol_setcol_ne,
      getcol_setcol_ne, getcol_setcol_eq by reflexivity.
    reflexivity.
  - rewrite getcol_setcol_ne, getcol_with_lease, getcol_setcol_ne,
      getcol_setcol_eq by reflexivity.
    reflexivity.
Qed.

Lemma clean_noop (current_year : Z) (d : DataFrame) fs lg :
  empty d = true ->
  _clean_data current_year (mkState (Some d) fs lg)
  = (Ok tt, mkState (Some d) fs (lg ++ [NoDataToClean])).
Proof.
  intro He. unfold _clean_data.
  rewrite bind_run. unfold get_df at 1. cbn [df]. cbv beta iota. rewrite He.
  reflexivity.
Qed.

Lemma clean_absent (current_year : Z) fs lg :
  _clean_data current_year (mkState None fs lg)
  = (Ok tt, mkState None fs (lg ++ [NoDataToClean])).
Proof. reflexivity. Qed.

(** What a normal return of [_clean_data] on a non-empty frame means. *)
Lemma clean_returns (current_year : Z) (d : DataFrame) fs lg (s' : State) :
  empty d = false ->
  _clean_data current_year (mkState (Some d) fs lg) = (Ok tt, s') ->
  exists m p a t lease_log,
    getcol "month" d = Ok m /\
    getcol "resale_price" d = Ok p /\
    getcol "floor_area_sqm" d = Ok a /\
    getcol "town" d = Ok t /\
    str_accepts t = true /\
    s' = mkState (Some (cleaned current_year d m p a t)) fs (lg ++ lease_log).
Proof.
  intros He Hrun.
  destruct (getcol "month" d) as [m|e] eqn:Hm.
  2:{ unfold _clean_data in Hrun.
      rewrite bind_run in Hrun. unfold get_df at 1 in Hrun. cbn [df] in Hrun.
      cbv beta iota in Hrun. rewrite He in Hrun.
      rewrite bind_run, getitem_run, Hm in Hrun. discriminate. }
  destruct (getcol "resale_price" d) as [p|e] eqn:Hp.
  2:{ unfold _clean_data in Hrun.
      rewrite bind_run in Hrun. unfold get_df at 1 in Hrun. cbn [df] in Hrun.
      cbv beta iota in Hrun. rewrite He in Hrun.
      rewrite bind_run, getitem_run, Hm in Hrun. cbv beta iota in Hrun.
      rewrite bind_run, setitem_run in Hrun. cbv beta iota in Hrun.
      rewrite bind_run, convert_numeric_fails with (e := e) in Hrun
        by (rewrite getcol_setcol_ne by reflexivity; exact Hp).
      discriminate. }
  destruct (getcol "floor_area_sqm" d) as [a|e] eqn:Ha.
  2:{ unfold _clean_data in Hrun.
      rewrite bind_run in Hrun. unfold get_df at 1 in Hrun. cbn [df] in Hrun.
      cbv beta iota in Hrun. rewrite He in Hrun.
      rewrite bind_run, getitem_run, Hm in Hrun. cbv beta iota in Hrun.
      rewrite bind_run, setitem_run in Hrun. cbv beta iota in Hrun.
      rewrite bind_run, convert_numeric_run with (c := p) in Hrun
        by (rewrite getcol_setcol_ne by reflexivity; exact Hp).
      cbv beta iota in Hrun.
      rewrite bind_run, convert_numeric_fails with (e := e) in Hrun
        by (rewrite !getcol_setcol_ne by reflexivity; exact Ha).
      discriminate. }
  assert (Hprefix : forall k : M unit,
    (m <- getitem "month" ;;
     setitem "month" (to_datetime m) ;;
     convert_numeric "resale_price" ;;
     convert_numeric "floor_area_sqm" ;;
     p <- getitem "resale_price" ;;
     a <- getitem "floor_area_sqm" ;;
     setitem "price_per_sqm" (series_div p a) ;;
     try_except (lease_dates current_year) lease_failed ;;
     k) (mkState (Some d) fs lg)
    = k (mkState (Some (fst (with_lease current_year (converted d m p a)))) fs
                 (lg ++ snd (with_lease current_year (converted d m p a))))).
  { intro k. unfold converted.
    run_item. rewrite Hm. cbv beta iota.
    run_item.
    rewrite bind_run, convert_numeric_run with (c := p)
      by (rewrite getcol_setcol_ne by reflexivity; exact Hp).
    cbv beta iota.
    rewrite bind_run, convert_numeric_run with (c := a)
      by (rewrite !getcol_setcol_ne by reflexivity; exact Ha).
    cbv beta iota.
    run_item. rewrite getcol_setcol_ne, getcol_setcol_eq by reflexivity. cbv beta iota.
    run_item. rewrite getcol_setcol_eq. cbv beta iota.
    run_item.
    rewrite bind_run, lease_stage_run. cbv beta iota. reflexivity. }
  destruct (getcol "town" d) as [t|e] eqn:Ht.
  2:{ unfold _clean_data in Hrun.
      rewrite bind_run in Hrun. unfold get_df at 1 in Hrun. cbn [df] in Hrun.
      cbv beta iota in Hrun. rewrite He, Hprefix in Hrun. unfold converted in Hrun.
      rewrite bind_run, getitem_run in Hrun.
      rewrite getcol_with_lease, !getcol_setcol_ne, Ht in Hrun by reflexivity.
      discriminate. }
  destruct (str_accepts t) eqn:Hacc.
  2:{ unfold _clean_data in Hrun.
      rewrite bind_run in Hrun. unfold get_df at 1 in Hrun. cbn [df] in Hrun.
      cbv beta iota in Hrun. rewrite He, Hprefix in Hrun. unfold converted in Hrun.
      rewrite bind_run, getitem_run in Hrun.
      rewrite getcol_with_lease, !getcol_setcol_ne, Ht in Hrun by reflexivity.
      cbv beta iota in Hrun.
      rewrite bind_run in Hrun. unfold lift at 1, str_method at 1 in Hrun.
      rewrite Hacc in Hrun. discriminate. }
  destruct (@clean_runs current_year d m p a t fs lg He Hm Hp Ha Ht Hacc) as [lease_log Hok].
  rewrite Hok in Hrun. injection Hrun as <-.
  exists m, p, a, t, lease_log. repeat split; first [assumption | reflexivity].
Qed.

End Cleaning.

(** ** Boolean indexing *)

Lemma select_nil_r {A : Type} (mask : list bool) : select mask (@nil A) = [].
Proof. destruct mask as [|[] mask]; reflexivity. Qed.

Lemma select_length {A : Type} (mask : list bool) (l : list A) :
  length mask <= length l -> length (select mask l) = count_true mask.
Proof.
  revert l. induction mask as [|b mask IH]; intros l Hl; [reflexivity|].
  destruct l as [|x l]; simpl in Hl; [lia|].
  unfold count_true in *. destruct b; simpl; rewrite IH by lia; reflexivity.
Qed.

Lemma select_Forall {A : Type} (Q : A -> Prop) (mask : list bool) (l : list A) :
  (forall i x, nth_error mask i = Some true -> nth_error l i = Some x -> Q x) ->
  Forall Q (select mask l).
Proof.
  revert l. induction mask as [|b mask IH]; intros l Hq; [constructor|].
  destruct l as [|x l]; [constructor|].
  assert (Hrest : Forall Q (select mask l)).
  { apply IH. intros i y Hi Hy. exact (Hq (S i) y Hi Hy). }
  destruct b; simpl; [|exact Hrest].
  constructor; [|exact Hrest]. exact (Hq 0 x eq_refl eq_refl).
Qed.

Lemma select_map {A B : Type} (f : A -> B) (mask : list bool) (l : list A) :
  select mask (map f l) = map f (select mask l).
Proof.
  revert l. induction mask as [|b mask IH]; intros [|x l]; simpl; try reflexivity.
  destruct b; simpl; rewrite IH; reflexivity.
Qed.

Lemma combine_nil_r {A B : Type} (l : list A) : combine l (@nil B) = [].
Proof. destruct l; reflexivity. Qed.

Lemma select_combine {A B : Type} (mask : list bool) (l : list A) (r : list B) :
  combine (select mask l) (select mask r) = select mask (combine l r).
Proof.
  revert l r. induction mask as [|b mask IH]; intros l r; [reflexivity|].
  destruct l as [|x l]; [reflexivity|].
  destruct r as [|y r]; [simpl; apply combine_nil_r|].
  destruct b; simpl; rewrite IH; reflexivity.
Qed.

Lemma select_all {A : Type} (mask : list bool) (l : list A) :
  Forall (fun b => b = true) mask -> length l <= length mask -> select mask l = l.
Proof.
  revert l. induction mask as [|b mask IH]; intros [|x l] Hall Hlen; simpl in *;
    try reflexivity; try lia.
  inversion Hall as [|? ? Hb Hrest]; subst. rewrite IH by (assumption || lia). reflexivity.
Qed.

Lemma mask_and_length (a b : list bool) :
  length (mask_and a b) = Nat.min (length a) (length b).
Proof. unfold mask_and. rewrite length_map, length_combine. reflexivity. Qed.

Lemma mask_and_true (a b : list bool) (i : nat) :
  nth_error (mask_and a b) i = Some true ->
  nth_error a i = Some true /\ nth_error b i = Some true.
Proof.
  revert b i. induction a as [|x a IH]; intros [|y b] [|i]; simpl; try discriminate.
  - intro E. injection E as E. apply andb_true_iff in E. destruct E; subst. split; reflexivity.
  - apply IH.
Qed.

Lemma lookup_map_values {A B : Type} (f : A -> B) (k : string) (l : list (string * A)) :
  lookup k (map (fun kv => (fst kv, f (snd kv))) l) = option_map f (lookup k l).
Proof.
  induction l as [|[k0 v] l IH]; simpl; [reflexivity|].
  destruct (k0 =? k); [reflexivity | exact IH].
Qed.

Lemma getcol_select_rows (mask : list bool) (name : string) (d : DataFrame) (c : Series) :
  getcol name d = Ok c -> getcol name (select_rows mask d) = Ok (select mask c).
Proof.
  destruct d as [n cols]. unfold getcol, select_rows. cbn [columns].
  rewrite lookup_map_values. unfold Series in *.
  destruct (lookup name cols); [|discriminate].
  intro E. injection E as <-. reflexivity.
Qed.

Section CleanedColumns.
Context `{Pandas}.
Variables (current_year : Z) (d : DataFrame) (m p a t : Series).

Lemma cleaned_nrows : nrows (cleaned current_year d m p a t) = count_true (keep_mask p a).
Proof. reflexivity. Qed.

Lemma cleaned_price :
  getcol "resale_price" (cleaned current_year d m p a t) = Ok (select (keep_mask p a) (filled p)).
Proof.
  unfold cleaned, converted. apply getcol_select_rows.
  rewrite getcol_setcol_ne, getcol_with_lease, getcol_setcol_ne,
    getcol_setcol_ne, getcol_setcol_eq by reflexivity.
  reflexivity.
Qed.

Lemma cleaned_area :
  getcol "floor_area_sqm" (cleaned current_year d m p a t)
  = Ok (select (keep_mask p a) (filled a)).
Proof.
  unfold cleaned, converted. apply getcol_select_rows.
  rewrite getcol_setcol_ne, getcol_with_lease, getcol_setcol_ne,
    getcol_setcol_eq by reflexivity.
  reflexivity.
Qed.

Lemma cleaned_town :
  getcol "town" (cleaned current_year d m p a t)
  = Ok (select (keep_mask p a) (normalize_town t)).
Proof.
  unfold cleaned, converted. apply getcol_select_rows.
  rewrite getcol_setcol_eq. reflexivity.
Qed.

Lemma cleaned_month :
  getcol "month" (cleaned current_year d m p a t)
  = Ok (select (keep_mask p a) (to_datetime m)).
Proof.
  unfold cleaned, converted. apply getcol_select_rows.
  rewrite getcol_setcol_ne, getcol_with_lease, !getcol_setcol_ne, getcol_setcol_eq
    by reflexivity.
  reflexivity.
Qed.

Lemma keep_mask_price (i : nat) (x : cell) :
  nth_error (keep_mask p a) i = Some true ->
  nth_error (filled p) i = Some x -> cell_gt 10000 x = true.
Proof.
  intros Hk Hx. apply mask_and_true in Hk. destruct Hk as [Hk _].
  rewrite nth_error_map, Hx in Hk. simpl in Hk. congruence.
Qed.

Lemma keep_mask_area (i : nat) (x : cell) :
  nth_error (keep_mask p a) i = Some true ->
  nth_error (filled a) i = Some x -> cell_gt 20 x = true.
Proof.
  intros Hk Hx. apply mask_and_true in Hk. destruct Hk as [_ Hk].
  rewrite nth_error_map, Hx in Hk. simpl in Hk. congruence.
Qed.

Lemma keep_mask_length_price : length (keep_mask p a) <= length (filled p).
Proof. unfold keep_mask. rewrite mask_and_length, !length_map. lia. Qed.

Lemma keep_mask_length_area : length (keep_mask p a) <= length (filled a).
Proof. unfold keep_mask. rewrite mask_and_length, !length_map. lia. Qed.

Lemma cell_gt_inv (bound : float) (c : cell) :
  cell_gt bound c = true -> exists x, c = Num x /\ (bound <? x)%float = true.
Proof. destruct c; simpl; try discriminate. intro E. eauto. Qed.

Lemma cleaned_rows_ok (i : nat) :
  i < nrows (cleaned current_year d m p a t) -> row_ok (cleaned current_year d m p a t) i.
Proof.
  rewrite cleaned_nrows. intro Hi.
  assert (Hp := select_Forall (fun x => cell_gt 10000 x = true) (keep_mask p a) (filled p)
                  keep_mask_price).
  assert (Ha := select_Forall (fun x => cell_gt 20 x = true) (keep_mask p a) (filled a)
                  keep_mask_area).
  rewrite Forall_forall in Hp, Ha.
  destruct (nth_error (select (keep_mask p a) (filled p)) i) as [x|] eqn:Ex.
  2:{ apply nth_error_None in Ex.
      rewrite select_length in Ex by apply keep_mask_length_price. lia. }
  destruct (nth_error (select (keep_mask p a) (filled a)) i) as [y|] eqn:Ey.
  2:{ apply nth_error_None in Ey.
      rewrite select_length in Ey by apply keep_mask_length_area. lia. }
  destruct (cell_gt_inv _ _ (Hp x (nth_error_In _ _ Ex))) as [px [-> Hpx]].
  destruct (cell_gt_inv _ _ (Ha y (nth_error_In _ _ Ey))) as [ay [-> Hay]].
  exists px, ay. unfold cell_at.
  pose proof cleaned_price as Cp. pose proof cleaned_area as Ca.
  unfold getcol in Cp, Ca.
  destruct (lookup "resale_price" (columns (cleaned current_year d m p a t))); [|discriminate].
  destruct (lookup "floor_area_sqm" (columns (cleaned current_year d m p a t))); [|discriminate].
  injection Cp as ->. injection Ca as ->. auto.
Qed.

End CleanedColumns.

(** ** The queries leave the state alone *)

Lemma read_only_bind {A B : Type} (m : M A) (k : A -> M B) :
  read_only m -> (forall a, read_only (k a)) -> read_only (bind m k).
Proof.
  intros Hm Hk s. unfold bind. specialize (Hm s).
  destruct (m s) as [[x|e] s1]; simpl in Hm; subst s1; [apply Hk | reflexivity].
Qed.

Lemma read_only_ret {A : Type} (a : A) : read_only (ret a).
Proof. intro s. reflexivity. Qed.

Lemma read_only_raise {A : Type} (e : exn) : read_only (@raise A e).
Proof. intro s. reflexivity. Qed.

Lemma read_only_lift {A : Type} (r : result A) : read_only (lift r).
Proof. intro s. reflexivity. Qed.

Lemma read_only_get_df : read_only get_df.
Proof. intro s. reflexivity. Qed.

Lemma read_only_getitem (name : string) : read_only (getitem name).
Proof.
  apply read_only_bind; [apply read_only_get_df|].
  intros [d|]; [apply read_only_lift | apply read_only_raise].
Qed.

Create HintDb read_only.

#[local] Hint Resolve read_only_ret read_only_raise read_only_lift read_only_get_df
  read_only_getitem : read_only.

Lemma read_only_get_towns : read_only get_towns.
Proof.
  apply read_only_bind; auto with read_only.
  intros [d|]; auto with read_only.
  apply read_only_bind; auto with read_only.
Qed.

Lemma read_only_get_flat_types : read_only get_flat_types.
Proof.
  apply read_only_bind; auto with read_only.
  intros [d|]; auto with read_only.
  apply read_only_bind; auto with read_only.
Qed.

Lemma read_only_get_town_data `{Pandas} (town : string) : read_only (get_town_data town).
Proof.
  apply read_only_bind; auto with read_only.
  intros [d|]; auto with read_only.
  apply read_only_bind; auto with read_only.
Qed.

Lemma read_only_get_full_data : read_only get_full_data.
Proof.
  apply read_only_bind; auto with read_only.
  intros [d|]; auto with read_only.
Qed.

Lemma read_only_get_heatmap_data : read_only get_heatmap_data.
Proof.
  intro s. unfold get_heatmap_data. simpl.
  destruct s as [[d|] fs lg]; reflexivity.
Qed.

Lemma save_cache_keeps_df `{Pandas} (cache_file : string) (s : State) :
  df (snd (_save_cache cache_file s)) = df s.
Proof.
  destruct s as [[d|] fs lg]; [|reflexivity].
  unfold _save_cache. rewrite bind_run. unfold get_df at 1. cbn [df]. cbv beta iota.
  destruct (empty d); [reflexivity|].
  unfold try_except.
  destruct (endswith cache_file ".parquet").
  - rewrite bind_run. unfold lift at 1. destruct (to_parquet d); reflexivity.
  - reflexivity.
Qed.

Lemma run_call_keeps_df `{Pandas} (c : call) (s : State) : df (run_call c s) = df s.
Proof.
  destruct c; simpl; unfold discard.
  - rewrite read_only_get_towns. reflexivity.
  - rewrite read_only_get_flat_types. reflexivity.
  - rewrite read_only_get_town_data. reflexivity.
  - rewrite read_only_get_full_data. reflexivity.
  - rewrite read_only_get_heatmap_data. reflexivity.
  - apply save_cache_keeps_df.
Qed.

Lemma run_calls_keep_df `{Pandas} (calls : list call) (s : State) :
  df (run_calls calls s) = df s.
Proof.
  revert s. induction calls as [|c calls IH]; intro s; [reflexivity|].
  unfold run_calls in *. simpl. rewrite IH. apply run_call_keeps_df.
Qed.


Lemma cell_at_getcol (name : string) (d : DataFrame) (c : Series) (i : nat) :
  getcol name d = Ok c -> cell_at name i d = nth_error c i.
Proof.
  unfold getcol, cell_at. destruct (lookup name (columns d)); [|discriminate].
  intro E. injection E as ->. reflexivity.
Qed.

Lemma select_none {A : Type} (mask : list bool) (l : list A) :
  Forall (fun b => b = false) mask -> select mask l = [].
Proof.
  revert l. induction mask as [|b mask IH]; intros l Hall; [reflexivity|].
  inversion Hall as [|? ? Hb Hrest]; subst. destruct l; [reflexivity|]. simpl. auto.
Qed.

Lemma count_true_none (mask : list bool) :
  Forall (fun b => b = false) mask -> count_true mask = 0.
Proof.
  induction mask as [|b mask IH]; intro Hall; [reflexivity|].
  inversion Hall as [|? ? Hb Hrest]; subst. unfold count_true in *. simpl. auto.
Qed.

Lemma mask_and_false_l (a b : list bool) :
  Forall (fun x => x = false) a -> Forall (fun x => x = false) (mask_and a b).
Proof.
  revert b. induction a as [|x a IH]; intros b Ha; [constructor|].
  inversion Ha as [|? ? Hx Hrest]; subst. destruct b as [|y b]; [constructor|].
  constructor; [reflexivity | apply IH; exact Hrest].
Qed.

Lemma mask_and_false_r (a b : list bool) :
  Forall (fun x => x = false) b -> Forall (fun x => x = false) (mask_and a b).
Proof.
  revert b. induction a as [|x a IH]; intros b Hb; [constructor|].
  destruct b as [|y b]; [constructor|].
  inversion Hb as [|? ? Hy Hrest]; subst.
  constructor; [apply andb_false_r | apply IH; exact Hrest].
Qed.

(** A missing number is above no bound. *)
Lemma isna_not_above (bound : float) (c : cell) : isna c = true -> cell_gt bound c = false.
Proof.
  destruct c as [|x| |]; simpl; try reflexivity; try discriminate.
  intro Hn. destruct (bound <? x)%float eqn:E; [|reflexivity].
  rewrite (above_is_not_nan _ _ E) in Hn. discriminate.
Qed.

Section Unreadable.
Context `{Pandas}.

Lemma dropna_all_fail (c : Series) :
  Forall fails_coercion c -> dropna (to_numeric c) = [].
Proof.
  induction 1 as [|x c Hx _ IH]; [reflexivity|].
  simpl. rewrite IH, app_nil_r. unfold fails_coercion in Hx.
  destruct (numeric_of_cell x) as [|v| |]; simpl in *; try reflexivity.
  rewrite Hx. reflexivity.
Qed.

Lemma median_all_fail (c : Series) :
  Forall fails_coercion c -> median (to_numeric c) = nan.
Proof. intro Hc. unfold median. rewrite dropna_all_fail by exact Hc. reflexivity. Qed.

Lemma filled_all_fail (c : Series) :
  Forall fails_coercion c -> Forall (fun x => isna x = true) (filled c).
Proof.
  intro Hc. unfold filled. rewrite median_all_fail by exact Hc.
  unfold fillna, to_numeric. rewrite map_map.
  induction Hc as [|x c Hx _ IH]; [constructor|].
  simpl. constructor; [|exact IH].
  unfold fails_coercion in Hx. rewrite Hx. reflexivity.
Qed.

Lemma keep_mask_all_fail (p a : Series) :
  Forall fails_coercion p \/ Forall fails_coercion a ->
  Forall (fun b => b = false) (keep_mask p a).
Proof.
  assert (Hgt : forall bound c, Forall (fun x => isna x = true) c ->
                  Forall (fun b => b = false) (map (cell_gt bound) c)).
  { intros bound c Hc. induction Hc as [|x c Hx _ IH]; [constructor|].
    simpl. constructor; [apply isna_not_above; exact Hx | exact IH]. }
  intros [Hp|Ha]; unfold keep_mask.
  - apply mask_and_false_l, Hgt, filled_all_fail, Hp.
  - apply mask_and_false_r, Hgt, filled_all_fail, Ha.
Qed.

End Unreadable.

(** ** The cache loader *)

(** Whatever happens inside, [_load_from_cache] returns normally: its own
    [except Exception] clause catches every exception of its body. *)
Lemma load_from_cache_returns `{Pandas} (cache_file : string) (s : State) :
  fst (_load_from_cache cache_file s) = Ok tt.
Proof.
  unfold _load_from_cache, try_except.
  match goal with |- fst (match ?body s with _ => _ end) = _ => destruct (body s) as [[[]|e] s1] end;
    reflexivity.
Qed.

Lemma load_from_cache_missing `{Pandas} (cache_file : string) (s : State) :
  lookup cache_file (files s) = None ->
  _load_from_cache cache_file s
  = (Ok tt, mkState (df s) (files s) (log s ++ [NoCacheFileFound])).
Proof.
  intro Hmiss. unfold _load_from_cache, try_except.
  rewrite bind_run. unfold exists_path at 1. rewrite Hmiss. reflexivity.
Qed.

Lemma load_from_cache_unsupported `{Pandas} (cache_file : string) (s : State) (f : file) :
  lookup cache_file (files s) = Some f ->
  endswith cache_file ".parquet" = false ->
  endswith cache_file ".csv" = false ->
  _load_from_cache cache_file s
  = (Ok tt, mkState (df s) (files s) (log s ++ [CacheLoadFailed unsupported_format])).
Proof.
  intros Hf Hp Hc. unfold _load_from_cache, try_except.
  rewrite bind_run. unfold exists_path at 1. rewrite Hf. cbv beta iota.
  rewrite Hp, Hc. reflexivity.
Qed.

(** The fallback procedure is the cache load and nothing else: since
    [_load_from_cache] never raises, the [except] clause that would call
    [_generate_sample_data] cannot run. *)
Lemma fallback_is_the_cache_load `{Pandas} (current_year : Z) (cache_file : string) (s : State) :
  _fallback_procedure current_year cache_file s
  = _load_from_cache cache_file (logged s [TryingCache]).
Proof.
  unfold _fallback_procedure, try_except. rewrite bind_run. unfold emit at 1. cbv beta iota.
  fold (logged s [TryingCache]).
  pose proof (load_from_cache_returns cache_file (logged s [TryingCache])) as Hret.
  destruct (_load_from_cache cache_file (logged s [TryingCache])) as [[[]|e] s1];
    [reflexivity | discriminate].
Qed.


(** ** The pagination loop *)

Ltac below_total H := rewrite Z.geb_leb in H; apply Z.leb_gt in H.

Lemma api_failed_run (e : exn) (all_records : list record) (offset : Z) (s : State) :
  api_failed e all_records offset s
  = if (offset >? 0)%Z
    then (Ok all_records, logged s [ApiError e; ReturningPartialData (length all_records)])
    else (Raise e, logged s [ApiError e]).
Proof.
  unfold api_failed, logged. rewrite bind_run. unfold emit at 1. cbv beta iota.
  destruct (offset >? 0)%Z.
  - rewrite bind_run. unfold emit at 1. cbv beta iota.
    simpl. rewrite <- app_assoc. reflexivity.
  - reflexivity.
Qed.

Lemma fetch_pages_error (responses : nat -> response) (fuel k : nat)
    (all_records : list record) (offset : Z) (total_records : option Z) (e : exn) (s : State) :
  error_of (responses k) = Some e ->
  fetch_pages responses (S fuel) k all_records offset total_records s
  = Some (api_failed e all_records offset s).
Proof.
  intro He. simpl. destruct (responses k); simpl in He; try discriminate;
    injection He as <-; reflexivity.
Qed.

Lemma fetch_pages_page (responses : nat -> response) (fuel k : nat)
    (all_records : list record) (offset : Z) (total_records tot : option Z)
    (records : list record) (t : Z) (s : State) :
  responses k = Page tot records ->
  match total_records with Some t' => Some t' | None => tot end = Some t ->
  fetch_pages responses (S fuel) k all_records offset total_records s
  = if (offset + Z.of_nat (length records) >=? t)%Z
    then Some (Ok (all_records ++ records), s)
    else fetch_pages responses fuel (S k) (all_records ++ records)
           (offset + Z.of_nat (length records))%Z (Some t) s.
Proof.
  intros Hk Ht. simpl. rewrite Hk, Ht. destruct (_ >=? _)%Z; reflexivity.
Qed.

Lemma fetched_S (responses : nat -> response) (n : nat) :
  fetched responses (S n) = fetched responses n ++ records_of (responses n).
Proof.
  unfold fetched. rewrite seq_S, flat_map_app. simpl. rewrite app_nil_r. reflexivity.
Qed.

Section PartialFetch.
Variables (responses : nat -> response) (n : nat) (total : Z) (e : exn) (s : State).
Hypothesis pages : forall i, i < n -> exists tot records, responses i = Page tot records.
Hypothesis first_total : 0 < n -> reported_total responses = Some total.
Hypothesis incomplete :
  forall i, i < n -> (Z.of_nat (length (fetched responses (S i))) < total)%Z.
Hypothesis failure : error_of (responses n) = Some e.

Lemma partial_fetch_from (j k : nat) :
  k + j = n ->
  forall fuel, j < fuel ->
  fetch_pages responses fuel k (fetched responses k)
    (Z.of_nat (length (fetched responses k)))
    (if (k =? 0)%nat then None else Some total) s
  = Some (api_failed e (fetched responses n) (Z.of_nat (length (fetched responses n))) s).
Proof.
  revert k. induction j as [|j IH]; intros k Hk fuel Hfuel.
  - assert (k = n) by lia. subst k.
    destruct fuel as [|fuel]; [lia|].
    apply fetch_pages_error. exact failure.
  - destruct fuel as [|fuel]; [lia|].
    assert (Hlt : k < n) by lia.
    destruct (pages k Hlt) as (tot & records & Hresp).
    assert (Ht : match (if (k =? 0)%nat then None else Some total) with
                 | Some t' => Some t'
                 | None => tot
                 end = Some total).
    { destruct k as [|k]; simpl; [|reflexivity].
      assert (H0 : 0 < n) by lia. specialize (first_total H0).
      unfold reported_total in first_total. rewrite Hresp in first_total. exact first_total. }
    rewrite (fetch_pages_page responses fuel k _ _ _ tot records total s Hresp Ht).
    pose proof (incomplete k Hlt) as Hinc.
    rewrite fetched_S, Hresp in Hinc. simpl records_of in Hinc.
    rewrite length_app, Nat2Z.inj_add in Hinc.
    destruct (_ >=? _)%Z eqn:Hge; [lia|].
    specialize (IH (S k) ltac:(lia) fuel ltac:(lia)).
    rewrite fetched_S, Hresp in IH. simpl records_of in IH.
    rewrite length_app, Nat2Z.inj_add in IH. simpl Nat.eqb in IH. exact IH.
Qed.

End PartialFetch.

(** *** Termination *)

Section Termination.
Variable responses : nat -> response.
Hypothesis non_empty_pages :
  forall k tot records, responses k = Page tot records -> records <> [].

Lemma fetch_terminates_from (m : nat) :
  forall (k : nat) (all_records : list record) (t : Z) (s : State),
    (t - Z.of_nat (length all_records) <= Z.of_nat m)%Z ->
    exists n r s',
      forall fuel, n < fuel ->
        fetch_pages responses fuel k all_records (Z.of_nat (length all_records)) (Some t) s
        = Some (r, s').
Proof.
  induction m as [|m IH]; intros k all_records t s Hm.
  - destruct (responses k) as [| |tot records] eqn:Hk.
    + exists 0. do 2 eexists. intros [|fuel] Hf; [lia|].
      rewrite fetch_pages_error with (e := RequestException) by (rewrite Hk; reflexivity).
      apply f_equal, surjective_pairing.
    + exists 0. do 2 eexists. intros [|fuel] Hf; [lia|].
      rewrite fetch_pages_error with (e := ValueError "Invalid API response structure")
        by (rewrite Hk; reflexivity).
      apply f_equal, surjective_pairing.
    + exists 0. do 2 eexists. intros [|fuel] Hf; [lia|].
      rewrite (fetch_pages_page responses fuel k _ _ (Some t) tot records t s Hk eq_refl).
      destruct (_ >=? _)%Z eqn:Hge; [reflexivity|]. below_total Hge. lia.
  - destruct (responses k) as [| |tot records] eqn:Hk.
    + exists 0. do 2 eexists. intros [|fuel] Hf; [lia|].
      rewrite fetch_pages_error with (e := RequestException) by (rewrite Hk; reflexivity).
      apply f_equal, surjective_pairing.
    + exists 0. do 2 eexists. intros [|fuel] Hf; [lia|].
      rewrite fetch_pages_error with (e := ValueError "Invalid API response structure")
        by (rewrite Hk; reflexivity).
      apply f_equal, surjective_pairing.
    + destruct (Z.of_nat (length all_records) + Z.of_nat (length records) >=? t)%Z eqn:Hge.
      * exists 0. do 2 eexists. intros [|fuel] Hf; [lia|].
        rewrite (fetch_pages_page responses fuel k _ _ (Some t) tot records t s Hk eq_refl), Hge.
        reflexivity.
      * assert (Hlen : 0 < length records).
        { pose proof (non_empty_pages k tot records Hk). destruct records; simpl; [congruence | lia]. }
        destruct (IH (S k) (all_records ++ records) t s) as (n & r & s' & Hn).
        { rewrite length_app, Nat2Z.inj_add. below_total Hge. lia. }
        exists (S n), r, s'. intros [|fuel] Hf; [lia|].
        rewrite (fetch_pages_page responses fuel k _ _ (Some t) tot records t s Hk eq_refl), Hge.
        rewrite <- Nat2Z.inj_add, <- length_app. apply Hn. lia.
Qed.

Lemma fetch_terminates (s : State) :
  exists n r s',
    forall fuel, n < fuel -> fetch_pages responses fuel 0 [] 0%Z None s = Some (r, s').
Proof.
  destruct (responses 0) as [| |tot records] eqn:Hk.
  - exists 0. do 2 eexists. intros [|fuel] Hf; [lia|].
    rewrite fetch_pages_error with (e := RequestException) by (rewrite Hk; reflexivity).
    apply f_equal, surjective_pairing.
  - exists 0. do 2 eexists. intros [|fuel] Hf; [lia|].
    rewrite fetch_pages_error with (e := ValueError "Invalid API response structure")
      by (rewrite Hk; reflexivity).
    apply f_equal, surjective_pairing.
  - destruct tot as [t|].
    + destruct (0 + Z.of_nat (length records) >=? t)%Z eqn:Hge.
      * exists 0. do 2 eexists. intros [|fuel] Hf; [lia|].
        rewrite (fetch_pages_page responses fuel 0 _ _ None (Some t) records t s Hk eq_refl), Hge.
        reflexivity.
      * destruct (fetch_terminates_from (Z.to_nat t) 1 records t s) as (n & r & s' & Hn);
          [lia|].
        exists (S n), r, s'. intros [|fuel] Hf; [lia|].
        rewrite (fetch_pages_page responses fuel 0 _ _ None (Some t) records t s Hk eq_refl), Hge.
        simpl. apply Hn. lia.
    + exists 0. do 2 eexists. intros [|fuel] Hf; [lia|].
      simpl. rewrite Hk. reflexivity.
Qed.

End Termination.

(** *** Why the loop stops *)

Lemma fetch_stops_from (responses : nat -> response) (t : Z) (s : State) (fuel : nat) :
  forall (k : nat) (all_records : list record) (r : result (list record)) (s' : State),
    fetch_pages responses fuel k all_records (Z.of_nat (length all_records)) (Some t) s
    = Some (r, s') ->
    match r with
    | Ok records =>
        ((t <= Z.of_nat (length records))%Z /\ s' = s) \/
        (0 < length records /\
         exists e, s' = logged s [ApiError e; ReturningPartialData (length records)])
    | Raise e => s' = logged s [ApiError e]
    end.
Proof.
  induction fuel as [|fuel IH]; intros k all_records r s' Hrun; [discriminate|].
  destruct (error_of (responses k)) as [e|] eqn:He.
  - rewrite (fetch_pages_error responses fuel k _ _ _ e s He), api_failed_run in Hrun.
    destruct (Z.of_nat (length all_records) >? 0)%Z eqn:Hpos;
      injection Hrun as <- <-.
    + right. split; [lia|]. exists e. reflexivity.
    + reflexivity.
  - destruct (responses k) as [| |tot records] eqn:Hk; try discriminate.
    rewrite (fetch_pages_page responses fuel k _ _ (Some t) tot records t s Hk eq_refl) in Hrun.
    destruct (_ >=? _)%Z eqn:Hge.
    + injection Hrun as <- <-. left. split; [|reflexivity].
      rewrite length_app, Nat2Z.inj_add. lia.
    + rewrite <- Nat2Z.inj_add, <- length_app in Hrun. exact (IH _ _ _ _ Hrun).
Qed.

Lemma fetch_stops (responses : nat -> response) (s : State) (fuel : nat)
    (r : result (list record)) (s' : State) :
  fetch_pages responses fuel 0 [] 0%Z None s = Some (r, s') ->
  stops_properly responses s r s'.
Proof.
  destruct fuel as [|fuel]; [discriminate|]. intro Hrun.
  unfold stops_properly, reported_total.
  destruct (error_of (responses 0)) as [e|] eqn:He.
  - rewrite (fetch_pages_error responses fuel 0 _ _ _ e s He), api_failed_run in Hrun.
    simpl in Hrun. injection Hrun as <- <-. right. reflexivity.
  - destruct (responses 0) as [| |tot records] eqn:Hk; try discriminate.
    destruct tot as [t|].
    + rewrite (fetch_pages_page responses fuel 0 _ _ None (Some t) records t s Hk eq_refl) in Hrun.
      destruct (_ >=? _)%Z eqn:Hge.
      * injection Hrun as <- <-. exists t. split; [reflexivity|]. left.
        split; [simpl; lia | reflexivity].
      * simpl in Hrun. pose proof (fetch_stops_from responses t s fuel _ _ _ _ Hrun) as Hstop.
        destruct r as [recs|e].
        -- exists t. split; [reflexivity | exact Hstop].
        -- right. exact Hstop.
    + simpl in Hrun. rewrite Hk in Hrun. injection Hrun as <- <-. left. split; reflexivity.
Qed.

Lemma empty_pages_from (fuel : nat) :
  forall k s, fetch_pages empty_pages fuel k [] 0%Z (Some 1%Z) s = None.
Proof.
  induction fuel as [|fuel IH]; intros k s; [reflexivity|].
  simpl. apply IH.
Qed.


(** ** Cleaning a cleaned table *)

Lemma assign_same {A : Type} (k : string) (v : A) (l : list (string * A)) :
  lookup k l = Some v -> assign k v l = l.
Proof.
  induction l as [|[k0 w] l IH]; simpl; [discriminate|].
  destruct (k0 =? k) eqn:E.
  - intro Hv. injection Hv as ->. reflexivity.
  - intro Hv. rewrite IH by exact Hv. reflexivity.
Qed.

Lemma setcol_same (name : string) (v : Series) (d : DataFrame) :
  getcol name d = Ok v -> setcol name v d = d.
Proof.
  destruct d as [n cols]. unfold getcol, setcol. cbn [columns nrows].
  destruct (lookup name cols) as [c|] eqn:E; [|discriminate].
  intro Hv. injection Hv as ->. rewrite assign_same by exact E. reflexivity.
Qed.

Lemma keys_assign_present {A : Type} (k : string) (v w : A) (l : list (string * A)) :
  lookup k l = Some w -> map fst (assign k v l) = map fst l.
Proof.
  induction l as [|[k0 u] l IH]; simpl; [discriminate|].
  destruct (k0 =? k) eqn:E; simpl; [reflexivity|].
  intro Hw. rewrite IH by exact Hw. reflexivity.
Qed.

Lemma map_fixed {A : Type} (f : A -> A) (l : list A) :
  Forall (fun x => f x = x) l -> map f l = l.
Proof. induction 1 as [|x l Hx _ IH]; simpl; [reflexivity|]. rewrite Hx, IH. reflexivity. Qed.

Lemma Forall_select {A : Type} (Q : A -> Prop) (mask : list bool) (l : list A) :
  Forall Q l -> Forall Q (select mask l).
Proof.
  intro Hl. apply select_Forall. intros i x _ Hx.
  rewrite Forall_forall in Hl. apply Hl. exact (nth_error_In _ _ Hx).
Qed.

Lemma select_length_le {A : Type} (mask : list bool) (l : list A) :
  length (select mask l) <= count_true mask.
Proof.
  revert l. induction mask as [|b mask IH]; intros [|x l]; simpl; try lia.
  unfold count_true in *. specialize (IH l). destruct b; simpl; lia.
Qed.

Lemma select_repeat {A : Type} (x : A) (mask : list bool) (n : nat) :
  length mask <= n -> select mask (repeat x n) = repeat x (count_true mask).
Proof.
  revert n. induction mask as [|b mask IH]; intros n Hn; [reflexivity|].
  destruct n as [|n]; simpl in Hn; [lia|].
  unfold count_true in *. destruct b; simpl; rewrite IH by lia; reflexivity.
Qed.

Lemma count_true_all (mask : list bool) :
  Forall (fun b => b = true) mask -> count_true mask = length mask.
Proof.
  induction 1 as [|b mask Hb _ IH]; [reflexivity|].
  subst b. unfold count_true in *. simpl. rewrite IH. reflexivity.
Qed.

Lemma mask_and_all (a b : list bool) :
  Forall (fun x => x = true) a -> Forall (fun x => x = true) b ->
  Forall (fun x => x = true) (mask_and a b).
Proof.
  intro Ha. revert b. induction Ha as [|x a Hx _ IH]; intros b Hb; [constructor|].
  destruct Hb as [|y b Hy Hb]; [constructor|]. subst.
  constructor; [reflexivity | apply IH; exact Hb].
Qed.

(** Selecting every row of a frame whose columns are no longer than the
    mask gives the frame back. *)
Lemma select_rows_all (mask : list bool) (d : DataFrame) :
  Forall (fun b => b = true) mask ->
  nrows d = length mask ->
  Forall (fun kv => length (snd kv) <= length mask) (columns d) ->
  select_rows mask d = d.
Proof.
  intros Hall Hn Hcols. destruct d as [n cols]. unfold select_rows. cbn [nrows columns] in *.
  rewrite count_true_all by exact Hall. f_equal; [symmetry; exact Hn|].
  induction Hcols as [|[k c] cols Hc _ IH]; simpl; [reflexivity|].
  rewrite select_all by assumption. rewrite IH. reflexivity.
Qed.

Section Twice.
Context `{Pandas}.

Lemma to_datetime_dated (s : Series) : Forall dated (to_datetime s).
Proof.
  unfold to_datetime. apply Forall_forall. intros c Hc.
  apply in_map_iff in Hc. destruct Hc as (x & <- & _).
  destruct x as [|v|w|t]; simpl; try exact I.
  - destruct (num_to_datetime v); exact I.
  - destruct (str_to_datetime s w); exact I.
Qed.

Lemma to_datetime_fixed (s : Series) : Forall dated s -> to_datetime s = s.
Proof.
  intro Hs. unfold to_datetime. apply map_fixed.
  eapply Forall_impl; [|exact Hs]. intros [|v|w|t]; simpl; intro Hd; (reflexivity || contradiction).
Qed.

Lemma filled_fixed (bound : float) (s : Series) :
  Forall (fun c => cell_gt bound c = true) s -> filled s = s.
Proof.
  intro Hs. unfold filled.
  assert (Hnum : to_numeric s = s).
  { unfold to_numeric. apply map_fixed. eapply Forall_impl; [|exact Hs].
    intros [|v|w|t]; simpl; (reflexivity || discriminate). }
  rewrite Hnum. unfold fillna. apply map_fixed. eapply Forall_impl; [|exact Hs].
  intros [|v|w|t]; simpl; try discriminate.
  intro Hv. rewrite (above_is_not_nan _ _ Hv). reflexivity.
Qed.

Lemma normalize_town_select (mask : list bool) (t : Series) :
  Forall settles t ->
  normalize_town (select mask (normalize_town t)) = select mask (normalize_town t).
Proof.
  intro Ht. unfold normalize_town. rewrite !select_map, !map_map. apply map_ext_in.
  intros c Hc.
  pose proof (Forall_select settles mask t Ht) as Hs. rewrite Forall_forall in Hs.
  specialize (Hs c Hc). destruct c as [|v|w|ts]; simpl; try reflexivity.
  simpl in Hs. rewrite Hs. reflexivity.
Qed.

Lemma series_div_select (mask : list bool) (p a : Series) :
  series_div (select mask p) (select mask a) = select mask (series_div p a).
Proof. unfold series_div. rewrite select_combine, select_map. reflexivity. Qed.

Lemma lease_remaining_select (current_year : Z) (mask : list bool) (l : Series) :
  lease_remaining_of current_year (select mask l)
  = select mask (lease_remaining_of current_year l).
Proof. unfold lease_remaining_of. rewrite select_map. reflexivity. Qed.

End Twice.

Lemma getcol_select_rows_missing (mask : list bool) (name : string) (d : DataFrame) (e : exn) :
  getcol name d = Raise e -> getcol name (select_rows mask d) = Raise e.
Proof.
  destruct d as [n cols]. unfold getcol, select_rows. cbn [columns].
  rewrite lookup_map_values. unfold Series in *.
  destruct (lookup name cols); [discriminate|]. intro E. exact E.
Qed.

Lemma well_formed_getcol (name : string) (d : DataFrame) (c : Series) :
  well_formed d -> getcol name d = Ok c -> length c = nrows d.
Proof.
  destruct d as [n cols]. unfold well_formed, getcol. cbn [columns nrows].
  intros Hwf. induction Hwf as [|[k v] cols Hv _ IH]; simpl; [discriminate|].
  destruct (k =? name); [|exact IH].
  intro E. injection E as <-. exact Hv.
Qed.

Lemma Forall_assign {A : Type} (Q : string * A -> Prop) (k : string) (v : A)
    (l : list (string * A)) :
  (forall k', Q (k', v)) -> Forall Q l -> Forall Q (assign k v l).
Proof.
  intros Hv Hl. induction Hl as [|[k0 w] l Hw Hl IH]; simpl.
  - constructor; [apply Hv | constructor].
  - destruct (k0 =? k); constructor; first [assumption | apply Hv].
Qed.

Section SecondPass.
Context `{Pandas}.
Variables (y1 y2 : Z) (d : DataFrame) (m p a t : Series).
Hypothesis Hsettles : Forall settles t.

#[local] Abbreviation K := (keep_mask p a).
#[local] Abbreviation d1 := (cleaned y1 d m p a t).
#[local] Abbreviation D4 := (converted d m p a).

Lemma cleaned_price_per_sqm :
  getcol "price_per_sqm" d1 = Ok (select K (series_div (filled p) (filled a))).
Proof.
  unfold cleaned. apply getcol_select_rows.
  rewrite getcol_setcol_ne, getcol_with_lease by reflexivity.
  apply getcol_setcol_eq.
Qed.

(** The lease columns of the cleaned frame, and what the lease stage of a
    second pass does to them. *)
Lemma second_pass_lease :
  exists X0 X,
    getcol "lease_remaining" d1 = Ok X0 /\
    fst (with_lease y2 d1) = setcol "lease_remaining" X d1 /\
    length X <= count_true K /\
    (well_formed d -> getcol "resale_price" d = Ok p -> y2 = y1 -> X = X0).
Proof.
  destruct (getcol "lease_commence_date" d) as [l|e] eqn:Hl.
  - assert (HD4 : getcol "lease_commence_date" D4 = Ok l).
    { unfold converted. rewrite !getcol_setcol_ne by reflexivity. exact Hl. }
    assert (Hlcd : getcol "lease_commence_date" d1 = Ok (select K (to_datetime l))).
    { unfold cleaned. apply getcol_select_rows.
      rewrite getcol_setcol_ne by reflexivity.
      unfold with_lease. rewrite HD4. cbn [fst].
      rewrite getcol_setcol_ne by reflexivity. apply getcol_setcol_eq. }
    assert (Hlr : getcol "lease_remaining" d1
                  = Ok (select K (lease_remaining_of y1 (to_datetime l)))).
    { unfold cleaned. apply getcol_select_rows.
      rewrite getcol_setcol_ne by reflexivity.
      unfold with_lease. rewrite HD4. cbn [fst]. apply getcol_setcol_eq. }
    exists (select K (lease_remaining_of y1 (to_datetime l))),
           (lease_remaining_of y2 (select K (to_datetime l))).
    split; [exact Hlr|]. split; [|split].
    + unfold with_lease at 1. rewrite Hlcd. cbn [fst].
      rewrite to_datetime_fixed by (apply Forall_select, to_datetime_dated).
      rewrite (setcol_same _ _ _ Hlcd). reflexivity.
    + unfold lease_remaining_of. rewrite length_map. apply select_length_le.
    + intros _ _ ->. apply lease_remaining_select.
  - assert (HD4 : getcol "lease_commence_date" D4 = Raise e).
    { unfold converted. rewrite !getcol_setcol_ne by reflexivity. exact Hl. }
    assert (Hlcd : getcol "lease_commence_date" d1 = Raise e).
    { unfold cleaned. apply getcol_select_rows_missing.
      rewrite getcol_setcol_ne by reflexivity.
      unfold with_lease. rewrite HD4. cbn [fst].
      rewrite getcol_setcol_ne by reflexivity. exact HD4. }
    assert (Hlr : getcol "lease_remaining" d1 = Ok (select K (repeat (Num nan) (nrows d)))).
    { unfold cleaned. apply getcol_select_rows.
      rewrite getcol_setcol_ne by reflexivity.
      unfold with_lease. rewrite HD4. cbn [fst]. apply getcol_setcol_eq. }
    exists (select K (repeat (Num nan) (nrows d))), (repeat (Num nan) (count_true K)).
    split; [exact Hlr|]. split; [|split].
    + unfold with_lease at 1. rewrite Hlcd. reflexivity.
    + rewrite repeat_length. lia.
    + intros Hwf Hp _. symmetry. apply select_repeat.
      rewrite <- (well_formed_getcol _ _ _ Hwf Hp).
      pose proof (keep_mask_length_price p a) as Hlen.
      unfold filled, fillna, to_numeric in Hlen. rewrite !length_map in Hlen. exact Hlen.
Qed.

Lemma kept_prices : Forall (fun c => cell_gt 10000 c = true) (select K (filled p)).
Proof. apply select_Forall. apply keep_mask_price. Qed.

Lemma kept_areas : Forall (fun c => cell_gt 20 c = true) (select K (filled a)).
Proof. apply select_Forall. apply keep_mask_area. Qed.

Lemma second_mask_all :
  Forall (fun b => b = true) (keep_mask (select K (filled p)) (select K (filled a))).
Proof.
  unfold keep_mask.
  rewrite (filled_fixed _ _ kept_prices), (filled_fixed _ _ kept_areas).
  apply mask_and_all; apply Forall_forall; intros b Hb; apply in_map_iff in Hb;
    destruct Hb as (c & <- & Hc).
  - pose proof kept_prices as Hp. rewrite Forall_forall in Hp. apply Hp. exact Hc.
  - pose proof kept_areas as Ha. rewrite Forall_forall in Ha. apply Ha. exact Hc.
Qed.

Lemma second_mask_length :
  length (keep_mask (select K (filled p)) (select K (filled a))) = count_true K.
Proof.
  unfold keep_mask at 1.
  rewrite (filled_fixed _ _ kept_prices), (filled_fixed _ _ kept_areas).
  rewrite mask_and_length, !length_map.
  rewrite !select_length by (apply keep_mask_length_price || apply keep_mask_length_area).
  apply Nat.min_id.
Qed.

Lemma cleaned_columns_short :
  Forall (fun kv : string * Series => length (snd kv) <= count_true K) (columns d1).
Proof.
  unfold cleaned. unfold select_rows. cbn [columns].
  apply Forall_forall. intros kv Hin. apply in_map_iff in Hin.
  destruct Hin as (kv0 & <- & _). simpl. apply select_length_le.
Qed.

(** A second pass only recomputes [lease_remaining]. *)
Lemma second_pass :
  exists X0 X,
    getcol "lease_remaining" d1 = Ok X0 /\
    cleaned y2 d1 (select K (to_datetime m)) (select K (filled p)) (select K (filled a))
                  (select K (normalize_town t))
    = setcol "lease_remaining" X d1 /\
    (well_formed d -> getcol "resale_price" d = Ok p -> y2 = y1 -> X = X0).
Proof.
  destruct second_pass_lease as (X0 & X & HX0 & Hlease & Hlen & Hsame).
  exists X0, X. split; [exact HX0|]. split; [|exact Hsame].
  pose proof cleaned_price_per_sqm as Hq.
  pose proof second_mask_all as Hall.
  pose proof second_mask_length as Hmlen.
  pose proof cleaned_columns_short as Hshort.
  pose proof kept_prices as Hkp. pose proof kept_areas as Hka.
  unfold cleaned at 1. unfold converted at 1.
  rewrite to_datetime_fixed by (apply Forall_select, to_datetime_dated).
  rewrite (setcol_same _ _ _ (cleaned_month y1 d m p a t)).
  rewrite (filled_fixed _ _ Hkp), (filled_fixed _ _ Hka).
  rewrite (setcol_same _ _ _ (cleaned_price y1 d m p a t)).
  rewrite (setcol_same _ _ _ (cleaned_area y1 d m p a t)).
  rewrite series_div_select, (setcol_same _ _ _ Hq).
  rewrite Hlease, normalize_town_select by exact Hsettles.
  rewrite setcol_same
    by (rewrite getcol_setcol_ne by reflexivity; apply cleaned_town).
  apply select_rows_all.
  - exact Hall.
  - rewrite Hmlen. reflexivity.
  - rewrite Hmlen. unfold setcol. cbn [columns].
    apply Forall_assign; [intro; exact Hlen | exact Hshort].
Qed.

End SecondPass.

(** ** The cache store *)

Lemma arrow_column_exact (s : Series) : stored_exactly s = true -> arrow_column s = s.
Proof.
  unfold stored_exactly, arrow_column. intro Hs.
  apply andb_true_iff in Hs. destruct Hs as [_ Hs].
  destruct (existsb is_str s || existsb is_ts s); [|reflexivity].
  simpl in Hs. apply negb_true_iff in Hs.
  apply map_fixed. apply Forall_forall. intros c Hc.
  destruct c as [|x| |]; try reflexivity.
  assert (Hex : existsb is_num s = true) by (apply existsb_exists; exists (Num x); auto).
  congruence.
Qed.

Lemma forallb_present (P : cell -> bool) (s : Series) :
  forallb P (filter (fun c => negb (isna c)) s) = forallb (fun c => P c || isna c) s.
Proof.
  induction s as [|c s IH]; [reflexivity|]. simpl.
  destruct (isna c); simpl; rewrite IH; [rewrite orb_true_r|rewrite orb_false_r]; reflexivity.
Qed.

(** Which columns pyarrow accepts, by the kind of value they hold. *)
Lemma arrow_accepts_spec (s : Series) :
  arrow_accepts s
  = if existsb is_str s then forallb (fun c => is_str c || isna c) s
    else if existsb is_ts s then forallb (fun c => is_ts c || isna c) s
    else true.
Proof.
  unfold arrow_accepts. cbv zeta. rewrite !forallb_present.
  destruct (existsb is_str s) eqn:Hs.
  - apply existsb_exists in Hs. destruct Hs as (c & Hc & Hstr).
    destruct c as [| |w|]; try discriminate.
    assert (E1 : forallb (fun c => is_num c || isna c) s = false).
    { destruct (forallb (fun c => is_num c || isna c) s) eqn:E; [|reflexivity].
      rewrite forallb_forall in E. specialize (E _ Hc). discriminate. }
    assert (E2 : forallb (fun c => is_ts c || isna c) s = false).
    { destruct (forallb (fun c => is_ts c || isna c) s) eqn:E; [|reflexivity].
      rewrite forallb_forall in E. specialize (E _ Hc). discriminate. }
    rewrite E1, E2, orb_false_r. reflexivity.
  - assert (Hno : forall c, In c s -> is_str c = false).
    { intros c Hc. destruct (is_str c) eqn:E; [|reflexivity].
      assert (existsb is_str s = true) by (apply existsb_exists; eauto). congruence. }
    assert (E0 : forallb (fun c => is_str c || isna c) s = forallb isna s).
    { clear Hs. induction s as [|c s IH]; [reflexivity|]. simpl.
      rewrite (Hno c) by (left; reflexivity). simpl.
      rewrite IH by (intros x Hx; apply Hno; right; exact Hx). reflexivity. }
    rewrite E0.
    destruct (existsb is_ts s) eqn:Ht.
    + apply existsb_exists in Ht. destruct Ht as (c & Hc & Hts).
      destruct c as [| | |t]; try discriminate.
      assert (E1 : forallb (fun c => is_num c || isna c) s = false).
      { destruct (forallb (fun c => is_num c || isna c) s) eqn:E; [|reflexivity].
        rewrite forallb_forall in E. specialize (E _ Hc). discriminate. }
      assert (E2 : forallb isna s = false).
      { destruct (forallb isna s) eqn:E; [|reflexivity].
        rewrite forallb_forall in E. specialize (E _ Hc). discriminate. }
      rewrite E1, E2. reflexivity.
    + assert (E1 : forallb (fun c => is_num c || isna c) s = true).
      { apply forallb_forall. intros c Hc. specialize (Hno c Hc).
        destruct c as [|x|w|t]; try reflexivity; try discriminate.
        assert (existsb is_ts s = true) by (apply existsb_exists; exists (Ts t); auto).
        congruence. }
      rewrite E1. reflexivity.
Qed.

Lemma all_null_repeat (s : Series) : forallb is_null s = true -> repeat Null (length s) = s.
Proof.
  induction s as [|c s IH]; [reflexivity|]. simpl. intro E.
  apply andb_true_iff in E. destruct E as [Hc Hs].
  destruct c; try discriminate. rewrite (IH Hs). reflexivity.
Qed.

Lemma all_null_kinds (s : Series) :
  forallb is_null s = true -> existsb is_str s = false /\ existsb is_ts s = false.
Proof.
  induction s as [|c s IH]; [split; reflexivity|]. simpl. intro E.
  apply andb_true_iff in E. destruct E as [Hc Hs].
  destruct c; try discriminate. exact (IH Hs).
Qed.

(** The column an accepted column comes back as: the values written to
    the array and read from it again. *)
Lemma arrow_round_trip (s : Series) :
  arrow_accepts s = true ->
  exists a, arrow_of_series s = Ok a /\ series_of_arrow a = arrow_column s.
Proof.
  rewrite arrow_accepts_spec. unfold arrow_of_series, arrow_column.
  destruct (forallb is_null s) eqn:Hn.
  { intros _. destruct (all_null_kinds s Hn) as [-> ->].
    eexists. split; [reflexivity|]. simpl. apply all_null_repeat. exact Hn. }
  destruct (existsb is_str s) eqn:Hs.
  - intro Hall. rewrite Hall. eexists. split; [reflexivity|].
    cbn [series_of_arrow orb]. rewrite map_map. apply map_ext_in. intros c Hc.
    rewrite forallb_forall in Hall. specialize (Hall c Hc).
    destruct c as [|x|w|t]; simpl in *; try reflexivity; try discriminate.
    rewrite Hall. reflexivity.
  - destruct (existsb is_ts s) eqn:Ht.
    + intro Hall. rewrite Hall. eexists. split; [reflexivity|].
      cbn [series_of_arrow orb]. rewrite map_map. apply map_ext_in. intros c Hc.
      rewrite forallb_forall in Hall. specialize (Hall c Hc).
      destruct c as [|x|w|t]; simpl in *; try reflexivity; try discriminate.
      rewrite Hall. reflexivity.
    + intros _. eexists. split; [reflexivity|].
      cbn [series_of_arrow orb]. rewrite map_map.
      apply map_fixed. apply Forall_forall. intros c Hc.
      destruct c as [|x|w|t]; try reflexivity.
      * assert (existsb is_str s = true) by (apply existsb_exists; exists (Str w); auto).
        congruence.
      * assert (existsb is_ts s = true) by (apply existsb_exists; exists (Ts t); auto).
        congruence.
Qed.


(** Writing a frame all of whose columns pyarrow accepts gives a file
    from which the frame of [arrow_column] is read. *)
Lemma to_parquet_accepted (d : DataFrame) :
  forallb (fun kv => arrow_accepts (snd kv)) (columns d) = true ->
  exists f, to_parquet d = Ok f /\ read_parquet f = Ok (arrow_frame d).
Proof.
  destruct d as [n cols]. unfold to_parquet, arrow_frame. cbn [columns nrows].
  intro Hacc.
  assert (Hcols : exists arrays,
            collect (map (fun kv : string * Series =>
                            match arrow_of_series (snd kv) with
                            | Ok a => Ok (fst kv, a)
                            | Raise e => Raise e
                            end) cols) = Ok arrays /\
            map (fun ka => (fst ka, series_of_arrow (snd ka))) arrays
            = map (fun kv => (fst kv, arrow_column (snd kv))) cols).
  { induction cols as [|[k c] cols IH]; [exists []; split; reflexivity|].
    simpl in Hacc. apply andb_true_iff in Hacc. destruct Hacc as [Hc Hrest].
    destruct (arrow_round_trip c Hc) as (a & Ha & Hback).
    destruct (IH Hrest) as (arrays & Hcollect & Hmap).
    exists ((k, a) :: arrays). simpl. rewrite Ha, Hcollect. split; [reflexivity|].
    simpl. rewrite Hback, Hmap. reflexivity. }
  destruct Hcols as (arrays & -> & Hmap).
  eexists. split; [reflexivity|]. simpl. rewrite Hmap. reflexivity.
Qed.


Lemma arrow_frame_exact (d : DataFrame) :
  forallb (fun kv => stored_exactly (snd kv)) (columns d) = true -> arrow_frame d = d.
Proof.
  destruct d as [n cols]. unfold arrow_frame. cbn [columns nrows]. intro Hd. f_equal.
  rewrite forallb_forall in Hd.
  induction cols as [|[k c] cols IH]; [reflexivity|].
  simpl. rewrite arrow_column_exact by (apply (Hd (k, c)); left; reflexivity).
  rewrite IH; [reflexivity|]. intros kv Hkv. apply Hd. right. exact Hkv.
Qed.

Lemma stored_exactly_accepted (d : DataFrame) :
  forallb (fun kv => stored_exactly (snd kv)) (columns d) = true ->
  forallb (fun kv => arrow_accepts (snd kv)) (columns d) = true.
Proof.
  intro Hd. rewrite forallb_forall in *. intros kv Hkv. specialize (Hd kv Hkv).
  unfold stored_exactly in Hd. apply andb_true_iff in Hd. tauto.
Qed.

Lemma to_parquet_exact (d : DataFrame) :
  forallb (fun kv => stored_exactly (snd kv)) (columns d) = true ->
  exists f, to_parquet d = Ok f /\ read_parquet f = Ok d.
Proof.
  intro Hd. destruct (to_parquet_accepted d (stored_exactly_accepted d Hd)) as (f & Hf & Hr).
  exists f. rewrite (arrow_frame_exact d Hd) in Hr. split; assumption.
Qed.

Section RoundTrip.
Context `{Pandas}.

Lemma save_cache_run (cache_file : string) (d : DataFrame) fs lg :
  empty d = false ->
  _save_cache cache_file (mkState (Some d) fs lg)
  = if endswith cache_file ".parquet"
    then match to_parquet d with
         | Ok f => (Ok tt, mkState (Some d) (assign cache_file f fs) lg)
         | Raise e => (Ok tt, mkState (Some d) fs (lg ++ [CacheSaveFailed e]))
         end
    else (Ok tt, mkState (Some d) (assign cache_file (to_csv d) fs) lg).
Proof.
  intro He. unfold _save_cache.
  rewrite bind_run. unfold get_df at 1. cbn [df]. cbv beta iota. rewrite He.
  unfold try_except. destruct (endswith cache_file ".parquet"); [|reflexivity].
  rewrite bind_run. unfold lift at 1. destruct (to_parquet d); reflexivity.
Qed.

Lemma save_parquet (cache_file : string) (d : DataFrame) fs lg :
  empty d = false ->
  endswith cache_file ".parquet" = true ->
  forallb (fun kv => stored_exactly (snd kv)) (columns d) = true ->
  exists f,
    read_parquet f = Ok d /\
    _save_cache cache_file (mkState (Some d) fs lg)
    = (Ok tt, mkState (Some d) (assign cache_file f fs) lg).
Proof.
  intros He Hext Hd. destruct (to_parquet_exact d Hd) as (f & Hf & Hr).
  exists f. split; [exact Hr|]. rewrite save_cache_run, Hext, Hf by exact He. reflexivity.
Qed.

Lemma save_csv (cache_file : string) (d : DataFrame) fs lg :
  empty d = false ->
  endswith cache_file ".parquet" = false ->
  _save_cache cache_file (mkState (Some d) fs lg)
  = (Ok tt, mkState (Some d) (assign cache_file (to_csv d) fs) lg).
Proof.
  intros He Hext. unfold _save_cache.
  rewrite bind_run. unfold get_df at 1. cbn [df]. cbv beta iota. rewrite He.
  unfold try_except. rewrite Hext. reflexivity.
Qed.

Lemma load_parquet (cache_file : string) (f : file) (d : DataFrame)
    (before : option DataFrame) fs lg :
  endswith cache_file ".parquet" = true ->
  lookup cache_file fs = Some f ->
  read_parquet f = Ok d ->
  _load_from_cache cache_file (mkState before fs lg) = (Ok tt, mkState (Some d) fs lg).
Proof.
  intros Hext Hf Hr. unfold _load_from_cache, try_except.
  rewrite bind_run. unfold exists_path at 1. cbn [files]. rewrite Hf. cbv beta iota.
  rewrite Hext, bind_run. unfold read_file at 1. cbn [files]. rewrite Hf. cbv beta iota.
  rewrite bind_run. unfold lift at 1. rewrite Hr. reflexivity.
Qed.

Lemma load_failed (cache_file : string) (before : option DataFrame) fs lg :
  lookup cache_file fs = None ->
  _load_from_cache cache_file (mkState before fs lg)
  = (Ok tt, mkState before fs (lg ++ [NoCacheFileFound])).
Proof. intro Hf. rewrite load_from_cache_missing by exact Hf. reflexivity. Qed.
















End RoundTrip.


(** ** Further lemmas on the methods *)

Lemma DataFrame_of_records_well_formed (records : list record) :
  well_formed (DataFrame_of_records records).
Proof.
  unfold well_formed, DataFrame_of_records. cbn [columns nrows].
  apply Forall_forall. intros kv Hkv. apply in_map_iff in Hkv.
  destruct Hkv as (k & <- & _). simpl. apply length_map.
Qed.

Lemma fetch_pages_keeps_state (responses : nat -> response) (fuel : nat) :
  forall k all_records offset total_records s r s',
    fetch_pages responses fuel k all_records offset total_records s = Some (r, s') ->
    df s' = df s /\ files s' = files s.
Proof.
  induction fuel as [|fuel IH]; intros k all_records offset total_records s r s' Hrun;
    [discriminate|].
  destruct (error_of (responses k)) as [e|] eqn:He.
  - rewrite (fetch_pages_error responses fuel k _ _ _ e s He), api_failed_run in Hrun.
    destruct (offset >? 0)%Z; injection Hrun as <- <-; split; reflexivity.
  - destruct (responses k) as [| |tot records] eqn:Hk; try discriminate.
    simpl in Hrun. rewrite Hk in Hrun.
    destruct (match total_records with Some t => Some t | None => tot end) as [t|].
    + destruct (_ >=? _)%Z.
      * injection Hrun as <- <-. split; reflexivity.
      * exact (IH _ _ _ _ _ _ _ Hrun).
    + injection Hrun as <- <-. split; reflexivity.
Qed.

Section CompleteFetch.
Variables (responses : nat -> response) (n : nat) (total : Z) (s : State).
Hypothesis pages : forall i, i <= n -> exists tot records, responses i = Page tot records.
Hypothesis first_total : reported_total responses = Some total.
Hypothesis incomplete :
  forall i, i < n -> (Z.of_nat (length (fetched responses (S i))) < total)%Z.
Hypothesis complete : (total <= Z.of_nat (length (fetched responses (S n))))%Z.

Lemma complete_fetch_from (j k : nat) :
  k + j = n ->
  forall fuel, j < fuel ->
  fetch_pages responses fuel k (fetched responses k)
    (Z.of_nat (length (fetched responses k)))
    (if (k =? 0)%nat then None else Some total) s
  = Some (Ok (fetched responses (S n)), s).
Proof.
  revert k. induction j as [|j IH]; intros k Hk fuel Hfuel;
    (destruct fuel as [|fuel]; [lia|]);
    (destruct (pages k ltac:(lia)) as (tot & records & Hresp));
    (assert (Ht : match (if (k =? 0)%nat then None else Some total) with
                  | Some t' => Some t'
                  | None => tot
                  end = Some total)
       by (destruct k as [|k]; simpl; [|reflexivity];
           unfold reported_total in first_total; rewrite Hresp in first_total;
           exact first_total));
    rewrite (fetch_pages_page responses fuel k _ _ _ tot records total s Hresp Ht).
  - assert (k = n) by lia. subst k.
    pose proof complete as Hc. rewrite fetched_S, Hresp in Hc. simpl records_of in Hc.
    rewrite length_app, Nat2Z.inj_add in Hc.
    destruct (_ >=? _)%Z eqn:Hge; [|below_total Hge; lia].
    rewrite fetched_S, Hresp. reflexivity.
  - pose proof (incomplete k ltac:(lia)) as Hinc.
    rewrite fetched_S, Hresp in Hinc. simpl records_of in Hinc.
    rewrite length_app, Nat2Z.inj_add in Hinc.
    destruct (_ >=? _)%Z eqn:Hge; [lia|].
    specialize (IH (S k) ltac:(lia) fuel ltac:(lia)).
    rewrite fetched_S, Hresp in IH. simpl records_of in IH.
    rewrite length_app, Nat2Z.inj_add in IH. simpl Nat.eqb in IH. exact IH.
Qed.

End CompleteFetch.

(** *** What the methods log *)

Lemma logs_only_silent {A : Type} (P : log_record -> Prop) (m : M A) :
  silent m -> logs_only P m.
Proof. intros Hm s. exists []. rewrite app_nil_r. split; [apply Hm | constructor]. Qed.

Lemma logs_only_emit (P : log_record -> Prop) (r : log_record) :
  P r -> logs_only P (emit r).
Proof. intros Hr s. exists [r]. split; [reflexivity | repeat constructor; exact Hr]. Qed.

Lemma logs_only_bind {A B : Type} (P : log_record -> Prop) (m : M A) (k : A -> M B) :
  logs_only P m -> (forall a, logs_only P (k a)) -> logs_only P (bind m k).
Proof.
  intros Hm Hk s. unfold bind. destruct (Hm s) as (l1 & E1 & F1).
  destruct (m s) as [[a|e] s1]; cbn [snd] in *.
  - destruct (Hk a s1) as (l2 & E2 & F2). exists (l1 ++ l2).
    rewrite E2, E1, app_assoc. split; [reflexivity | apply Forall_app; split; assumption].
  - exists l1. split; assumption.
Qed.

Lemma logs_only_try {A : Type} (P : log_record -> Prop) (m : M A) (h : exn -> M A) :
  logs_only P m -> (forall e, logs_only P (h e)) -> logs_only P (try_except m h).
Proof.
  intros Hm Hh s. unfold try_except. destruct (Hm s) as (l1 & E1 & F1).
  destruct (m s) as [[a|e] s1]; cbn [snd] in *.
  - exists l1. split; assumption.
  - destruct (Hh e s1) as (l2 & E2 & F2). exists (l1 ++ l2).
    rewrite E2, E1, app_assoc. split; [reflexivity | apply Forall_app; split; assumption].
Qed.

Lemma silent_getitem (name : string) : silent (getitem name).
Proof. intros [[d|] fs lg]; reflexivity. Qed.

Lemma silent_setitem (name : string) (v : Series) : silent (setitem name v).
Proof. intros [[d|] fs lg]; reflexivity. Qed.

Lemma silent_read_file (path : string) : silent (read_file path).
Proof. intros s. unfold read_file. destruct (lookup path (files s)); reflexivity. Qed.

(** Sequencing, handlers, and the statements that log nothing. *)
Ltac logs_step :=
  first
    [ apply logs_only_silent;
      first [apply silent_getitem | apply silent_setitem | apply silent_read_file]
    | apply logs_only_silent; intros [? ? ?]; reflexivity
    | apply logs_only_bind; [|intro]
    | apply logs_only_try; [|intro] ].

Section Logs.
Context `{Pandas}.
Variable P : log_record -> Prop.

Lemma logs_only_clean_data (current_year : Z) :
  P NoDataToClean -> (forall e, P (LeaseDateError e)) ->
  logs_only P (_clean_data current_year).
Proof.
  intros Hn Hl. unfold _clean_data.
  apply logs_only_bind; [logs_step|]. intros [d|]; [|apply logs_only_emit; exact Hn].
  destruct (empty d); [apply logs_only_emit; exact Hn|].
  unfold convert_numeric, lease_dates, lease_failed, filter_outliers.
  repeat logs_step.
  apply logs_only_emit. apply Hl.
Qed.

Lemma logs_only_load_from_cache (cache_file : string) :
  P NoCacheFileFound -> (forall e, P (CacheLoadFailed e)) ->
  logs_only P (_load_from_cache cache_file).
Proof.
  intros Hn Hl. unfold _load_from_cache.
  apply logs_only_try; [|intro e; apply logs_only_emit; apply Hl].
  apply logs_only_bind; [logs_step|]. intros [|]; [|apply logs_only_emit; exact Hn].
  destruct (endswith cache_file ".parquet"); [repeat logs_step|].
  destruct (endswith cache_file ".csv"); repeat logs_step.
Qed.

Lemma logs_only_save_cache (cache_file : string) :
  (forall e, P (CacheSaveFailed e)) -> logs_only P (_save_cache cache_file).
Proof.
  intros Hs. unfold _save_cache.
  apply logs_only_bind; [logs_step|]. intros [d|]; [|logs_step].
  destruct (empty d); [logs_step|].
  apply logs_only_try; [|intro e; apply logs_only_emit; apply Hs].
  destruct (endswith cache_file ".parquet"); repeat logs_step.
Qed.

End Logs.

Lemma fetch_pages_logs (P : log_record -> Prop) (responses : nat -> response) (fuel : nat) :
  (forall e, P (ApiError e)) -> (forall n, P (ReturningPartialData n)) ->
  forall k all_records offset total_records s r s',
    fetch_pages responses fuel k all_records offset total_records s = Some (r, s') ->
    exists l, log s' = log s ++ l /\ Forall P l.
Proof.
  intros Ha Hp.
  induction fuel as [|fuel IH]; intros k all_records offset total_records s r s' Hrun;
    [discriminate|].
  destruct (error_of (responses k)) as [e|] eqn:He.
  - rewrite (fetch_pages_error responses fuel k _ _ _ e s He), api_failed_run in Hrun.
    destruct (offset >? 0)%Z; injection Hrun as <- <-; eexists; (split; [reflexivity|]);
      repeat (apply Forall_cons; [auto|]); apply Forall_nil.
  - destruct (responses k) as [| |tot records] eqn:Hk; try discriminate.
    simpl in Hrun. rewrite Hk in Hrun.
    destruct (match total_records with Some t => Some t | None => tot end) as [t|].
    + destruct (_ >=? _)%Z.
      * injection Hrun as <- <-. exists []. rewrite app_nil_r. split; [reflexivity | constructor].
      * exact (IH _ _ _ _ _ _ _ Hrun).
    + injection Hrun as <- <-. exists []. rewrite app_nil_r. split; [reflexivity | constructor].
Qed.

Lemma logs_only_run {A : Type} (P : log_record -> Prop) (m : M A) (s : State)
    (r : result A) (s' : State) :
  logs_only P m -> m s = (r, s') -> exists l, log s' = log s ++ l /\ Forall P l.
Proof. intros Hm Hrun. specialize (Hm s). rewrite Hrun in Hm. exact Hm. Qed.

Lemma not_sample_records :
  not_sample NoDataToClean /\ not_sample NoCacheFileFound /\ not_sample AttemptingFallback /\
  not_sample TryingCache /\
  (forall e, not_sample (LeaseDateError e)) /\ (forall e, not_sample (CacheLoadFailed e)) /\
  (forall e, not_sample (CacheSaveFailed e)) /\ (forall e, not_sample (ApiError e)) /\
  (forall e, not_sample (InitializationFailed e)) /\
  (forall n, not_sample (ReturningPartialData n)).
Proof. unfold not_sample. repeat split; intros; discriminate. Qed.

Section Constructor.
Context `{Pandas}.

(** The handler of the constructor: two log records, then the cache load. *)
Lemma init_handler_run (current_year : Z) (cache_file : string) (e : exn) (s : State) :
  (emit (InitializationFailed e) ;; emit AttemptingFallback ;;
   _fallback_procedure current_year cache_file) s
  = _load_from_cache cache_file
      (logged s [InitializationFailed e; AttemptingFallback; TryingCache]).
Proof.
  rewrite bind_run. unfold emit at 1. cbv beta iota.
  rewrite bind_run. unfold emit at 1. cbv beta iota.
  rewrite fallback_is_the_cache_load. unfold logged. cbn [df files log].
  rewrite <- !app_assoc. reflexivity.
Qed.

Lemma clean_then_save_logs (current_year : Z) (cache_file : string) :
  logs_only not_sample (_clean_data current_year ;; _save_cache cache_file).
Proof.
  destruct not_sample_records as (H1 & H2 & H3 & H4 & H5 & H6 & H7 & H8 & H9 & H10).
  apply logs_only_bind; [apply logs_only_clean_data; assumption|].
  intros _. apply logs_only_save_cache. assumption.
Qed.

End Constructor.

(** The two ways an online construction can end. *)
Lemma init_online_cases `{Pandas} (responses : nat -> response) (fuel : nat)
    (current_year : Z) (cache_file : string) (s0 : State) (r : result unit) (s1 : State) :
  __init__ responses fuel current_year true cache_file s0 = Some (r, s1) ->
  (exists all_records s_f,
      fetch_pages responses fuel 0 [] 0%Z None (fresh s0) = Some (Ok all_records, s_f) /\
      (_clean_data current_year ;; _save_cache cache_file)
        (mkState (Some (DataFrame_of_records all_records)) (files s_f) (log s_f))
      = (Ok tt, s1)) \/
  (exists e s_e l,
      log s_e = log s0 ++ l /\
      (r, s1) = _load_from_cache cache_file
                  (logged s_e [InitializationFailed e; AttemptingFallback; TryingCache])).
Proof.
  unfold __init__, _load_from_api. fold (fresh s0).
  destruct (fetch_pages responses fuel 0 [] 0%Z None (fresh s0))
    as [[[all_records|e] s_f]|] eqn:Hf; [| |discriminate].
  - destruct (fetch_pages_logs (fun _ => True) responses fuel (fun _ => I) (fun _ => I)
                _ _ _ _ _ _ _ Hf) as (l1 & E1 & _).
    unfold set_df. cbv beta iota.
    destruct (logs_only_run not_sample _
                (mkState (Some (DataFrame_of_records all_records)) (files s_f) (log s_f))
                _ _ (clean_then_save_logs current_year cache_file) (surjective_pairing _))
      as (l2 & E2 & _).
    destruct ((_clean_data current_year ;; _save_cache cache_file)
                (mkState (Some (DataFrame_of_records all_records)) (files s_f) (log s_f)))
      as [[[]|e] s2] eqn:Hcs.
    + intro E. injection E as <- <-. left. exists all_records, s_f.
      split; [reflexivity | exact Hcs].
    + rewrite init_handler_run. intro E. injection E as E.
      right. exists e, s2, (l1 ++ l2). split; [|symmetry; exact E].
      cbn [snd log] in E2. rewrite E2, E1, app_assoc. reflexivity.
  - destruct (fetch_pages_logs (fun _ => True) responses fuel (fun _ => I) (fun _ => I)
                _ _ _ _ _ _ _ Hf) as (l1 & E1 & _).
    rewrite init_handler_run. intro E. injection E as E.
    right. exists e, s_f, l1. split; [exact E1 | symmetry; exact E].
Qed.

(** ** The stages of the cleaning pipeline *)

Lemma getcol_raises (name : string) (d : DataFrame) (e : exn) :
  getcol name d = Raise e -> e = KeyError name /\ has_column name d = false.
Proof.
  unfold getcol, has_column. destruct (lookup name (columns d)); [discriminate|].
  intro E. injection E as <-. split; reflexivity.
Qed.

Lemma getcol_has_column (name : string) (d : DataFrame) (c : Series) :
  getcol name d = Ok c -> lookup name (columns d) = Some c /\ has_column name d = true.
Proof.
  unfold getcol, has_column. destruct (lookup name (columns d)); [|discriminate].
  intro E. injection E as <-. split; reflexivity.
Qed.

Section Stages.
Context `{Pandas}.

Lemma clean_start (current_year : Z) (d : DataFrame) fs lg :
  empty d = false ->
  _clean_data current_year (mkState (Some d) fs lg)
  = (m <- getitem "month" ;;
     setitem "month" (to_datetime m) ;;
     convert_numeric "resale_price" ;;
     convert_numeric "floor_area_sqm" ;;
     p <- getitem "resale_price" ;;
     a <- getitem "floor_area_sqm" ;;
     setitem "price_per_sqm" (series_div p a) ;;
     try_except (lease_dates current_year) lease_failed ;;
     t <- getitem "town" ;;
     t <- lift (str_method title t) ;;
     t <- lift (str_method strip t) ;;
     setitem "town" t ;;
     filter_outliers) (mkState (Some d) fs lg).
Proof.
  intro He. unfold _clean_data.
  rewrite bind_run. unfold get_df at 1. cbn [df]. cbv beta iota. rewrite He. reflexivity.
Qed.

Lemma clean_prefix_run (current_year : Z) (d : DataFrame) (m p a : Series) fs lg
    (k : M unit) :
  getcol "month" d = Ok m ->
  getcol "resale_price" d = Ok p ->
  getcol "floor_area_sqm" d = Ok a ->
  (m <- getitem "month" ;;
   setitem "month" (to_datetime m) ;;
   convert_numeric "resale_price" ;;
   convert_numeric "floor_area_sqm" ;;
   p <- getitem "resale_price" ;;
   a <- getitem "floor_area_sqm" ;;
   setitem "price_per_sqm" (series_div p a) ;;
   try_except (lease_dates current_year) lease_failed ;;
   k) (mkState (Some d) fs lg)
  = k (mkState (Some (fst (with_lease current_year (converted d m p a)))) fs
               (lg ++ snd (with_lease current_year (converted d m p a)))).
Proof.
  intros Hm Hp Ha. unfold converted.
  run_item. rewrite Hm. cbv beta iota.
  run_item.
  rewrite bind_run, convert_numeric_run with (c := p)
    by (rewrite getcol_setcol_ne by reflexivity; exact Hp).
  cbv beta iota.
  rewrite bind_run, convert_numeric_run with (c := a)
    by (rewrite !getcol_setcol_ne by reflexivity; exact Ha).
  cbv beta iota.
  run_item. rewrite getcol_setcol_ne, getcol_setcol_eq by reflexivity. cbv beta iota.
  run_item. rewrite getcol_setcol_eq. cbv beta iota.
  run_item.
  rewrite bind_run, lease_stage_run. cbv beta iota. reflexivity.
Qed.

Lemma with_lease_nrows (current_year : Z) (d : DataFrame) :
  nrows (fst (with_lease current_year d)) = nrows d.
Proof. unfold with_lease. destruct (getcol "lease_commence_date" d); reflexivity. Qed.

Lemma getcol_town_converted (current_year : Z) (d : DataFrame) (m p a : Series) :
  getcol "town" (fst (with_lease current_year (converted d m p a))) = getcol "town" d.
Proof.
  unfold converted. rewrite getcol_with_lease, !getcol_setcol_ne by reflexivity. reflexivity.
Qed.

End Stages.

(** The shape of a failed cleaning: the kind of the exception, the files,
    the table that is left; what remains is that the table was not
    cleanable. *)
Ltac failure_shape :=
  split; [unfold cleaning_error; auto 6|];
  split; [reflexivity|];
  eexists; eexists;
  split; [reflexivity|];
  split; [reflexivity|];
  split; [first [reflexivity | rewrite with_lease_nrows; reflexivity] | unfold cleanable].

(** ** The table a successful cleaning leaves *)

Lemma series_div_nth (p a : Series) (i : nat) (x y : cell) :
  nth_error p i = Some x -> nth_error a i = Some y ->
  nth_error (series_div p a) i = Some (cell_div x y).
Proof.
  unfold series_div. revert a i. induction p as [|c p IH]; intros a i Hx Hy.
  - destruct i; discriminate.
  - destruct a as [|c' a]; [destruct i; discriminate|].
    destruct i as [|i]; simpl in *.
    + injection Hx as <-. injection Hy as <-. reflexivity.
    + apply IH; assumption.
Qed.

Lemma untouched_names (name : string) :
  ~ In name touched ->
  ("month" =? name) = false /\ ("resale_price" =? name) = false /\
  ("floor_area_sqm" =? name) = false /\ ("price_per_sqm" =? name) = false /\
  ("lease_commence_date" =? name) = false /\ ("lease_remaining" =? name) = false /\
  ("town" =? name) = false.
Proof.
  intro Hn. unfold touched in Hn. simpl in Hn.
  repeat split; apply String.eqb_neq; intro E; apply Hn; rewrite E; tauto.
Qed.

Lemma well_formed_setcol (name : string) (v : Series) (d : DataFrame) :
  length v = nrows d -> well_formed d -> well_formed (setcol name v d).
Proof.
  intros Hv Hd. unfold well_formed, setcol in *. cbn [columns nrows].
  apply Forall_assign; [intro k'; exact Hv | exact Hd].
Qed.

Lemma well_formed_select_rows (mask : list bool) (d : DataFrame) :
  length mask <= nrows d -> well_formed d -> well_formed (select_rows mask d).
Proof.
  intros Hm Hd. unfold well_formed, select_rows in *. cbn [columns nrows].
  apply Forall_forall. intros kv Hin. apply in_map_iff in Hin.
  destruct Hin as (kv0 & <- & Hin0). simpl.
  rewrite Forall_forall in Hd. specialize (Hd kv0 Hin0).
  apply select_length. rewrite Hd. exact Hm.
Qed.

Lemma count_true_le (mask : list bool) : count_true mask <= length mask.
Proof. unfold count_true. apply filter_length_le. Qed.

Section CleanedTable.
Context `{Pandas}.
Variables (current_year : Z) (d : DataFrame) (m p a t : Series).
Hypothesis Hm : getcol "month" d = Ok m.
Hypothesis Hp : getcol "resale_price" d = Ok p.
Hypothesis Ha : getcol "floor_area_sqm" d = Ok a.
Hypothesis Ht : getcol "town" d = Ok t.

Lemma filled_length (c : Series) : length (filled c) = length c.
Proof. unfold filled, fillna, to_numeric. rewrite !length_map. reflexivity. Qed.

Lemma getcol_lease_converted :
  getcol "lease_commence_date" (converted d m p a) = getcol "lease_commence_date" d.
Proof. unfold converted. rewrite !getcol_setcol_ne by reflexivity. reflexivity. Qed.

Lemma clean_runs_exact fs lg :
  empty d = false -> str_accepts t = true ->
  _clean_data current_year (mkState (Some d) fs lg)
  = (Ok tt, mkState (Some (cleaned current_year d m p a t)) fs
                    (lg ++ snd (with_lease current_year (converted d m p a)))).
Proof.
  intros He Hacc.
  rewrite clean_start, (clean_prefix_run current_year d m p a fs lg _ Hm Hp Ha) by exact He.
  rewrite bind_run, getitem_run, getcol_town_converted, Ht. cbv beta iota.
  rewrite bind_run. unfold lift at 1, str_method at 1. rewrite Hacc. cbv beta iota.
  rewrite bind_run. unfold lift at 1, str_method at 1.
  rewrite str_accepts_str_apply. cbv beta iota.
  run_item.
  rewrite filter_outliers_run with (p := filled p) (a := filled a).
  - reflexivity.
  - unfold converted.
    rewrite getcol_setcol_ne, getcol_with_lease, getcol_setcol_ne,
      getcol_setcol_ne, getcol_setcol_eq by reflexivity.
    reflexivity.
  - unfold converted.
    rewrite getcol_setcol_ne, getcol_with_lease, getcol_setcol_ne,
      getcol_setcol_eq by reflexivity.
    reflexivity.
Qed.

Lemma cleaned_quotient :
  getcol "price_per_sqm" (cleaned current_year d m p a t)
  = Ok (series_div (select (keep_mask p a) (filled p)) (select (keep_mask p a) (filled a))).
Proof.
  rewrite series_div_select. unfold cleaned. apply getcol_select_rows.
  rewrite getcol_setcol_ne, getcol_with_lease by reflexivity.
  apply getcol_setcol_eq.
Qed.

Lemma cleaned_lease_present (l : Series) :
  getcol "lease_commence_date" d = Ok l ->
  snd (with_lease current_year (converted d m p a)) = [] /\
  getcol "lease_commence_date" (cleaned current_year d m p a t)
  = Ok (select (keep_mask p a) (to_datetime l)) /\
  getcol "lease_remaining" (cleaned current_year d m p a t)
  = Ok (lease_remaining_of current_year (select (keep_mask p a) (to_datetime l))).
Proof.
  intro Hl. unfold cleaned, with_lease. rewrite getcol_lease_converted, Hl. cbn [fst snd].
  split; [reflexivity|]. split.
  - apply getcol_select_rows.
    rewrite !getcol_setcol_ne by reflexivity. apply getcol_setcol_eq.
  - rewrite lease_remaining_select. apply getcol_select_rows.
    rewrite getcol_setcol_ne by reflexivity. apply getcol_setcol_eq.
Qed.

Lemma cleaned_lease_absent (e : exn) :
  getcol "lease_commence_date" d = Raise e ->
  snd (with_lease current_year (converted d m p a)) = [LeaseDateError e] /\
  getcol "lease_commence_date" (cleaned current_year d m p a t) = Raise e /\
  getcol "lease_remaining" (cleaned current_year d m p a t)
  = Ok (select (keep_mask p a) (repeat (Num nan) (nrows d))).
Proof.
  intro Hl. unfold cleaned, with_lease. rewrite getcol_lease_converted, Hl. cbn [fst snd].
  split; [reflexivity|]. split.
  - apply getcol_select_rows_missing.
    rewrite !getcol_setcol_ne by reflexivity.
    rewrite getcol_lease_converted. exact Hl.
  - apply getcol_select_rows.
    rewrite getcol_setcol_ne by reflexivity. apply getcol_setcol_eq.
Qed.

Lemma cleaned_untouched (name : string) :
  ~ In name touched ->
  getcol name (cleaned current_year d m p a t)
  = match getcol name d with
    | Ok c => Ok (select (keep_mask p a) c)
    | Raise e => Raise e
    end.
Proof.
  intro Hn. destruct (untouched_names name Hn) as (N1 & N2 & N3 & N4 & N5 & N6 & N7).
  assert (E : getcol name (setcol "town" (normalize_town t)
                             (fst (with_lease current_year (converted d m p a))))
              = getcol name d).
  { rewrite getcol_setcol_ne by exact N7.
    rewrite getcol_with_lease by (rewrite String.eqb_sym; assumption).
    unfold converted. rewrite !getcol_setcol_ne by assumption. reflexivity. }
  unfold cleaned. destruct (getcol name d) as [c|e] eqn:Hc.
  - apply getcol_select_rows. exact E.
  - apply getcol_select_rows_missing. exact E.
Qed.

Lemma keep_mask_length : well_formed d -> length (keep_mask p a) = nrows d.
Proof.
  intro Hd. unfold keep_mask. rewrite mask_and_length, !length_map, !filled_length.
  rewrite (well_formed_getcol _ _ _ Hd Hp), (well_formed_getcol _ _ _ Hd Ha).
  apply Nat.min_id.
Qed.

Lemma converted_well_formed : well_formed d -> well_formed (converted d m p a).
Proof.
  intro Hd.
  assert (Lp := well_formed_getcol _ _ _ Hd Hp).
  assert (La := well_formed_getcol _ _ _ Hd Ha).
  assert (Lm := well_formed_getcol _ _ _ Hd Hm).
  unfold converted.
  repeat apply well_formed_setcol; try exact Hd; cbn [nrows setcol].
  - unfold series_div. rewrite length_map, length_combine, !filled_length, Lp, La.
    apply Nat.min_id.
  - rewrite filled_length. exact La.
  - rewrite filled_length. exact Lp.
  - unfold to_datetime. rewrite length_map. exact Lm.
Qed.

Lemma with_lease_well_formed (d0 : DataFrame) :
  well_formed d0 -> well_formed (fst (with_lease current_year d0)).
Proof.
  intro Hd. unfold with_lease.
  destruct (getcol "lease_commence_date" d0) as [l|e] eqn:Hl; cbn [fst].
  - assert (Ll := well_formed_getcol _ _ _ Hd Hl).
    repeat apply well_formed_setcol; try exact Hd; cbn [nrows setcol];
      unfold lease_remaining_of, to_datetime; rewrite ?length_map; exact Ll.
  - apply well_formed_setcol; [apply repeat_length | exact Hd].
Qed.

Lemma cleaned_well_formed :
  well_formed d -> well_formed (cleaned current_year d m p a t).
Proof.
  intro Hd. unfold cleaned. apply well_formed_select_rows.
  - cbn [nrows setcol]. rewrite with_lease_nrows. change (nrows (converted d m p a)) with (nrows d).
    rewrite keep_mask_length by exact Hd. lia.
  - apply well_formed_setcol.
    + unfold normalize_town. rewrite !length_map, with_lease_nrows.
      change (nrows (converted d m p a)) with (nrows d).
      exact (well_formed_getcol _ _ _ Hd Ht).
    + apply with_lease_well_formed, converted_well_formed. exact Hd.
Qed.

End CleanedTable.

(** A normal return of [_clean_data] on a non-empty frame, with the log. *)
Lemma clean_ok `{Pandas} (current_year : Z) (d : DataFrame) fs lg (s' : State) :
  empty d = false ->
  _clean_data current_year (mkState (Some d) fs lg) = (Ok tt, s') ->
  exists m p a t,
    getcol "month" d = Ok m /\
    getcol "resale_price" d = Ok p /\
    getcol "floor_area_sqm" d = Ok a /\
    getcol "town" d = Ok t /\
    str_accepts t = true /\
    s' = mkState (Some (cleaned current_year d m p a t)) fs
                 (lg ++ snd (with_lease current_year (converted d m p a))).
Proof.
  intros He Hrun.
  destruct (clean_returns current_year d fs lg s' He Hrun)
    as (m & p & a & t & lease_log & Hm & Hp & Ha & Ht & Hacc & _).
  exists m, p, a, t. repeat (split; [assumption|]).
  rewrite (clean_runs_exact current_year d m p a t Hm Hp Ha Ht fs lg He Hacc) in Hrun.
  injection Hrun as <-. reflexivity.
Qed.

Lemma cleanable_columns (d : DataFrame) :
  cleanable d = true ->
  exists m p a t,
    getcol "month" d = Ok m /\ getcol "resale_price" d = Ok p /\
    getcol "floor_area_sqm" d = Ok a /\ getcol "town" d = Ok t /\ str_accepts t = true.
Proof.
  unfold cleanable, has_column, getcol. intro Hc.
  destruct (lookup "month" (columns d)) as [m|]; [|discriminate].
  destruct (lookup "resale_price" (columns d)) as [p|]; [|discriminate].
  destruct (lookup "floor_area_sqm" (columns d)) as [a|]; [|discriminate].
  destruct (lookup "town" (columns d)) as [t|]; [|discriminate].
  exists m, p, a, t. repeat (split; [reflexivity|]). exact Hc.
Qed.

Lemma filled_numeric `{Pandas} (c : Series) : Forall numeric (filled c).
Proof.
  unfold filled, fillna, to_numeric. apply Forall_forall. intros x Hx.
  apply in_map_iff in Hx. destruct Hx as (y & <- & Hy).
  apply in_map_iff in Hy. destruct Hy as (z & <- & _).
  destruct (isna (numeric_of_cell z)); [exact I|].
  destruct z as [|v|w|ts]; simpl; try exact I.
  destruct (str_to_numeric w); exact I.
Qed.

Lemma series_div_numeric (p a : Series) : Forall numeric (series_div p a).
Proof.
  unfold series_div. apply Forall_forall. intros x Hx.
  apply in_map_iff in Hx. destruct Hx as ([u v] & <- & _).
  destruct u, v; exact I.
Qed.

Lemma lease_remaining_numeric (current_year : Z) (l : Series) :
  Forall numeric (lease_remaining_of current_year l).
Proof.
  unfold lease_remaining_of. apply Forall_forall. intros x Hx.
  apply in_map_iff in Hx. destruct Hx as (c & <- & _). destruct c; exact I.
Qed.

Lemma normalize_town_from `{Pandas} (t : Series) :
  Forall (normalized_from t) (normalize_town t).
Proof.
  unfold normalize_town. rewrite map_map. apply Forall_forall. intros x Hx.
  apply in_map_iff in Hx. destruct Hx as (c & <- & Hc).
  destruct c as [|v|w|ts]; simpl; try exact I.
  exists w. split; [exact Hc | reflexivity].
Qed.

Lemma normalize_town_trimmed `{Pandas} (t : Series) :
  (forall s, strip (strip s) = strip s) -> Forall trimmed (normalize_town t).
Proof.
  intro Hidem. unfold normalize_town. rewrite map_map. apply Forall_forall. intros x Hx.
  apply in_map_iff in Hx. destruct Hx as (c & <- & _).
  destruct c as [|v|w|ts]; simpl; try exact I. apply Hidem.
Qed.

Lemma Forall_normalized_from_select `{Pandas} (mask : list bool) (t : Series) :
  Forall (normalized_from t) (select mask (normalize_town t)).
Proof. apply Forall_select, normalize_town_from. Qed.

(** ** Distinct values and their order *)

Lemma ts_eqb_eq (a b : Timestamp) : ts_eqb a b = true -> a = b.
Proof.
  destruct a as [y1 m1 d1 n1], b as [y2 m2 d2 n2]. unfold ts_eqb. cbn [ts_year ts_month ts_day ts_nanos].
  rewrite !andb_true_iff, !Z.eqb_eq. intros [[[-> ->] ->] ->]. reflexivity.
Qed.

Lemma ts_eqb_refl (a : Timestamp) : ts_eqb a a = true.
Proof. unfold ts_eqb. rewrite !Z.eqb_refl. reflexivity. Qed.

Lemma cell_eqb_keyed (c x : cell) : keyed x -> cell_eqb c x = true -> c = x.
Proof.
  destruct x as [|v|w|ts]; simpl; try contradiction; intros _;
    destruct c as [|v'|w'|ts']; simpl; try discriminate.
  - intro E. apply String.eqb_eq in E. subst. reflexivity.
  - intro E. apply ts_eqb_eq in E. subst. reflexivity.
Qed.

Lemma cell_eqb_keyed_l (c x : cell) : keyed c -> cell_eqb c x = true -> c = x.
Proof.
  destruct c as [|v|w|ts]; simpl; try contradiction; intros _;
    destruct x as [|v'|w'|ts']; simpl; try discriminate.
  - intro E. apply String.eqb_eq in E. subst. reflexivity.
  - intro E. apply ts_eqb_eq in E. subst. reflexivity.
Qed.

Lemma cell_eqb_refl_keyed (x : cell) : keyed x -> cell_eqb x x = true.
Proof.
  destruct x as [|v|w|ts]; simpl; try contradiction; intros _;
    [apply String.eqb_refl | apply ts_eqb_refl].
Qed.

Lemma unique_incl (l : list cell) (x : cell) : In x (unique l) -> In x l.
Proof.
  induction l as [|c l IH]; simpl; [tauto|].
  intros [<-|Hx]; [left; reflexivity|].
  apply filter_In in Hx. right. apply IH. tauto.
Qed.

Lemma unique_complete (l : list cell) (x : cell) : keyed x -> In x l -> In x (unique l).
Proof.
  intro K. induction l as [|c l IH]; simpl; [tauto|].
  intros [->|Hx]; [left; reflexivity|].
  destruct (cell_eqb c x) eqn:E.
  - left. apply cell_eqb_keyed; assumption.
  - right. apply filter_In. split; [apply IH; exact Hx | rewrite E; reflexivity].
Qed.

Lemma unique_NoDup (l : list cell) : Forall keyed l -> NoDup (unique l).
Proof.
  induction 1 as [|c l Hc _ IH]; simpl; constructor.
  - intro Hin. apply filter_In in Hin. destruct Hin as [_ Hn].
    rewrite (cell_eqb_refl_keyed c Hc) in Hn. discriminate.
  - apply NoDup_filter. exact IH.
Qed.

Lemma unique_Forall (Q : cell -> Prop) (l : list cell) : Forall Q l -> Forall Q (unique l).
Proof.
  intro Hl. rewrite Forall_forall in *. intros x Hx. apply Hl, unique_incl, Hx.
Qed.

(** A value that is not text has a representative among the distinct
    values that is not text either. *)
Lemma unique_has_other (l : list cell) (c : cell) :
  In c l -> ~ text c -> exists c', In c' (unique l) /\ ~ text c'.
Proof.
  induction l as [|x l IH]; simpl; [tauto|].
  intros [->|Hc] Hn.
  - exists c. split; [left; reflexivity | exact Hn].
  - destruct (IH Hc Hn) as (c' & Hin & Hn').
    destruct (cell_eqb x c') eqn:E.
    + exists x. split; [left; reflexivity|].
      intro Hx. apply Hn'. destruct x as [|v|w|ts]; simpl in Hx; try contradiction.
      rewrite <- (cell_eqb_keyed_l (Str w) c' I E). exact I.
    + exists c'. split; [|exact Hn'].
      right. apply filter_In. split; [exact Hin | rewrite E; reflexivity].
Qed.

Section Insertion.
Context {A : Type}.
Variables (leb : A -> A -> bool) (Q : A -> Prop).
Hypothesis total : forall x y, Q x -> Q y -> leb x y = false -> leb y x = true.

Lemma insert_by_perm (x : A) (l : list A) : Permutation (x :: l) (insert_by leb x l).
Proof.
  induction l as [|y l IH]; simpl; [apply Permutation_refl|].
  destruct (leb x y); [apply Permutation_refl|].
  apply perm_trans with (y :: x :: l); [apply perm_swap | apply perm_skip, IH].
Qed.

Lemma sort_by_perm (l : list A) : Permutation l (sort_by leb l).
Proof.
  induction l as [|x l IH]; simpl; [apply perm_nil|].
  apply perm_trans with (x :: sort_by leb l); [apply perm_skip, IH | apply insert_by_perm].
Qed.

Lemma insert_by_sorted (x : A) (l : list A) :
  Q x -> Forall Q l ->
  Sorted (fun a b => leb a b = true) l ->
  Sorted (fun a b => leb a b = true) (insert_by leb x l).
Proof.
  intros Qx. induction l as [|y l IH]; intros Ql Hs; simpl.
  - constructor; constructor.
  - destruct (leb x y) eqn:E.
    + constructor; [exact Hs | constructor; exact E].
    + inversion Hs as [|? ? Hs' Hhd]; subst. inversion Ql as [|? ? Qy Ql']; subst.
      constructor; [apply IH; assumption|].
      destruct l as [|z l]; simpl.
      * constructor. apply total; assumption.
      * destruct (leb x z).
        -- constructor. apply total; assumption.
        -- inversion Hhd; subst. constructor. assumption.
Qed.

Lemma sort_by_sorted (l : list A) :
  Forall Q l -> Sorted (fun a b => leb a b = true) (sort_by leb l).
Proof.
  induction 1 as [|x l Qx Ql IH]; simpl; [constructor|].
  apply insert_by_sorted; [exact Qx | | exact IH].
  exact (Permutation_Forall (sort_by_perm l) Ql).
Qed.

End Insertion.

Lemma lex_leb_total (a : list Z) :
  forall b, length a = length b -> lex_leb a b = false -> lex_leb b a = true.
Proof.
  induction a as [|x a IH]; intros [|y b] Hlen; simpl; try discriminate; try reflexivity.
  injection Hlen as Hlen. specialize (IH b Hlen).
  destruct (Z.ltb_spec x y), (Z.eqb_spec x y), (Z.ltb_spec y x), (Z.eqb_spec y x);
    simpl; try lia; try discriminate; try reflexivity; exact IH.
Qed.

Lemma cell_leb_total_text (x y : cell) :
  text x -> text y -> cell_leb x y = false -> cell_leb y x = true.
Proof.
  destruct x as [|v|w|ts], y as [|v'|w'|ts']; simpl; try contradiction. intros _ _ E.
  destruct (String.leb_total w w') as [T|T]; [congruence | exact T].
Qed.

Lemma cell_leb_total_dates (x y : cell) :
  is_date x -> is_date y -> cell_leb x y = false -> cell_leb y x = true.
Proof.
  destruct x as [|v|w|ts], y as [|v'|w'|ts']; try (simpl; contradiction). intros _ _.
  cbn [cell_leb]. apply lex_leb_total. reflexivity.
Qed.

Lemma comparable_text (l : list cell) : Forall text l -> comparable l = true.
Proof.
  intro Hl. unfold comparable.
  assert (E : forallb is_str l = true).
  { apply forallb_forall. rewrite Forall_forall in Hl. intros x Hx. specialize (Hl x Hx).
    destruct x; simpl in *; try contradiction; reflexivity. }
  rewrite E, orb_true_r. reflexivity.
Qed.

Lemma comparable_dates (l : list cell) : Forall is_date l -> comparable l = true.
Proof.
  intro Hl. unfold comparable.
  assert (E : forallb is_ts l = true).
  { apply forallb_forall. rewrite Forall_forall in Hl. intros x Hx. specialize (Hl x Hx).
    destruct x; simpl in *; try contradiction; reflexivity. }
  rewrite E, orb_true_r. reflexivity.
Qed.

Lemma text_keyed (c : cell) : text c -> keyed c.
Proof. destruct c; simpl; tauto. Qed.

Lemma is_date_keyed (c : cell) : is_date c -> keyed c.
Proof. destruct c; simpl; tauto. Qed.

(** [sorted(values.unique())] on values of one keyed kind. *)
Lemma sorted_unique (Q : cell -> Prop) (t : list cell) :
  (forall c, Q c -> keyed c) ->
  (forall x y, Q x -> Q y -> cell_leb x y = false -> cell_leb y x = true) ->
  (forall l, Forall Q l -> comparable l = true) ->
  Forall Q t ->
  sorted (unique t) = Ok (sort_by cell_leb (unique t)) /\
  listed t (sort_by cell_leb (unique t)) /\
  Forall Q (sort_by cell_leb (unique t)).
Proof.
  intros Hkey Htotal Hcomp Ht.
  assert (Hu : Forall Q (unique t)) by (apply unique_Forall; exact Ht).
  assert (Hperm := sort_by_perm cell_leb (unique t)).
  split; [unfold sorted; rewrite (Hcomp _ Hu); reflexivity|].
  split; [|exact (Permutation_Forall Hperm Hu)].
  split; [exact (sort_by_sorted cell_leb Q Htotal _ Hu)|].
  split.
  - apply (Permutation_NoDup Hperm). apply unique_NoDup.
    rewrite Forall_forall in *. intros x Hx. apply Hkey, Ht, Hx.
  - intro c. split.
    + intro Hc. apply unique_incl. exact (Permutation_in c (Permutation_sym Hperm) Hc).
    + intro Hc. apply (Permutation_in c Hperm). apply unique_complete; [|exact Hc].
      rewrite Forall_forall in Ht. apply Hkey, Ht, Hc.
Qed.

Lemma not_comparable (l : list cell) (w : string) (c : cell) :
  In (Str w) l -> In c l -> ~ text c -> comparable l = false.
Proof.
  intros Hw Hc Hn. unfold comparable.
  assert (L : (length l <=? 1)%nat = false).
  { apply Nat.leb_gt. destruct l as [|x [|y l]]; simpl in *; try tauto; [|lia].
    destruct Hw as [Hw|[]], Hc as [Hc|[]]. subst x. subst c. exfalso. apply Hn. exact I. }
  assert (S1 : forallb is_str l = false).
  { destruct (forallb is_str l) eqn:E; [|reflexivity].
    rewrite forallb_forall in E. specialize (E c Hc).
    exfalso. apply Hn. destruct c; simpl in *; try discriminate. exact I. }
  assert (S2 : forallb (fun c => is_num c || match c with Null => true | _ => false end) l
               = false).
  { match goal with |- ?b = false => destruct b eqn:E; [|reflexivity] end.
    rewrite forallb_forall in E. specialize (E _ Hw). discriminate. }
  assert (S3 : forallb is_ts l = false).
  { destruct (forallb is_ts l) eqn:E; [|reflexivity].
    rewrite forallb_forall in E. specialize (E _ Hw). discriminate. }
  rewrite L, S1, S2, S3. reflexivity.
Qed.

Lemma sorted_unique_mixed (t : list cell) (w : string) (c : cell) :
  In (Str w) t -> In c t -> ~ text c -> sorted (unique t) = Raise not_ordered.
Proof.
  intros Hw Hc Hn. unfold sorted.
  destruct (unique_has_other t c Hc Hn) as (c' & Hc' & Hn').
  rewrite (not_comparable (unique t) w c' (unique_complete t (Str w) I Hw) Hc' Hn').
  reflexivity.
Qed.

Lemma get_towns_run (d : DataFrame) (t : Series) fs lg :
  getcol "town" d = Ok t ->
  get_towns (mkState (Some d) fs lg)
  = (match sorted (unique t) with Ok l => Ok l | Raise e => Raise e end,
     mkState (Some d) fs lg).
Proof.
  intro Ht. unfold get_towns. rewrite bind_run. unfold get_df at 1. cbn [df]. cbv beta iota.
  rewrite bind_run, getitem_run, Ht. cbv beta iota. unfold lift.
  destruct (sorted (unique t)); reflexivity.
Qed.

Lemma get_flat_types_run (d : DataFrame) (t : Series) fs lg :
  getcol "flat_type" d = Ok t ->
  get_flat_types (mkState (Some d) fs lg)
  = (match sorted (unique t) with Ok l => Ok l | Raise e => Raise e end,
     mkState (Some d) fs lg).
Proof.
  intro Ht. unfold get_flat_types. rewrite bind_run. unfold get_df at 1. cbn [df].
  cbv beta iota.
  rewrite bind_run, getitem_run, Ht. cbv beta iota. unfold lift.
  destruct (sorted (unique t)); reflexivity.
Qed.

(** ** Aggregation *)

Lemma collect_map_ok {A B : Type} (g : A -> B) (l : list A) :
  collect (map (fun k => Ok (g k)) l) = Ok (map g l).
Proof. induction l as [|x l IH]; simpl; [reflexivity|]. rewrite IH. reflexivity. Qed.

Lemma aggregate_numeric (f : list float -> float) (group : Series) :
  Forall numeric group -> aggregate f group = Ok (Num (f (dropna group))).
Proof.
  intro Hg. unfold aggregate.
  assert (E : existsb (fun c => is_str c || is_ts c) group = false).
  { induction Hg as [|c group Hc _ IH]; simpl; [reflexivity|].
    rewrite IH. destruct c; simpl in *; try contradiction; reflexivity. }
  rewrite E. reflexivity.
Qed.

Lemma aggregate_column_numeric (f : list float -> float) (keys : Series)
    (groups : list cell) (values : Series) :
  Forall numeric values ->
  aggregate_column f keys groups values
  = Ok (map (fun k => Num (f (dropna (select (map (cell_eqb k) keys) values)))) groups).
Proof.
  intro Hv. unfold aggregate_column.
  rewrite <- collect_map_ok. f_equal. apply map_ext. intro k.
  apply aggregate_numeric, Forall_select, Hv.
Qed.

Lemma present_dates (keys : Series) :
  Forall dated keys -> Forall is_date (filter present keys).
Proof.
  intro Hk. apply Forall_forall. intros c Hc. apply filter_In in Hc.
  destruct Hc as [Hin Hp]. rewrite Forall_forall in Hk. specialize (Hk c Hin).
  destruct c; simpl in *; try contradiction; [discriminate | exact I].
Qed.

Lemma monthly_mean_typed (d : DataFrame) (m p q l : Series) :
  getcol "month" d = Ok m -> Forall dated m ->
  getcol "resale_price" d = Ok p -> Forall numeric p ->
  getcol "price_per_sqm" d = Ok q -> Forall numeric q ->
  getcol "lease_remaining" d = Ok l -> Forall numeric l ->
  monthly_mean d
  = Ok (series_frame (sort_by cell_leb (unique (filter present m))) m p q l) /\
  listed (filter present m) (sort_by cell_leb (unique (filter present m))) /\
  Forall is_date (sort_by cell_leb (unique (filter present m))).
Proof.
  intros Hm Dm Hp Np Hq Nq Hl Nl.
  destruct (sorted_unique is_date (filter present m) is_date_keyed cell_leb_total_dates
              comparable_dates (present_dates m Dm)) as (Hs & Hlisted & Hdates).
  split; [|split; assumption].
  unfold monthly_mean. rewrite Hm. unfold group_keys. fold present. rewrite Hs.
  rewrite Hp, Hq, Hl. rewrite !aggregate_column_numeric by assumption. reflexivity.
Qed.

Lemma get_town_data_run `{Pandas} (town : string) (d : DataFrame) (t : Series) fs lg :
  getcol "town" d = Ok t ->
  get_town_data town (mkState (Some d) fs lg)
  = (match monthly_mean (select_rows (town_mask town t) d) with
     | Ok r => Ok r
     | Raise e => Raise e
     end, mkState (Some d) fs lg).
Proof.
  intro Ht. unfold get_town_data. rewrite bind_run. unfold get_df at 1. cbn [df].
  cbv beta iota. rewrite bind_run, getitem_run, Ht. cbv beta iota zeta.
  unfold lift, town_mask. destruct (monthly_mean _); reflexivity.
Qed.

Lemma town_series_typed `{Pandas} (town : string) (d : DataFrame) (t m p q l : Series) fs lg :
  getcol "town" d = Ok t ->
  getcol "month" d = Ok m -> Forall dated m ->
  getcol "resale_price" d = Ok p -> Forall numeric p ->
  getcol "price_per_sqm" d = Ok q -> Forall numeric q ->
  getcol "lease_remaining" d = Ok l -> Forall numeric l ->
  exists groups,
    get_town_data town (mkState (Some d) fs lg)
    = (Ok (series_frame groups (select (town_mask town t) m) (select (town_mask town t) p)
             (select (town_mask town t) q) (select (town_mask town t) l)),
       mkState (Some d) fs lg) /\
    groups = sort_by cell_leb (unique (filter present (select (town_mask town t) m))) /\
    listed (filter present (select (town_mask town t) m)) groups /\
    Forall is_date groups.
Proof.
  intros Ht Hm Dm Hp Np Hq Nq Hl Nl.
  destruct (monthly_mean_typed (select_rows (town_mask town t) d)
              (select (town_mask town t) m) (select (town_mask town t) p)
              (select (town_mask town t) q) (select (town_mask town t) l))
    as (Hrun & Hlisted & Hdates);
    try (apply getcol_select_rows; assumption); try (apply Forall_select; assumption).
  eexists. rewrite (get_town_data_run town d t fs lg Ht), Hrun.
  split; [reflexivity|]. split; [reflexivity|]. split; assumption.
Qed.

(** ** Towns that match no row *)

Lemma no_match_mask `{Pandas} (town : string) (t : Series) :
  (forall c, In c t -> c <> Str (title town)) ->
  Forall (fun b => b = false) (town_mask town t).
Proof.
  intro Hno. unfold town_mask. apply Forall_forall. intros b Hb.
  apply in_map_iff in Hb. destruct Hb as (c & <- & Hc).
  specialize (Hno c Hc). destruct c as [|v|w|ts]; simpl; try reflexivity.
  apply String.eqb_neq. intro E. apply Hno. rewrite E. reflexivity.
Qed.

(** The columns of the cleaned frame that the town series reads. *)
Lemma cleaned_schema `{Pandas} (current_year : Z) (d : DataFrame) (m p a t : Series) :
  exists M P Q L,
    getcol "town" (cleaned current_year d m p a t)
    = Ok (select (keep_mask p a) (normalize_town t)) /\
    getcol "month" (cleaned current_year d m p a t) = Ok M /\ Forall dated M /\
    getcol "resale_price" (cleaned current_year d m p a t) = Ok P /\ Forall numeric P /\
    getcol "price_per_sqm" (cleaned current_year d m p a t) = Ok Q /\ Forall numeric Q /\
    getcol "lease_remaining" (cleaned current_year d m p a t) = Ok L /\ Forall numeric L.
Proof.
  assert (HL : exists L, getcol "lease_remaining" (cleaned current_year d m p a t) = Ok L /\
                         Forall numeric L).
  { destruct (getcol "lease_commence_date" d) as [l|e] eqn:Hl.
    - destruct (cleaned_lease_present current_year d m p a t l Hl) as (_ & _ & Hrem).
      eexists. split; [exact Hrem | apply lease_remaining_numeric].
    - destruct (cleaned_lease_absent current_year d m p a t e Hl) as (_ & _ & Hrem).
      eexists. split; [exact Hrem|]. apply Forall_select.
      apply Forall_forall. intros x Hx. apply repeat_spec in Hx. subst x. exact I. }
  destruct HL as (L & HL & NL).
  eexists. eexists. eexists. exists L.
  split; [apply cleaned_town|].
  split; [apply cleaned_month|]. split; [apply Forall_select, to_datetime_dated|].
  split; [apply cleaned_price|]. split; [apply Forall_select, filled_numeric|].
  split; [apply cleaned_quotient|]. split; [apply series_div_numeric|].
  split; assumption.
Qed.

(** ** The groups of the heat map *)











(** ** The total is read once *)

Lemma fetch_pages_known_total (r r' : nat -> response) :
  (forall k, error_of (r k) = error_of (r' k) /\ records_of (r k) = records_of (r' k)) ->
  forall fuel k all_records offset t s,
    fetch_pages r fuel k all_records offset (Some t) s
    = fetch_pages r' fuel k all_records offset (Some t) s.
Proof.
  intro Hsame. induction fuel as [|fuel IH]; intros k all_records offset t s; [reflexivity|].
  destruct (Hsame k) as [He Hr]. simpl.
  destruct (r k) as [| |tot records], (r' k) as [| |tot' records'];
    simpl in He, Hr; try discriminate; try reflexivity.
  subst records'. destruct (_ >=? _)%Z; [reflexivity | apply IH].
Qed.

(** * The claims *)

(** C1.  A processor constructed with [use_api = False] on a cache path
    at which no file exists ends with [self.df] still [None]:
    [_load_from_cache] only logs "No cache file found" and returns, so the
    [except] clause of the constructor does not run, and neither the
    fallback procedure nor the sample generator is reached. *)
Theorem missing_cache_leaves_the_table_absent `{Pandas}
    (responses : nat -> response) (fuel : nat) (current_year : Z)
    (cache_file : string) (s0 : State) :
  lookup cache_file (files s0) = None ->
  __init__ responses fuel current_year false cache_file s0
  = Some (Ok tt, mkState None (files s0) (log s0 ++ [NoCacheFileFound])).
Proof.
  intro Hmiss. unfold __init__.
  rewrite load_from_cache_missing by exact Hmiss. reflexivity.
Qed.

Lemma missing_cache_leaves_the_table_absent_witness :
  lookup "hdb_data.parquet" (files (mkState None [] [])) = None /\
  __init__ (fun _ => TransportError) 0 2026 false "hdb_data.parquet" (mkState None [] [])
  = Some (Ok tt, mkState None [] [NoCacheFileFound]).
Proof.
  split; [reflexivity|].
  exact (@missing_cache_leaves_the_table_absent plain_text (fun _ => TransportError) 0 2026
           "hdb_data.parquet" (mkState None [] []) eq_refl).
Defined.

(** C2.  On a processor whose table is absent, [get_towns],
    [get_flat_types], [get_town_data] and [get_full_data] return an empty
    result and leave the state alone, but the heat-map route raises
    [AttributeError]: its guard tests the processor object, which is always
    true, and then calls [groupby] on [None]. *)
Theorem queries_on_an_absent_table `{Pandas}
    (fs : list (string * file)) (lg : list log_record) (town : string) :
  let s := mkState None fs lg in
  get_towns s = (Ok [], s) /\
  get_flat_types s = (Ok [], s) /\
  get_town_data town s = (Ok empty_frame, s) /\
  get_full_data s = (Ok empty_frame, s) /\
  get_heatmap_data s = (Raise no_groupby, s).
Proof. repeat split. Qed.

(** C3 (as amended).  A load from a cache path whose extension is neither
    [.parquet] nor [.csv] never yields a table: the table of the processor
    and the files are left as they were.  When no file exists at the path,
    the load logs "No cache file found" and returns normally. *)
Theorem unsupported_extension_yields_no_table `{Pandas} (cache_file : string) (s : State) :
  endswith cache_file ".parquet" = false ->
  endswith cache_file ".csv" = false ->
  df (snd (_load_from_cache cache_file s)) = df s /\
  files (snd (_load_from_cache cache_file s)) = files s /\
  (lookup cache_file (files s) = None ->
   _load_from_cache cache_file s
   = (Ok tt, mkState (df s) (files s) (log s ++ [NoCacheFileFound]))).
Proof.
  intros Hp Hc.
  assert (Hboth : df (snd (_load_from_cache cache_file s)) = df s /\
                  files (snd (_load_from_cache cache_file s)) = files s).
  { destruct (lookup cache_file (files s)) as [f|] eqn:Hf.
    - rewrite (load_from_cache_unsupported cache_file s f Hf Hp Hc). split; reflexivity.
    - rewrite (load_from_cache_missing cache_file s Hf). split; reflexivity. }
  destruct Hboth as [Hdf Hfiles]. repeat split; try assumption.
  apply load_from_cache_missing.
Qed.

Lemma unsupported_extension_yields_no_table_witness :
  endswith "hdb_data.json" ".parquet" = false /\
  endswith "hdb_data.json" ".csv" = false /\
  df (snd (_load_from_cache "hdb_data.json"
             (mkState (Some sample) [("hdb_data.json", to_csv sample)] [])))
  = Some sample.
Proof.
  split; [reflexivity|]. split; [reflexivity|].
  exact (proj1 (@unsupported_extension_yields_no_table plain_text "hdb_data.json"
                  (mkState (Some sample) [("hdb_data.json", to_csv sample)] [])
                  eq_refl eq_refl)).
Defined.

(** C3, as stated, fails: no exception reaches the caller of the load,
    whether the file exists (the [ValueError] raised for the unsupported
    format is caught and logged inside the method) or not. *)
Lemma unsupported_extension_does_not_raise :
  endswith "hdb_data.json" ".parquet" = false /\
  endswith "hdb_data.json" ".csv" = false /\
  _load_from_cache "hdb_data.json" (mkState None [("hdb_data.json", to_csv sample)] [])
  = (Ok tt, mkState None [("hdb_data.json", to_csv sample)] [CacheLoadFailed unsupported_format]) /\
  _load_from_cache "hdb_data.json" (mkState None [] [])
  = (Ok tt, mkState None [] [NoCacheFileFound]).
Proof. repeat split. Qed.

(** C4 (as amended).  When the raw table has at least one column, every
    row of the table that [_clean_data] leaves passes the outlier
    predicate, [resale_price > 10000] and [floor_area_sqm > 20], and this
    still holds after any sequence of later calls on the processor (the
    queries and [_save_cache]), none of which touches the table. *)
Theorem cleaned_rows_pass_the_outlier_predicate `{Pandas}
    (current_year : Z) (s s' : State) (calls : list call) (d d' : DataFrame) (i : nat) :
  df s = Some d ->
  columns d <> [] ->
  _clean_data current_year s = (Ok tt, s') ->
  df (run_calls calls s') = Some d' ->
  i < nrows d' ->
  row_ok d' i.
Proof.
  intros Hd Hcols Hrun Hd' Hi. rewrite run_calls_keep_df in Hd'.
  destruct s as [d0 fs lg]. cbn [df] in Hd. subst d0.
  destruct (empty d) eqn:He.
  - rewrite clean_noop in Hrun by exact He. injection Hrun as <-.
    simpl in Hd'. injection Hd' as <-.
    unfold empty in He. apply orb_true_iff in He. destruct He as [He|He].
    + apply Nat.eqb_eq in He. lia.
    + destruct (columns d); [contradiction | discriminate].
  - destruct (@clean_returns _ current_year d fs lg s' He Hrun)
      as (m & p & a & t & ll & _ & _ & _ & _ & _ & ->).
    simpl in Hd'. injection Hd' as <-. apply cleaned_rows_ok. exact Hi.
Qed.

Lemma cleaned_rows_pass_the_outlier_predicate_witness :
  exists s' d',
    _clean_data 2026 sample_state = (Ok tt, s') /\
    df (run_calls [GetTowns; SaveCache "hdb_data.parquet"; GetHeatmapData] s') = Some d' /\
    1 < nrows d' /\
    row_ok d' 1.
Proof.
  eexists. eexists.
  split; [vm_compute; reflexivity|].
  split; [vm_compute; reflexivity|].
  split; [vm_compute; lia|].
  eapply (@cleaned_rows_pass_the_outlier_predicate plain_text 2026 sample_state _
            [GetTowns; SaveCache "hdb_data.parquet"; GetHeatmapData] sample).
  - reflexivity.
  - discriminate.
  - vm_compute; reflexivity.
  - vm_compute; reflexivity.
  - vm_compute; lia.
Defined.

(** C4, as stated, fails: a raw table of two records without any field
    has two rows and no column; pandas calls it empty, [_clean_data] skips
    it, and its rows, which hold no price and no area, remain. *)
Lemma rows_without_columns_are_left_as_they_are :
  DataFrame_of_records fieldless_records = mkFrame 2 [] /\
  _clean_data 2026 (mkState (Some (DataFrame_of_records fieldless_records)) [] [])
  = (Ok tt, mkState (Some (mkFrame 2 [])) [] [NoDataToClean]) /\
  0 < nrows (mkFrame 2 []) /\
  ~ row_ok (mkFrame 2 []) 0.
Proof.
  split; [reflexivity|]. split; [reflexivity|]. split; [simpl; lia|].
  intros (p & a & Hp & _). discriminate.
Qed.



(** C6 (as amended).  Let the first [n] requests be answered by pages that
    leave the accumulated count below the reported total, and the next one
    fail (transport error or invalid envelope).  If at least one record has
    been accumulated, the fetcher stops and returns the accumulated records
    with a warning; if none has (no page was retrieved, or only empty
    ones), the exception propagates to the caller. *)
Theorem partial_records_after_a_failed_request
    (responses : nat -> response) (n : nat) (total : Z) (e : exn) (s : State) (fuel : nat) :
  (forall i, i < n -> exists tot records, responses i = Page tot records) ->
  (0 < n -> reported_total responses = Some total) ->
  (forall i, i < n -> (Z.of_nat (length (fetched responses (S i))) < total)%Z) ->
  error_of (responses n) = Some e ->
  n < fuel ->
  fetch_pages responses fuel 0 [] 0%Z None s
  = Some (if (0 <? length (fetched responses n))%nat
          then (Ok (fetched responses n),
                logged s [ApiError e; ReturningPartialData (length (fetched responses n))])
          else (Raise e, logged s [ApiError e])).
Proof.
  intros Hpages Htotal Hinc Hfail Hfuel.
  pose proof (partial_fetch_from responses n total e s Hpages Htotal Hinc Hfail n 0
                ltac:(lia) fuel Hfuel) as Hrun.
  change (fetched responses 0) with (@nil record) in Hrun. simpl in Hrun.
  rewrite Hrun, api_failed_run.
  destruct (length (fetched responses n)) as [|len]; reflexivity.
Qed.

Lemma partial_records_after_a_failed_request_witness :
  fetch_pages page_then_error 2 0 [] 0%Z None (mkState None [] [])
  = Some (Ok [[("town", Str "Bedok")]; [("town", Str "Yishun")]],
          mkState None [] [ApiError RequestException; ReturningPartialData 2]) /\
  fetch_pages (fun _ => TransportError) 1 0 [] 0%Z None (mkState None [] [])
  = Some (Raise RequestException, mkState None [] [ApiError RequestException]).
Proof.
  split.
  - refine (partial_records_after_a_failed_request page_then_error 1 5 RequestException
              (mkState None [] []) 2 _ _ _ eq_refl _).
    + intros i Hi. assert (i = 0) by lia. subst i. eexists. eexists. reflexivity.
    + intros _. reflexivity.
    + intros i Hi. assert (i = 0) by lia. subst i. vm_compute. reflexivity.
    + lia.
  - refine (partial_records_after_a_failed_request (fun _ => TransportError) 0 0
              RequestException (mkState None [] []) 1 _ _ _ eq_refl _).
    + intros i Hi. lia.
    + intro H0. lia.
    + intros i Hi. lia.
    + lia.
Defined.

(** C6, as stated, fails: after a first page that was retrieved but
    carries no record, a transport error on the second request makes the
    fetcher raise instead of returning the (empty) accumulated records. *)
Lemma error_after_an_empty_page_propagates :
  empty_page_then_error 0 = Page (Some 5%Z) [] /\
  error_of (empty_page_then_error 1) = Some RequestException /\
  fetch_pages empty_page_then_error 2 0 [] 0%Z None (mkState None [] [])
  = Some (Raise RequestException, mkState None [] [ApiError RequestException]).
Proof. repeat split. Qed.

(** C7 (as amended).  On every sequence of responses whose pages each
    carry at least one record, the pagination loop terminates; and whenever
    it ends, it ends for one of the stated reasons: the accumulated count
    has reached the total reported by the first page, or a request has
    failed (the accumulated records are returned if there are any, the
    exception is raised otherwise), or the first envelope has no total. *)
Theorem pagination_terminates_on_non_empty_pages (responses : nat -> response) (s : State) :
  (forall k tot records, responses k = Page tot records -> records <> []) ->
  (exists n r s',
     forall fuel, n < fuel -> fetch_pages responses fuel 0 [] 0%Z None s = Some (r, s')) /\
  (forall fuel r s',
     fetch_pages responses fuel 0 [] 0%Z None s = Some (r, s') ->
     stops_properly responses s r s').
Proof.
  intro Hne. split.
  - apply fetch_terminates. exact Hne.
  - intros fuel r s'. apply fetch_stops.
Qed.

Lemma pagination_terminates_on_non_empty_pages_witness :
  exists n r s',
    forall fuel, n < fuel ->
      fetch_pages three_records fuel 0 [] 0%Z None (mkState None [] []) = Some (r, s').
Proof.
  refine (proj1 (pagination_terminates_on_non_empty_pages three_records (mkState None [] []) _)).
  intros k tot records Hk. destruct k as [|k]; simpl in Hk; injection Hk as _ <-; discriminate.
Defined.

(** C7, as stated, fails: against a source that keeps answering with empty
    pages below the reported total, the loop requests the same offset for
    ever. *)
Lemma pagination_runs_forever_on_empty_pages :
  diverges (fun fuel => fetch_pages empty_pages fuel 0 [] 0%Z None) (mkState None [] []).
Proof.
  intros [|fuel]; [reflexivity|]. simpl. apply empty_pages_from.
Qed.




(** C9 (as amended).  Take a raw table on whose towns title-casing then
    trimming is idempotent, as it is on ASCII text.  Applying the cleaning
    pipeline to the table it has produced returns normally and removes no
    row, leaves the column names and every column other than
    [lease_remaining] as they were, the town column in particular, and,
    when the calendar year is the same, leaves the whole table
    unchanged. *)
Theorem cleaning_twice_changes_only_lease_remaining `{Pandas}
    (y1 y2 : Z) (d : DataFrame) fs lg (s1 : State) :
  well_formed d ->
  (forall t, getcol "town" d = Ok t -> Forall settles t) ->
  _clean_data y1 (mkState (Some d) fs lg) = (Ok tt, s1) ->
  exists d1 s2 d2,
    df s1 = Some d1 /\
    _clean_data y2 s1 = (Ok tt, s2) /\
    df s2 = Some d2 /\
    nrows d2 = nrows d1 /\
    map fst (columns d2) = map fst (columns d1) /\
    (forall name, name <> "lease_remaining" -> getcol name d2 = getcol name d1) /\
    (y2 = y1 -> d2 = d1).
Proof.
  intros Hwf Htowns Hrun.
  assert (Hnoop : forall d0 fs0 lg0, empty d0 = true ->
            exists s2 d2,
              _clean_data y2 (mkState (Some d0) fs0 lg0) = (Ok tt, s2) /\
              df s2 = Some d2 /\ nrows d2 = nrows d0 /\
              map fst (columns d2) = map fst (columns d0) /\
              (forall name, name <> "lease_remaining" -> getcol name d2 = getcol name d0) /\
              (y2 = y1 -> d2 = d0)).
  { intros d0 fs0 lg0 He0. eexists. exists d0.
    split; [apply clean_noop; exact He0|]. repeat split; reflexivity. }
  destruct (empty d) eqn:He.
  - rewrite clean_noop in Hrun by exact He. injection Hrun as <-.
    exists d. destruct (Hnoop d fs (lg ++ [NoDataToClean]) He) as (s2 & d2 & Hs2).
    exists s2, d2. split; [reflexivity | exact Hs2].
  - destruct (@clean_returns _ y1 d fs lg s1 He Hrun)
      as (m & p & a & t & ll & Hm & Hp & Ha & Ht & Hacc & ->).
    exists (cleaned y1 d m p a t).
    destruct (empty (cleaned y1 d m p a t)) eqn:He1.
    + destruct (Hnoop (cleaned y1 d m p a t) fs (lg ++ ll) He1) as (s2 & d2 & Hs2).
      exists s2, d2. split; [reflexivity | exact Hs2].
    + destruct (@clean_runs _ y2 (cleaned y1 d m p a t)
                  (select (keep_mask p a) (to_datetime m))
                  (select (keep_mask p a) (filled p))
                  (select (keep_mask p a) (filled a))
                  (select (keep_mask p a) (normalize_town t))
                  fs (lg ++ ll) He1
                  (cleaned_month y1 d m p a t) (cleaned_price y1 d m p a t)
                  (cleaned_area y1 d m p a t) (cleaned_town y1 d m p a t))
        as [ll2 Hrun2].
      { unfold normalize_town. rewrite select_map. apply str_accepts_str_apply. }
      destruct (second_pass y1 y2 d m p a t (Htowns t Ht)) as (X0 & X & HX0 & Hsecond & Hsame).
      rewrite Hsecond in Hrun2.
      eexists. eexists. split; [reflexivity|]. split; [exact Hrun2|].
      split; [reflexivity|]. split; [reflexivity|]. split; [|split].
      * unfold setcol. cbn [columns]. unfold getcol in HX0.
        destruct (lookup "lease_remaining" (columns (cleaned y1 d m p a t))) as [c|] eqn:Hc;
          [|discriminate].
        apply keys_assign_present with (w := c). exact Hc.
      * intros name Hname. apply getcol_setcol_ne.
        apply String.eqb_neq. congruence.
      * intro Hy. rewrite (Hsame Hwf Hp Hy). apply setcol_same. exact HX0.
Qed.

Lemma cleaning_twice_changes_only_lease_remaining_witness :
  exists s1 d1 s2 d2,
    _clean_data 2026 (mkState (Some (DataFrame_of_records scenario_records)) [] [])
      = (Ok tt, s1) /\
    df s1 = Some d1 /\
    _clean_data 2027 s1 = (Ok tt, s2) /\
    df s2 = Some d2 /\
    nrows d2 = nrows d1 /\
    getcol "town" d2 = getcol "town" d1.
Proof.
  destruct (@cleaning_twice_changes_only_lease_remaining plain_text 2026 2027
              (DataFrame_of_records scenario_records) [] []
              (snd (_clean_data 2026
                      (mkState (Some (DataFrame_of_records scenario_records)) [] []))))
    as (d1 & s2 & d2 & Hd1 & Hrun2 & Hd2 & Hrows & _ & Hcols & _).
  - repeat constructor.
  - intros t _. apply Forall_forall. intros c _.
    destruct c; simpl; try exact I. apply normalize_idem.
  - vm_compute. reflexivity.
  - exists (snd (_clean_data 2026
                   (mkState (Some (DataFrame_of_records scenario_records)) [] []))),
           d1, s2, d2.
    split; [vm_compute; reflexivity|].
    repeat split; try assumption.
    apply Hcols. discriminate.
Defined.

(** C9, as stated, fails: [str.title] is not idempotent.  The town made
    of the j with caron (U+01F0) and "a" is title-cased to "J", the
    combining caron (U+030C) and "a"; a second pass, for which the
    combining caron is no cased character, turns the "a" into "A". *)
Lemma second_cleaning_may_change_a_town :
  exists s1 d1 s2 d2,
    @_clean_data unicode_text 2026
      (mkState (Some (DataFrame_of_records caron_records)) [] []) = (Ok tt, s1) /\
    df s1 = Some d1 /\
    getcol "town" d1 = Ok [Str (utf8_encode [74; 780; 97]%N)] /\
    @_clean_data unicode_text 2026 s1 = (Ok tt, s2) /\
    df s2 = Some d2 /\
    getcol "town" d2 = Ok [Str (utf8_encode [74; 780; 65]%N)] /\
    nrows d1 = 1 /\ nrows d2 = 1 /\
    getcol "town" d2 <> getcol "town" d1.
Proof.
  eexists. eexists. eexists. eexists.
  split; [vm_compute; reflexivity|]. split; [reflexivity|].
  split; [vm_compute; reflexivity|].
  split; [vm_compute; reflexivity|]. split; [reflexivity|].
  split; [vm_compute; reflexivity|].
  split; [reflexivity|]. split; [reflexivity|].
  intro E. vm_compute in E. discriminate.
Qed.

(** C10 (as amended).  Take a raw table that has the [month],
    [resale_price], [floor_area_sqm] and [town] columns, with a [town]
    column the [.str] accessor accepts, and in which every [resale_price]
    value (or every [floor_area_sqm] value) fails numeric coercion.  Then
    the median of that column is [nan], the fill leaves every entry of the
    column missing, the outlier filter removes every row, and
    [_clean_data] returns normally with an empty table. *)
Theorem unreadable_column_empties_the_table `{Pandas}
    (current_year : Z) (d : DataFrame) (m p a t : Series) fs lg :
  getcol "month" d = Ok m ->
  getcol "resale_price" d = Ok p ->
  getcol "floor_area_sqm" d = Ok a ->
  getcol "town" d = Ok t ->
  str_accepts t = true ->
  Forall fails_coercion p \/ Forall fails_coercion a ->
  exists s' d',
    _clean_data current_year (mkState (Some d) fs lg) = (Ok tt, s') /\
    df s' = Some d' /\
    empty d' = true /\
    (empty d = false -> nrows d' = 0 /\ Forall (fun kv => snd kv = []) (columns d')) /\
    (Forall fails_coercion p ->
       median (to_numeric p) = nan /\ Forall (fun x => isna x = true) (filled p)) /\
    (Forall fails_coercion a ->
       median (to_numeric a) = nan /\ Forall (fun x => isna x = true) (filled a)).
Proof.
  intros Hm Hp Ha Ht Hacc Hfail.
  assert (Hcols : (Forall fails_coercion p ->
                     median (to_numeric p) = nan /\ Forall (fun x => isna x = true) (filled p)) /\
                  (Forall fails_coercion a ->
                     median (to_numeric a) = nan /\ Forall (fun x => isna x = true) (filled a))).
  { split; intro Hc; (split; [apply median_all_fail | apply filled_all_fail]); exact Hc. }
  destruct (empty d) eqn:He.
  - exists (mkState (Some d) fs (lg ++ [NoDataToClean])), d.
    split; [apply clean_noop; exact He|].
    split; [reflexivity|]. split; [exact He|].
    split; [discriminate | exact Hcols].
  - destruct (@clean_runs _ current_year d m p a t fs lg He Hm Hp Ha Ht Hacc) as [ll Hrun].
    eexists. eexists. split; [exact Hrun|]. split; [reflexivity|].
    pose proof (keep_mask_all_fail p a Hfail) as Hmask.
    assert (Hn : nrows (cleaned current_year d m p a t) = 0).
    { rewrite cleaned_nrows. apply count_true_none. exact Hmask. }
    split; [unfold empty; rewrite Hn; reflexivity|].
    split; [|exact Hcols].
    intros _. split; [exact Hn|].
    unfold cleaned, select_rows. cbn [columns].
    apply Forall_forall. intros kv Hin. apply in_map_iff in Hin.
    destruct Hin as (kv0 & <- & _). simpl. apply select_none. exact Hmask.
Qed.

Lemma unreadable_column_empties_the_table_witness :
  Forall (@fails_coercion plain_text) [Str "bad"; Null] /\
  exists s' d',
    _clean_data 2026 (mkState (Some (DataFrame_of_records unreadable_prices)) [] [])
      = (Ok tt, s') /\
    df s' = Some d' /\ empty d' = true.
Proof.
  split; [repeat constructor|].
  destruct (@unreadable_column_empties_the_table plain_text 2026
              (DataFrame_of_records unreadable_prices)
              [Str "2023-01"; Str "2023-02"] [Str "bad"; Null] [Num 80; Num 85]
              [Str "Bedok"; Str "Bedok"] [] [])
    as (s' & d' & Hrun & Hd' & He & _).
  - reflexivity.
  - reflexivity.
  - reflexivity.
  - reflexivity.
  - reflexivity.
  - left. repeat constructor.
  - exists s', d'. repeat split; assumption.
Defined.

(** C10, as stated, fails: each of these raw tables has a single,
    unreadable price, and [_clean_data] raises on each of them, for want of
    a [town] column, for want of a [month] column, and because the [.str]
    accessor refuses a [town] column of numbers. *)
Lemma unreadable_column_may_still_raise :
  Forall (@fails_coercion plain_text) [Str "bad"] /\
  getcol "resale_price" (DataFrame_of_records without_town) = Ok [Str "bad"] /\
  fst (_clean_data 2026 (mkState (Some (DataFrame_of_records without_town)) [] []))
    = Raise (KeyError "town") /\
  getcol "resale_price" (DataFrame_of_records without_month) = Ok [Str "bad"] /\
  fst (_clean_data 2026 (mkState (Some (DataFrame_of_records without_month)) [] []))
    = Raise (KeyError "month") /\
  getcol "resale_price" (DataFrame_of_records numeric_town) = Ok [Str "bad"] /\
  fst (_clean_data 2026 (mkState (Some (DataFrame_of_records numeric_town)) [] []))
    = Raise (AttributeError "Can only use .str accessor with string values!").
Proof.
  split; [repeat constructor|].
  repeat split; vm_compute; reflexivity.
Qed.

(** * Further properties of the code *)

(** X1.  When the source answers with pages whose cumulated number of
    records first reaches the reported total at request [n], the fetcher
    returns the records of these [n + 1] pages, in order, logs nothing above
    the info level and leaves the processor state alone. *)
Theorem complete_fetch_returns_every_page
    (responses : nat -> response) (n : nat) (total : Z) (s : State) (fuel : nat) :
  (forall i, i <= n -> exists tot records, responses i = Page tot records) ->
  reported_total responses = Some total ->
  (forall i, i < n -> (Z.of_nat (length (fetched responses (S i))) < total)%Z) ->
  (total <= Z.of_nat (length (fetched responses (S n))))%Z ->
  n < fuel ->
  fetch_pages responses fuel 0 [] 0%Z None s = Some (Ok (fetched responses (S n)), s).
Proof.
  intros Hpages Htotal Hinc Hcomp Hfuel.
  pose proof (complete_fetch_from responses n total s Hpages Htotal Hinc Hcomp n 0
                ltac:(lia) fuel Hfuel) as Hrun.
  change (fetched responses 0) with (@nil record) in Hrun. exact Hrun.
Qed.

Lemma complete_fetch_returns_every_page_witness :
  fetch_pages three_records 2 0 [] 0%Z None (mkState None [] [])
  = Some (Ok [[("town", Str "Bedok")]; [("town", Str "Yishun")]; [("town", Str "Tampines")]],
          mkState None [] []).
Proof.
  refine (complete_fetch_returns_every_page three_records 1 3 (mkState None [] []) 2
            _ eq_refl _ _ _).
  - intros i Hi. destruct i as [|[|i]]; [| |lia]; eexists; eexists; reflexivity.
  - intros i Hi. assert (i = 0) by lia. subst i. vm_compute. reflexivity.
  - vm_compute. discriminate.
  - lia.
Defined.

(** X2.  [_load_from_api] assigns [self.df] only when the fetch succeeds:
    the new table is then built from the fetched records, well formed, with
    one row per record; when the fetch raises, the table is left as it was.
    In neither case is a file touched. *)
Theorem load_from_api_sets_the_table_on_success_only
    (responses : nat -> response) (fuel : nat) (s : State)
    (r : result unit) (s' : State) :
  _load_from_api responses fuel s = Some (r, s') ->
  files s' = files s /\
  match r with
  | Ok _ =>
      exists all_records s1,
        fetch_pages responses fuel 0 [] 0%Z None s = Some (Ok all_records, s1) /\
        df s' = Some (DataFrame_of_records all_records) /\
        well_formed (DataFrame_of_records all_records) /\
        nrows (DataFrame_of_records all_records) = length all_records
  | Raise _ => df s' = df s
  end.
Proof.
  unfold _load_from_api. intro Hrun.
  destruct (fetch_pages responses fuel 0 [] 0%Z None s) as [[[all_records|e] s1]|] eqn:Hf;
    [| |discriminate];
    destruct (fetch_pages_keeps_state responses fuel _ _ _ _ _ _ _ Hf) as [Hdf Hfiles];
    injection Hrun as <- <-.
  - cbn [files df]. split; [exact Hfiles|].
    exists all_records, s1. split; [reflexivity|]. split; [reflexivity|].
    split; [apply DataFrame_of_records_well_formed | reflexivity].
  - split; assumption.
Qed.

Lemma load_from_api_sets_the_table_on_success_only_witness :
  exists s',
    _load_from_api three_records 2 (mkState None [] []) = Some (Ok tt, s') /\
    df s' = Some (DataFrame_of_records
                    [[("town", Str "Bedok")]; [("town", Str "Yishun")];
                     [("town", Str "Tampines")]]) /\
    files s' = [].
Proof.
  eexists. split; [vm_compute; reflexivity|].
  split; [reflexivity|].
  exact (proj1 (load_from_api_sets_the_table_on_success_only three_records 2
                  (mkState None [] []) (Ok tt) _ eq_refl)).
Defined.

(** X3.  The constructor never raises: whatever the configuration, the
    source and the files, an answer of [__init__] is a normal return
    (every exception of the first strategy is caught, and the fallback is
    a cache load, which catches its own).  Without the network the
    constructor always answers, whatever number of iterations it is
    allowed. *)
Theorem constructor_never_raises `{Pandas}
    (responses : nat -> response) (fuel : nat) (current_year : Z)
    (use_api : bool) (cache_file : string) (s0 : State) :
  (forall r s', __init__ responses fuel current_year use_api cache_file s0 = Some (r, s') ->
                r = Ok tt) /\
  (exists s', __init__ responses fuel current_year false cache_file s0 = Some (Ok tt, s')).
Proof.
  assert (Hall : forall use r s',
            __init__ responses fuel current_year use cache_file s0 = Some (r, s') ->
            r = Ok tt).
  { intros use r s'. unfold __init__.
    match goal with
    | |- match ?attempt with _ => _ end = _ -> _ =>
        destruct attempt as [[[[]|e] s1]|]; [| |discriminate]
    end.
    - intro E. injection E as <- _. reflexivity.
    - rewrite init_handler_run. intro E. injection E as E.
      pose proof (load_from_cache_returns cache_file
                    (logged s1 [InitializationFailed e; AttemptingFallback; TryingCache]))
        as Hret.
      rewrite E in Hret. simpl in Hret. exact Hret. }
  split; [apply Hall|].
  destruct (__init__ responses fuel current_year false cache_file s0) as [[r s']|] eqn:E.
  - rewrite (Hall false r s' E). exists s'. reflexivity.
  - unfold __init__ in E.
    destruct (_load_from_cache cache_file (mkState None (files s0) (log s0)))
      as [[[]|e] s1]; discriminate.
Qed.

(** X4.  The constructor never runs the sample generator: nothing it adds
    to the log is the critical record of [_generate_sample_data] or the
    error record that precedes it in [_fallback_procedure]. *)
Theorem constructor_never_generates_the_sample `{Pandas}
    (responses : nat -> response) (fuel : nat) (current_year : Z)
    (use_api : bool) (cache_file : string) (s0 : State) :
  match __init__ responses fuel current_year use_api cache_file s0 with
  | Some (_, s') => exists l, log s' = log s0 ++ l /\ Forall not_sample l
  | None => True
  end.
Proof.
  destruct not_sample_records as (H1 & H2 & H3 & H4 & H5 & H6 & H7 & H8 & H9 & H10).
  assert (Hload : logs_only not_sample (_load_from_cache cache_file))
    by (apply logs_only_load_from_cache; assumption).
  assert (Hhandler : forall e s1 l1,
            log s1 = log s0 ++ l1 -> Forall not_sample l1 ->
            exists l, log (snd ((emit (InitializationFailed e) ;; emit AttemptingFallback ;;
                                 _fallback_procedure current_year cache_file) s1))
                      = log s0 ++ l /\ Forall not_sample l).
  { intros e s1 l1 E1 F1. rewrite init_handler_run.
    destruct (Hload (logged s1 [InitializationFailed e; AttemptingFallback; TryingCache]))
      as (l2 & E2 & F2).
    exists (l1 ++ [InitializationFailed e; AttemptingFallback; TryingCache] ++ l2).
    rewrite E2. unfold logged. cbn [log]. rewrite E1, <- !app_assoc.
    split; [reflexivity|].
    apply Forall_app; split; [exact F1|]. apply Forall_app; split; [|exact F2].
    repeat (apply Forall_cons; [auto|]). apply Forall_nil. }
  unfold __init__. destruct use_api.
  - unfold _load_from_api.
    destruct (fetch_pages responses fuel 0 [] 0%Z None (mkState None (files s0) (log s0)))
      as [[[all_records|e] s1]|] eqn:Hf; [| |exact I].
    + destruct (fetch_pages_logs not_sample responses fuel H8 H10 _ _ _ _ _ _ _ Hf)
        as (l1 & E1 & F1). cbn [log] in E1.
      unfold set_df. cbv beta iota.
      destruct (clean_then_save_logs current_year cache_file
                  (mkState (Some (DataFrame_of_records all_records)) (files s1) (log s1)))
        as (l2 & E2 & F2). cbn [log] in E2.
      destruct ((_clean_data current_year ;; _save_cache cache_file)
                  (mkState (Some (DataFrame_of_records all_records)) (files s1) (log s1)))
        as [[[]|e] s2]; cbn [snd] in E2.
      * exists (l1 ++ l2). rewrite E2, E1, app_assoc.
        split; [reflexivity | apply Forall_app; split; assumption].
      * assert (Hh := Hhandler e s2 (l1 ++ l2)).
        destruct ((emit (InitializationFailed e) ;; emit AttemptingFallback ;;
                   _fallback_procedure current_year cache_file) s2) as [r3 s3].
        apply Hh.
        -- rewrite E2, E1, app_assoc. reflexivity.
        -- apply Forall_app; split; assumption.
    + destruct (fetch_pages_logs not_sample responses fuel H8 H10 _ _ _ _ _ _ _ Hf)
        as (l1 & E1 & F1). cbn [log] in E1.
      assert (Hh := Hhandler e s1 l1).
      destruct ((emit (InitializationFailed e) ;; emit AttemptingFallback ;;
                 _fallback_procedure current_year cache_file) s1) as [r3 s3].
      apply Hh; assumption.
  - destruct (Hload (mkState None (files s0) (log s0))) as (l1 & E1 & F1). cbn [log] in E1.
    destruct (_load_from_cache cache_file (mkState None (files s0) (log s0)))
      as [[[]|e] s1]; cbn [snd] in E1.
    + exists l1. split; assumption.
    + assert (Hh := Hhandler e s1 l1).
      destruct ((emit (InitializationFailed e) ;; emit AttemptingFallback ;;
                 _fallback_procedure current_year cache_file) s1) as [r3 s3].
      apply Hh; assumption.
Qed.

(** X5.  When the very first request fails, an online construction is a
    cache load: the error is logged by the fetcher and again by the
    constructor, the fallback is announced, and what follows is exactly
    [_load_from_cache] on a processor without a table. *)
Theorem first_request_failure_falls_back_to_the_cache `{Pandas}
    (responses : nat -> response) (fuel : nat) (current_year : Z)
    (cache_file : string) (s0 : State) (e : exn) :
  error_of (responses 0) = Some e ->
  __init__ responses (S fuel) current_year true cache_file s0
  = Some (_load_from_cache cache_file
            (logged (fresh s0)
               [ApiError e; InitializationFailed e; AttemptingFallback; TryingCache])).
Proof.
  intro He. unfold __init__, _load_from_api. fold (fresh s0).
  rewrite (fetch_pages_error responses fuel 0 _ _ _ e (fresh s0) He), api_failed_run.
  change (0 >? 0)%Z with false. cbv beta iota.
  rewrite init_handler_run. unfold logged. cbn [df files log].
  rewrite <- app_assoc. reflexivity.
Qed.

Lemma first_request_failure_falls_back_to_the_cache_witness :
  __init__ failing_source 1 2026 true "hdb_data.parquet" (mkState None [] [])
  = Some (Ok tt,
          mkState None []
            [ApiError RequestException; InitializationFailed RequestException;
             AttemptingFallback; TryingCache; NoCacheFileFound]).
Proof.
  rewrite (@first_request_failure_falls_back_to_the_cache plain_text failing_source 0 2026
             "hdb_data.parquet" (mkState None [] []) RequestException eq_refl).
  reflexivity.
Defined.

(** X6.  A processor built offline from the cache that an online
    construction has just written holds the same table, and is in the
    very state the online construction ended in: given a [.parquet] path,
    an online construction that did not fall back and ended with a
    non-empty table whose columns the columnar format stores as they are. *)
Theorem offline_reload_reproduces_the_online_build `{Pandas}
    (responses : nat -> response) (fuel : nat) (current_year : Z)
    (cache_file : string) (s0 s1 : State) (r : result unit) (d : DataFrame) :
  endswith cache_file ".parquet" = true ->
  __init__ responses fuel current_year true cache_file s0 = Some (r, s1) ->
  ~ fell_back s0 s1 ->
  df s1 = Some d ->
  empty d = false ->
  forallb (fun kv => stored_exactly (snd kv)) (columns d) = true ->
  (exists f, lookup cache_file (files s1) = Some f /\ read_parquet f = Ok d) /\
  forall responses' fuel' current_year',
    __init__ responses' fuel' current_year' false cache_file s1 = Some (Ok tt, s1).
Proof.
  intros Hext Hinit Hnot Hdf He Hst.
  assert (Hfile : exists f, lookup cache_file (files s1) = Some f /\ read_parquet f = Ok d).
  { destruct (init_online_cases responses fuel current_year cache_file s0 r s1 Hinit)
      as [(all_records & s_f & Hf & Hcs) | (e & s_e & l & El & Hload)].
    - rewrite bind_run in Hcs.
      destruct (empty (DataFrame_of_records all_records)) eqn:He0.
      + rewrite clean_noop in Hcs by exact He0. cbv beta iota in Hcs.
        unfold _save_cache in Hcs. rewrite bind_run in Hcs.
        unfold get_df at 1 in Hcs. cbn [df] in Hcs. cbv beta iota in Hcs.
        rewrite He0 in Hcs. injection Hcs as <-. cbn [df] in Hdf.
        injection Hdf as <-. congruence.
      + destruct (_clean_data current_year
                    (mkState (Some (DataFrame_of_records all_records)) (files s_f) (log s_f)))
          as [[[]|e] s_c] eqn:Hc; [|discriminate].
        destruct (clean_returns current_year _ _ _ s_c He0 Hc)
          as (m & p & a & t & lease_log & _ & _ & _ & _ & _ & ->).
        pose proof (save_cache_keeps_df cache_file
                      (mkState (Some (cleaned current_year (DataFrame_of_records all_records)
                                        m p a t))
                         (files s_f) (log s_f ++ lease_log))) as Hkeep.
        rewrite Hcs in Hkeep. cbn [snd df] in Hkeep. rewrite Hdf in Hkeep.
        injection Hkeep as Hd. rewrite <- Hd in Hcs.
        destruct (save_parquet cache_file d (files s_f) (log s_f ++ lease_log) He Hext Hst)
          as (f & Hread & Hsave).
        rewrite Hsave in Hcs. injection Hcs as <-. cbn [files].
        exists f. split; [apply lookup_assign_eq | exact Hread].
    - exfalso. apply Hnot.
      destruct (logs_only_run (fun _ => True) _
                  (logged s_e [InitializationFailed e; AttemptingFallback; TryingCache])
                  r s1 (logs_only_load_from_cache (fun _ => True) cache_file I (fun _ => I))
                  (eq_sym Hload)) as (l2 & E2 & _).
      exists (l ++ [InitializationFailed e; AttemptingFallback; TryingCache] ++ l2).
      split.
      + rewrite E2. unfold logged. cbn [log]. rewrite El, <- !app_assoc. reflexivity.
      + apply in_or_app. right. simpl. auto. }
  split; [exact Hfile|].
  intros responses' fuel' current_year'. unfold __init__.
  destruct Hfile as (f & Hfile & Hread).
  rewrite (load_parquet cache_file f d None (files s1) (log s1) Hext Hfile Hread).
  destruct s1 as [d1 fs1 lg1]. cbn [df files log] in *. rewrite Hdf. reflexivity.
Qed.

Lemma offline_reload_reproduces_the_online_build_witness :
  exists s1 d,
    __init__ scenario_source 1 2026 true "hdb_data.parquet" (mkState None [] [])
    = Some (Ok tt, s1) /\
    df s1 = Some d /\ nrows d = 3 /\
    __init__ failing_source 0 2027 false "hdb_data.parquet" s1 = Some (Ok tt, s1).
Proof.
  eexists. eexists.
  split; [vm_compute; reflexivity|].
  split; [reflexivity|].
  split; [reflexivity|].
  match goal with
  | |- __init__ _ _ _ _ _ ?s = _ =>
      match eval vm_compute in (df s) with
      | Some ?d0 =>
          refine (proj2 (@offline_reload_reproduces_the_online_build plain_text
                           scenario_source 1 2026 "hdb_data.parquet" (mkState None [] [])
                           s (Ok tt) d0 eq_refl _ _ _ eq_refl _) failing_source 0 2027%Z)
      end
  end.
  - vm_compute. reflexivity.
  - intros (l & El & Hin). cbn [log] in El. simpl in El. subst l. exact Hin.
  - reflexivity.
  - vm_compute. reflexivity.
Defined.

(** X7.  [_clean_data] returns normally exactly on the tables it skips
    (empty ones) and on those that have the columns it subscripts outside
    its [try] - [month], [resale_price], [floor_area_sqm], [town] - with a
    [town] column the [.str] accessor accepts.  A missing
    [lease_commence_date] or [flat_type] never makes it raise. *)
Theorem cleaning_returns_exactly_on_cleanable_tables `{Pandas}
    (current_year : Z) (d : DataFrame) (fs : list (string * file)) (lg : list log_record) :
  fst (_clean_data current_year (mkState (Some d) fs lg)) = Ok tt
  <-> empty d = true \/ cleanable d = true.
Proof.
  split.
  - intro Hok. destruct (empty d) eqn:He; [left; reflexivity | right].
    destruct (_clean_data current_year (mkState (Some d) fs lg)) as [r s'] eqn:Hrun.
    cbn [fst] in Hok. subst r.
    destruct (clean_returns current_year d fs lg s' He Hrun)
      as (m & p & a & t & lease_log & Hm & Hp & Ha & Ht & Hacc & _).
    apply getcol_has_column in Hm, Hp, Ha, Ht.
    unfold cleanable. rewrite (proj2 Hm), (proj2 Hp), (proj2 Ha), (proj1 Ht). exact Hacc.
  - intros [He | Hc].
    + rewrite clean_noop by exact He. reflexivity.
    + destruct (empty d) eqn:He; [rewrite clean_noop by exact He; reflexivity|].
      unfold cleanable, has_column in Hc.
      destruct (getcol "month" d) as [m|e] eqn:Hm;
        [|apply getcol_raises in Hm; unfold has_column in Hm;
          destruct (lookup "month" (columns d)); [destruct Hm; discriminate | discriminate]].
      destruct (getcol "resale_price" d) as [p|e] eqn:Hp;
        [|apply getcol_raises in Hp; unfold has_column in Hp;
          destruct (lookup "resale_price" (columns d));
          [destruct Hp; discriminate | rewrite andb_false_r in Hc; discriminate]].
      destruct (getcol "floor_area_sqm" d) as [a|e] eqn:Ha;
        [|apply getcol_raises in Ha; unfold has_column in Ha;
          destruct (lookup "floor_area_sqm" (columns d));
          [destruct Ha; discriminate | rewrite andb_false_r in Hc; discriminate]].
      destruct (lookup "town" (columns d)) as [t|] eqn:Ht;
        [|rewrite andb_false_r in Hc; discriminate].
      apply andb_true_iff in Hc. destruct Hc as [_ Hacc].
      assert (Ht' : getcol "town" d = Ok t) by (unfold getcol; rewrite Ht; reflexivity).
      destruct (clean_runs current_year d m p a t fs lg He Hm Hp Ha Ht' Hacc) as [l Hrun].
      rewrite Hrun. reflexivity.
Qed.

(** X8.  When [_clean_data] raises, the exception is a [KeyError] for one
    of [month], [resale_price], [floor_area_sqm], [town], or the
    [AttributeError] of the [.str] accessor; the processor then still holds
    a table, with as many rows as before (the outlier filter has not run),
    and no file has been touched. *)
Theorem cleaning_failure_keeps_every_row `{Pandas}
    (current_year : Z) (s s' : State) (e : exn) :
  _clean_data current_year s = (Raise e, s') ->
  cleaning_error e /\
  files s' = files s /\
  exists d d', df s = Some d /\ df s' = Some d' /\ nrows d' = nrows d /\ cleanable d = false.
Proof.
  intro Hrun. destruct s as [[d|] fs lg]; [|rewrite clean_absent in Hrun; discriminate].
  destruct (empty d) eqn:He; [rewrite clean_noop in Hrun by exact He; discriminate|].
  rewrite clean_start in Hrun by exact He. cbn [files df].
  destruct (getcol "month" d) as [m|e0] eqn:Hm.
  2:{ rewrite bind_run, getitem_run, Hm in Hrun. injection Hrun as <- <-.
      apply getcol_raises in Hm. destruct Hm as [-> Hm].
      failure_shape. rewrite Hm. reflexivity. }
  destruct (getcol "resale_price" d) as [p|e0] eqn:Hp.
  2:{ rewrite bind_run, getitem_run, Hm in Hrun. cbv beta iota in Hrun.
      rewrite bind_run, setitem_run in Hrun. cbv beta iota in Hrun.
      rewrite bind_run, convert_numeric_fails with (e := e0) in Hrun
        by (rewrite getcol_setcol_ne by reflexivity; exact Hp).
      injection Hrun as <- <-.
      apply getcol_raises in Hp. destruct Hp as [-> Hp].
      failure_shape. rewrite Hp, andb_false_r. reflexivity. }
  destruct (getcol "floor_area_sqm" d) as [a|e0] eqn:Ha.
  2:{ rewrite bind_run, getitem_run, Hm in Hrun. cbv beta iota in Hrun.
      rewrite bind_run, setitem_run in Hrun. cbv beta iota in Hrun.
      rewrite bind_run, convert_numeric_run with (c := p) in Hrun
        by (rewrite getcol_setcol_ne by reflexivity; exact Hp).
      cbv beta iota in Hrun.
      rewrite bind_run, convert_numeric_fails with (e := e0) in Hrun
        by (rewrite !getcol_setcol_ne by reflexivity; exact Ha).
      injection Hrun as <- <-.
      apply getcol_raises in Ha. destruct Ha as [-> Ha].
      failure_shape. rewrite Ha, andb_false_r. reflexivity. }
  rewrite (clean_prefix_run current_year d m p a fs lg _ Hm Hp Ha) in Hrun.
  rewrite bind_run, getitem_run, getcol_town_converted in Hrun.
  destruct (getcol "town" d) as [t|e0] eqn:Ht.
  2:{ injection Hrun as <- <-.
      apply getcol_raises in Ht. destruct Ht as [-> Ht]. unfold has_column in Ht.
      failure_shape.
      destruct (lookup "town" (columns d)); [discriminate|]. apply andb_false_r. }
  cbv beta iota in Hrun.
  destruct (str_accepts t) eqn:Hacc.
  - exfalso.
    destruct (clean_runs current_year d m p a t fs lg He Hm Hp Ha Ht Hacc) as [l Hok].
    rewrite clean_start, (clean_prefix_run current_year d m p a fs lg _ Hm Hp Ha) in Hok
      by exact He.
    rewrite bind_run, getitem_run, getcol_town_converted, Ht in Hok. cbv beta iota in Hok.
    rewrite Hok in Hrun. discriminate.
  - rewrite bind_run in Hrun. unfold lift at 1, str_method at 1 in Hrun.
    rewrite Hacc in Hrun. injection Hrun as <- <-.
    apply getcol_has_column in Ht.
    failure_shape. rewrite (proj1 Ht), Hacc. apply andb_false_r.
Qed.

Lemma cleaning_failure_keeps_every_row_witness :
  exists s',
    _clean_data 2026 (mkState (Some (DataFrame_of_records numeric_town)) [] [])
    = (Raise (AttributeError "Can only use .str accessor with string values!"), s') /\
    files s' = [] /\
    exists d', df s' = Some d' /\ nrows d' = nrows (DataFrame_of_records numeric_town).
Proof.
  eexists. split; [vm_compute; reflexivity|].
  destruct (@cleaning_failure_keeps_every_row plain_text 2026
              (mkState (Some (DataFrame_of_records numeric_town)) [] []) _ _ eq_refl)
    as (_ & Hfiles & d & d' & Hd & Hd' & Hrows & _).
  split; [exact Hfiles|].
  exists d'. split; [exact Hd'|]. injection Hd as <-. exact Hrows.
Defined.

(** X9.  In the table a successful cleaning leaves, every row holds a
    numeric price and a numeric area, and its [price_per_sqm] is exactly
    the floating-point quotient of the two. *)
Theorem price_per_sqm_is_price_over_area `{Pandas}
    (current_year : Z) (d : DataFrame) (fs : list (string * file)) (lg : list log_record)
    (s' : State) (d' : DataFrame) (i : nat) :
  empty d = false ->
  _clean_data current_year (mkState (Some d) fs lg) = (Ok tt, s') ->
  df s' = Some d' ->
  i < nrows d' ->
  exists p a : float,
    cell_at "resale_price" i d' = Some (Num p) /\
    cell_at "floor_area_sqm" i d' = Some (Num a) /\
    cell_at "price_per_sqm" i d' = Some (Num (p / a)).
Proof.
  intros He Hrun Hdf Hi.
  destruct (clean_ok current_year d fs lg s' He Hrun)
    as (m & p & a & t & Hm & Hp & Ha & Ht & Hacc & ->).
  cbn [df] in Hdf. injection Hdf as <-.
  destruct (cleaned_rows_ok current_year d m p a t i Hi) as (x & y & Hx & _ & Hy & _).
  exists x, y. split; [exact Hx|]. split; [exact Hy|].
  rewrite (cell_at_getcol _ _ _ i (cleaned_price current_year d m p a t)) in Hx.
  rewrite (cell_at_getcol _ _ _ i (cleaned_area current_year d m p a t)) in Hy.
  rewrite (cell_at_getcol _ _ _ i (cleaned_quotient current_year d m p a t)).
  exact (series_div_nth _ _ i _ _ Hx Hy).
Qed.

Lemma price_per_sqm_is_price_over_area_witness :
  exists s' d',
    _clean_data 2026 scenario_state = (Ok tt, s') /\ df s' = Some d' /\
    exists p a : float,
      cell_at "resale_price" 1 d' = Some (Num p) /\
      cell_at "floor_area_sqm" 1 d' = Some (Num a) /\
      cell_at "price_per_sqm" 1 d' = Some (Num (p / a)).
Proof.
  eexists. eexists. split; [vm_compute; reflexivity|]. split; [reflexivity|].
  apply (@price_per_sqm_is_price_over_area plain_text 2026
           (DataFrame_of_records scenario_records) [] [] _ _ 1 eq_refl eq_refl eq_refl).
  vm_compute. lia.
Defined.

(** X10.  A table without a [lease_commence_date] column is cleaned all
    the same: the [KeyError] is caught inside the pipeline and logged, the
    [lease_remaining] column is NaN on every kept row, and no
    [lease_commence_date] column appears. *)
Theorem missing_lease_dates_are_tolerated `{Pandas}
    (current_year : Z) (d : DataFrame) (fs : list (string * file)) (lg : list log_record) :
  empty d = false ->
  well_formed d ->
  cleanable d = true ->
  has_column "lease_commence_date" d = false ->
  exists d',
    _clean_data current_year (mkState (Some d) fs lg)
    = (Ok tt, mkState (Some d') fs (lg ++ [LeaseDateError (KeyError "lease_commence_date")])) /\
    getcol "lease_remaining" d' = Ok (repeat (Num nan) (nrows d')) /\
    has_column "lease_commence_date" d' = false.
Proof.
  intros He Hwf Hc Hno.
  destruct (cleanable_columns d Hc) as (m & p & a & t & Hm & Hp & Ha & Ht & Hacc).
  assert (Hl : getcol "lease_commence_date" d = Raise (KeyError "lease_commence_date")).
  { unfold getcol. unfold has_column in Hno.
    destruct (lookup "lease_commence_date" (columns d)); [discriminate | reflexivity]. }
  destruct (cleaned_lease_absent current_year d m p a t _ Hl) as (Hlog & Hmiss & Hrem).
  exists (cleaned current_year d m p a t).
  rewrite (clean_runs_exact current_year d m p a t Hm Hp Ha Ht fs lg He Hacc), Hlog.
  split; [reflexivity|]. split.
  - rewrite Hrem, select_repeat by (rewrite (keep_mask_length d p a Hp Ha Hwf); lia).
    reflexivity.
  - apply getcol_raises in Hmiss. exact (proj2 Hmiss).
Qed.

Lemma missing_lease_dates_are_tolerated_witness :
  exists d',
    _clean_data 2026 undated_state
    = (Ok tt, mkState (Some d') [] [LeaseDateError (KeyError "lease_commence_date")]) /\
    getcol "lease_remaining" d' = Ok [Num nan; Num nan; Num nan].
Proof.
  destruct (@missing_lease_dates_are_tolerated plain_text 2026
              (DataFrame_of_records
                 (map (filter (fun kv : string * cell =>
                                 negb (fst kv =? "lease_commence_date")))
                      scenario_records)) [] [] eq_refl
              (DataFrame_of_records_well_formed _) eq_refl eq_refl)
    as (d' & Hrun & Hrem & _).
  exists d'. split; [exact Hrun|].
  rewrite Hrem. vm_compute in Hrun. injection Hrun as <-. reflexivity.
Defined.

(** X11.  With a [lease_commence_date] column, the lease stage logs
    nothing, and in the cleaned table each row's [lease_remaining] is
    [99 - (current_year - year)] of the row's parsed date, NaN where the
    date is missing; the column holds dates and missing values only. *)
Theorem lease_remaining_follows_the_lease_year `{Pandas}
    (current_year : Z) (d : DataFrame) (fs : list (string * file)) (lg : list log_record)
    (s' : State) (d' : DataFrame) :
  empty d = false ->
  has_column "lease_commence_date" d = true ->
  _clean_data current_year (mkState (Some d) fs lg) = (Ok tt, s') ->
  df s' = Some d' ->
  log s' = lg /\
  forall i c,
    cell_at "lease_commence_date" i d' = Some c ->
    match c with
    | Ts ts =>
        cell_at "lease_remaining" i d'
        = Some (Num (float_of_Z (99 - (current_year - ts_year ts))))
    | Null => cell_at "lease_remaining" i d' = Some (Num nan)
    | _ => False
    end.
Proof.
  intros He Hhas Hrun Hdf.
  destruct (clean_ok current_year d fs lg s' He Hrun)
    as (m & p & a & t & Hm & Hp & Ha & Ht & Hacc & ->).
  cbn [df] in Hdf. injection Hdf as <-.
  destruct (getcol "lease_commence_date" d) as [l|e] eqn:Hl.
  2:{ apply getcol_raises in Hl. rewrite Hhas in Hl. destruct Hl; discriminate. }
  destruct (cleaned_lease_present current_year d m p a t l Hl) as (Hlog & Hdate & Hrem).
  cbn [log]. rewrite Hlog, app_nil_r. split; [reflexivity|].
  intros i c Hc.
  rewrite (cell_at_getcol _ _ _ i Hdate) in Hc.
  rewrite (cell_at_getcol _ _ _ i Hrem).
  unfold lease_remaining_of. rewrite nth_error_map, Hc. cbn [option_map].
  assert (Hd : dated c).
  { pose proof (Forall_select dated (keep_mask p a) _ (to_datetime_dated l)) as Hall.
    rewrite Forall_forall in Hall. apply Hall. exact (nth_error_In _ _ Hc). }
  destruct c; simpl in Hd; try contradiction; reflexivity.
Qed.

Lemma lease_remaining_follows_the_lease_year_witness :
  exists s' d',
    _clean_data 2026 scenario_state = (Ok tt, s') /\ df s' = Some d' /\ log s' = [] /\
    cell_at "lease_commence_date" 0 d' = Some (Ts (mkTs 1979 1 1 0)) /\
    cell_at "lease_remaining" 0 d' = Some (Num (float_of_Z 52)).
Proof.
  eexists. eexists. split; [vm_compute; reflexivity|]. split; [reflexivity|].
  destruct (@lease_remaining_follows_the_lease_year plain_text 2026
              (DataFrame_of_records scenario_records) [] [] _ _
              eq_refl eq_refl eq_refl eq_refl) as [Hlog Hrows].
  split; [exact Hlog|]. split; [reflexivity|].
  exact (Hrows 0 (Ts (mkTs 1979 1 1 0)) eq_refl).
Defined.

(** X12.  The cleaned table is typed: [month] holds dates and missing
    values only, and [resale_price], [floor_area_sqm], [price_per_sqm] and
    [lease_remaining] hold numbers only (NaN included), whatever kinds of
    values the raw columns held. *)
Theorem cleaned_columns_are_typed `{Pandas}
    (current_year : Z) (d : DataFrame) (fs : list (string * file)) (lg : list log_record)
    (s' : State) (d' : DataFrame) :
  empty d = false ->
  _clean_data current_year (mkState (Some d) fs lg) = (Ok tt, s') ->
  df s' = Some d' ->
  column_is dated "month" d' /\
  column_is numeric "resale_price" d' /\
  column_is numeric "floor_area_sqm" d' /\
  column_is numeric "price_per_sqm" d' /\
  column_is numeric "lease_remaining" d'.
Proof.
  intros He Hrun Hdf.
  destruct (clean_ok current_year d fs lg s' He Hrun)
    as (m & p & a & t & Hm & Hp & Ha & Ht & Hacc & ->).
  cbn [df] in Hdf. injection Hdf as <-.
  unfold column_is. repeat split.
  - eexists. split; [apply cleaned_month|]. apply Forall_select, to_datetime_dated.
  - eexists. split; [apply cleaned_price|]. apply Forall_select, filled_numeric.
  - eexists. split; [apply cleaned_area|]. apply Forall_select, filled_numeric.
  - eexists. split; [apply cleaned_quotient|]. apply series_div_numeric.
  - destruct (getcol "lease_commence_date" d) as [l|e] eqn:Hl.
    + destruct (cleaned_lease_present current_year d m p a t l Hl) as (_ & _ & Hrem).
      eexists. split; [exact Hrem|]. apply lease_remaining_numeric.
    + destruct (cleaned_lease_absent current_year d m p a t e Hl) as (_ & _ & Hrem).
      eexists. split; [exact Hrem|]. apply Forall_select.
      apply Forall_forall. intros x Hx. apply repeat_spec in Hx. subst x. exact I.
Qed.

Lemma cleaned_columns_are_typed_witness :
  exists s' d',
    _clean_data 2026 scenario_state = (Ok tt, s') /\ df s' = Some d' /\
    column_is dated "month" d' /\ column_is numeric "resale_price" d'.
Proof.
  eexists. eexists. split; [vm_compute; reflexivity|]. split; [reflexivity|].
  destruct (@cleaned_columns_are_typed plain_text 2026
              (DataFrame_of_records scenario_records) [] [] _ _ eq_refl eq_refl eq_refl)
    as (Hmonth & Hprice & _).
  split; assumption.
Defined.

(** X13.  Every town of the table that a successful cleaning of a
    non-empty table leaves is missing or the title-cased and then trimmed
    form of a text of the raw [town] column; and, [str.strip] being
    idempotent, trimming once more leaves every one of them as it is. *)
Theorem cleaned_towns_are_normalized `{Pandas}
    (current_year : Z) (d : DataFrame) (fs : list (string * file)) (lg : list log_record)
    (s' : State) (d' : DataFrame) (t : Series) :
  empty d = false ->
  getcol "town" d = Ok t ->
  _clean_data current_year (mkState (Some d) fs lg) = (Ok tt, s') ->
  df s' = Some d' ->
  column_is (normalized_from t) "town" d' /\
  ((forall s, strip (strip s) = strip s) -> column_is trimmed "town" d').
Proof.
  intros He Ht Hrun Hdf.
  destruct (clean_ok current_year d fs lg s' He Hrun)
    as (m & p & a & t0 & Hm & Hp & Ha & Ht0 & Hacc & ->).
  cbn [df] in Hdf. injection Hdf as <-.
  rewrite Ht in Ht0. injection Ht0 as <-.
  split.
  - eexists. split; [apply cleaned_town|]. apply Forall_normalized_from_select.
  - intro Hidem. eexists. split; [apply cleaned_town|].
    apply Forall_select, normalize_town_trimmed, Hidem.
Qed.

Lemma cleaned_towns_are_normalized_witness :
  exists s' d',
    _clean_data 2026 scenario_state = (Ok tt, s') /\ df s' = Some d' /\
    getcol "town" d' = Ok [Str "Bedok"; Str "Ang Mo Kio"; Str "Bedok"] /\
    column_is (normalized_from [Str " bedok "; Str "ANG MO KIO"; Str "bedok"]) "town" d' /\
    column_is trimmed "town" d'.
Proof.
  eexists. eexists. split; [vm_compute; reflexivity|]. split; [reflexivity|].
  split; [reflexivity|].
  destruct (@cleaned_towns_are_normalized plain_text 2026
              (DataFrame_of_records scenario_records) [] [] _ _
              [Str " bedok "; Str "ANG MO KIO"; Str "bedok"]
              eq_refl eq_refl eq_refl eq_refl) as [Hfrom Htrim].
  split; [exact Hfrom | exact (Htrim strip_idem)].
Defined.

(** X14.  Cleaning a well-formed table leaves a well-formed table with no
    more rows than before, and only drops rows from the columns it does
    not assign: one mask, as long as the raw table, selects the kept rows
    of every such column ([flat_type] among them), and a column the raw
    table lacks is not created. *)
Theorem cleaning_only_filters_the_other_columns `{Pandas}
    (current_year : Z) (d : DataFrame) (fs : list (string * file)) (lg : list log_record)
    (s' : State) (d' : DataFrame) :
  empty d = false ->
  well_formed d ->
  _clean_data current_year (mkState (Some d) fs lg) = (Ok tt, s') ->
  df s' = Some d' ->
  well_formed d' /\ nrows d' <= nrows d /\ files s' = fs /\
  exists mask,
    length mask = nrows d /\ nrows d' = count_true mask /\
    forall name, ~ In name touched ->
      getcol name d' = match getcol name d with
                       | Ok c => Ok (select mask c)
                       | Raise e => Raise e
                       end.
Proof.
  intros He Hwf Hrun Hdf.
  destruct (clean_ok current_year d fs lg s' He Hrun)
    as (m & p & a & t & Hm & Hp & Ha & Ht & Hacc & ->).
  cbn [df] in Hdf. injection Hdf as <-.
  pose proof (keep_mask_length d p a Hp Ha Hwf) as Hlen.
  split; [exact (cleaned_well_formed current_year d m p a t Hm Hp Ha Ht Hwf)|].
  split; [rewrite cleaned_nrows, <- Hlen; apply count_true_le|].
  split; [reflexivity|].
  exists (keep_mask p a). split; [exact Hlen|]. split; [apply cleaned_nrows|].
  intros name Hn. apply cleaned_untouched. exact Hn.
Qed.

Lemma cleaning_only_filters_the_other_columns_witness :
  exists s' d',
    _clean_data 2026 scenario_state = (Ok tt, s') /\ df s' = Some d' /\
    well_formed d' /\ nrows d' <= 3 /\
    getcol "flat_type" d' = Ok [Str "3 ROOM"; Str "4 ROOM"; Str "5 ROOM"].
Proof.
  eexists. eexists. split; [vm_compute; reflexivity|]. split; [reflexivity|].
  destruct (@cleaning_only_filters_the_other_columns plain_text 2026
              (DataFrame_of_records scenario_records) [] [] _ _ eq_refl
              (DataFrame_of_records_well_formed _) eq_refl eq_refl)
    as (Hwf & Hrows & _).
  split; [exact Hwf|]. split; [exact Hrows | reflexivity].
Defined.

(** X15.  The sample strategy cannot fail: for every implementation of the
    text conversions and string methods, every year and every processor
    state, [_generate_sample_data] returns normally, logs its critical
    record and nothing else, touches no file, and replaces the table by
    one that holds both synthetic rows with their prices, areas and flat
    types unchanged and their towns title-cased and trimmed (which leaves
    "Ang Mo Kio" and "Bedok" as they are). *)
Theorem sample_generation_cannot_fail `{Pandas} (current_year : Z) (s : State) :
  exists d',
    _generate_sample_data current_year s
    = (Ok tt, mkState (Some d') (files s) (log s ++ [GeneratingSampleData])) /\
    nrows d' = 2 /\
    getcol "resale_price" d' = Ok [Num 400000; Num 420000] /\
    getcol "floor_area_sqm" d' = Ok [Num 80; Num 85] /\
    getcol "town" d'
    = Ok [Str (strip (title "Ang Mo Kio")); Str (strip (title "Bedok"))] /\
    getcol "flat_type" d' = Ok [Str "4 ROOM"; Str "5 ROOM"].
Proof.
  set (m := [Str "2023-01"; Str "2023-02"]).
  set (p := [Num 400000; Num 420000]).
  set (a := [Num 80; Num 85]).
  set (t := [Str "Ang Mo Kio"; Str "Bedok"]).
  assert (Hp : filled p = p) by reflexivity.
  assert (Ha : filled a = a) by reflexivity.
  assert (Hk : keep_mask p a = [true; true]).
  { unfold keep_mask. rewrite Hp, Ha. reflexivity. }
  exists (cleaned current_year sample m p a t).
  split.
  - unfold _generate_sample_data.
    rewrite bind_run. unfold emit at 1. cbv beta iota.
    rewrite bind_run. unfold set_df at 1. cbv beta iota.
    rewrite (clean_runs_exact current_year sample m p a t eq_refl eq_refl eq_refl eq_refl
               (files s) (log s ++ [GeneratingSampleData]) eq_refl eq_refl).
    destruct (cleaned_lease_present current_year sample m p a t
                [Num 1985; Num 1990] eq_refl) as (-> & _).
    rewrite app_nil_r. reflexivity.
  - split; [rewrite cleaned_nrows, Hk; reflexivity|].
    split; [rewrite cleaned_price, Hk, Hp; reflexivity|].
    split; [rewrite cleaned_area, Hk, Ha; reflexivity|].
    split; [rewrite cleaned_town, Hk; reflexivity|].
    rewrite cleaned_untouched by (unfold touched; simpl; intuition discriminate).
    rewrite Hk. reflexivity.
Qed.

Lemma sample_generation_cannot_fail_witness :
  exists d',
    _generate_sample_data 2026 (mkState None [] [])
    = (Ok tt, mkState (Some d') [] [GeneratingSampleData]) /\
    nrows d' = 2 /\
    getcol "town" d' = Ok [Str "Ang Mo Kio"; Str "Bedok"] /\
  exists d2,
    @_generate_sample_data unicode_text 2026 (mkState None [] [])
    = (Ok tt, mkState (Some d2) [] [GeneratingSampleData]) /\
    getcol "town" d2 = Ok [Str "Ang Mo Kio"; Str "Bedok"].
Proof.
  destruct (@sample_generation_cannot_fail plain_text 2026 (mkState None [] []))
    as (d' & Hrun & Hrows & _ & _ & Htown & _).
  destruct (@sample_generation_cannot_fail unicode_text 2026 (mkState None [] []))
    as (d2 & Hrun2 & _ & _ & _ & Htown2 & _).
  exists d'. split; [exact Hrun|]. split; [exact Hrows|]. split; [exact Htown|].
  exists d2. split; [exact Hrun2 | exact Htown2].
Defined.

(** X16.  [_save_cache] never raises and never changes the table; the only
    file it can change is the one at [cache_file]; and on an absent or
    empty table it does nothing at all, so that a cache on disk is not
    overwritten by nothing. *)
Theorem save_cache_touches_one_file_only `{Pandas} (cache_file : string) (s : State) :
  fst (_save_cache cache_file s) = Ok tt /\
  df (snd (_save_cache cache_file s)) = df s /\
  (forall other, (cache_file =? other) = false ->
     lookup other (files (snd (_save_cache cache_file s))) = lookup other (files s)) /\
  (match df s with
   | None => True
   | Some d => empty d = true
   end -> snd (_save_cache cache_file s) = s).
Proof.
  split; [|split; [apply save_cache_keeps_df|]].
  - destruct s as [[d|] fs lg]; [|reflexivity].
    unfold _save_cache. rewrite bind_run. unfold get_df at 1. cbn [df]. cbv beta iota.
    destruct (empty d); [reflexivity|]. unfold try_except.
    destruct (endswith cache_file ".parquet").
    + rewrite bind_run. unfold lift at 1. destruct (to_parquet d); reflexivity.
    + reflexivity.
  - destruct s as [[d|] fs lg].
    2:{ split; [intros; reflexivity | intros _; reflexivity]. }
    destruct (empty d) eqn:He.
    { assert (Hs : _save_cache cache_file (mkState (Some d) fs lg)
                   = (Ok tt, mkState (Some d) fs lg)).
      { unfold _save_cache. rewrite bind_run. unfold get_df at 1. cbn [df]. cbv beta iota.
        rewrite He. reflexivity. }
      rewrite Hs. split; [intros; reflexivity | intros _; reflexivity]. }
    split; [|cbn [df]; intro Ht; rewrite He in Ht; discriminate].
    intros other Hne.
    destruct (endswith cache_file ".parquet") eqn:Hext.
    + unfold _save_cache. rewrite bind_run. unfold get_df at 1. cbn [df]. cbv beta iota.
      rewrite He. unfold try_except. rewrite Hext.
      rewrite bind_run. unfold lift at 1.
      destruct (to_parquet d); [|reflexivity].
      cbv beta iota. unfold write_file. cbn [snd files].
      apply lookup_assign_ne. exact Hne.
    + rewrite (save_csv cache_file d fs lg He Hext). cbn [snd files].
      apply lookup_assign_ne. exact Hne.
Qed.

(** X17.  A cache written under an extension other than [.parquet] and
    [.csv] cannot be read back by this code: [_save_cache] writes it as
    delimited text without complaint, and an offline processor constructed
    on that path afterwards ends without a table, having logged the
    unsupported format. *)
Theorem cache_under_an_unknown_extension_is_lost `{Pandas}
    (cache_file : string) (d : DataFrame) (fs : list (string * file)) (lg : list log_record)
    (responses : nat -> response) (fuel : nat) (current_year : Z) :
  empty d = false ->
  endswith cache_file ".parquet" = false ->
  endswith cache_file ".csv" = false ->
  _save_cache cache_file (mkState (Some d) fs lg)
  = (Ok tt, mkState (Some d) (assign cache_file (to_csv d) fs) lg) /\
  __init__ responses fuel current_year false cache_file
    (mkState (Some d) (assign cache_file (to_csv d) fs) lg)
  = Some (Ok tt, mkState None (assign cache_file (to_csv d) fs)
                   (lg ++ [CacheLoadFailed unsupported_format])).
Proof.
  intros He Hp Hc. split; [exact (save_csv cache_file d fs lg He Hp)|].
  unfold __init__. cbn [files log].
  rewrite (load_from_cache_unsupported cache_file
             (mkState None (assign cache_file (to_csv d) fs) lg) (to_csv d)
             (lookup_assign_eq _ _ _) Hp Hc).
  reflexivity.
Qed.

Lemma cache_under_an_unknown_extension_is_lost_witness :
  __init__ failing_source 0 2026 false "hdb_data.json"
    (snd (_save_cache "hdb_data.json" (mkState (Some cleaned_sample) [] [])))
  = Some (Ok tt, mkState None [("hdb_data.json", to_csv cleaned_sample)]
                   [CacheLoadFailed unsupported_format]).
Proof.
  destruct (@cache_under_an_unknown_extension_is_lost plain_text "hdb_data.json"
              cleaned_sample [] [] failing_source 0 2026 eq_refl eq_refl eq_refl)
    as [Hsave Hload].
  rewrite Hsave. exact Hload.
Defined.

(** X18.  [_load_from_cache] never raises and never writes a file.  Either
    it logs nothing and the table is the one read from the file at
    [cache_file], in the format the extension names; or it logs exactly
    one record and leaves the table as it was.  A failed load therefore
    keeps a table the processor already holds. *)
Theorem load_from_cache_replaces_the_table_or_logs `{Pandas}
    (cache_file : string) (s : State) :
  exists s',
    _load_from_cache cache_file s = (Ok tt, s') /\
    files s' = files s /\
    ((exists f d,
        lookup cache_file (files s) = Some f /\
        (if endswith cache_file ".parquet" then read_parquet f else read_csv f) = Ok d /\
        df s' = Some d /\ log s' = log s) \/
     (df s' = df s /\ exists r, log s' = log s ++ [r])).
Proof.
  destruct s as [d0 fs lg]. unfold _load_from_cache, try_except.
  rewrite bind_run. unfold exists_path at 1. cbn [files].
  destruct (lookup cache_file fs) as [f|] eqn:Hf; cbv beta iota.
  2:{ eexists. split; [reflexivity|]. split; [reflexivity|]. right.
      split; [reflexivity|]. eexists. reflexivity. }
  destruct (endswith cache_file ".parquet") eqn:Hp.
  - rewrite bind_run. unfold read_file at 1. cbn [files]. rewrite Hf. cbv beta iota.
    rewrite bind_run. unfold lift at 1.
    destruct (read_parquet f) as [d|e] eqn:Hr; cbv beta iota.
    + eexists. split; [reflexivity|]. split; [reflexivity|]. left.
      exists f, d. split; [reflexivity|]. split; [exact Hr|]. split; reflexivity.
    + eexists. split; [reflexivity|]. split; [reflexivity|]. right.
      split; [reflexivity|]. eexists. reflexivity.
  - destruct (endswith cache_file ".csv") eqn:Hc.
    + rewrite bind_run. unfold read_file at 1. cbn [files]. rewrite Hf. cbv beta iota.
      rewrite bind_run. unfold lift at 1.
      destruct (read_csv f) as [d|e] eqn:Hr; cbv beta iota.
      * eexists. split; [reflexivity|]. split; [reflexivity|]. left.
        exists f, d. split; [reflexivity|]. split; [exact Hr|]. split; reflexivity.
      * eexists. split; [reflexivity|]. split; [reflexivity|]. right.
        split; [reflexivity|]. eexists. reflexivity.
    + eexists. split; [reflexivity|]. split; [reflexivity|]. right.
      split; [reflexivity|]. eexists. reflexivity.
Qed.

(** X19.  On a column that holds text only, [get_towns] and
    [get_flat_types] return normally, leave the processor as it is, and
    list the values of the column each exactly once, in ascending
    lexicographic order. *)
Theorem text_columns_are_listed_once_in_order
    (d : DataFrame) (fs : list (string * file)) (lg : list log_record) (t : Series) :
  Forall text t ->
  (getcol "town" d = Ok t ->
   get_towns (mkState (Some d) fs lg)
   = (Ok (sort_by cell_leb (unique t)), mkState (Some d) fs lg)) /\
  (getcol "flat_type" d = Ok t ->
   get_flat_types (mkState (Some d) fs lg)
   = (Ok (sort_by cell_leb (unique t)), mkState (Some d) fs lg)) /\
  listed t (sort_by cell_leb (unique t)).
Proof.
  intro Ht.
  destruct (sorted_unique text t text_keyed cell_leb_total_text comparable_text Ht)
    as (Hs & Hlisted & _).
  split; [|split; [|exact Hlisted]]; intro Hc.
  - rewrite (get_towns_run d t fs lg Hc), Hs. reflexivity.
  - rewrite (get_flat_types_run d t fs lg Hc), Hs. reflexivity.
Qed.

Lemma text_columns_are_listed_once_in_order_witness :
  get_towns scenario_cleaned = (Ok [Str "Ang Mo Kio"; Str "Bedok"], scenario_cleaned) /\
  listed [Str "Bedok"; Str "Ang Mo Kio"; Str "Bedok"] [Str "Ang Mo Kio"; Str "Bedok"].
Proof.
  assert (Ht : Forall text [Str "Bedok"; Str "Ang Mo Kio"; Str "Bedok"])
    by (repeat constructor).
  match eval vm_compute in scenario_cleaned with
  | mkState (Some ?d0) ?fs0 ?lg0 =>
      destruct (text_columns_are_listed_once_in_order d0 fs0 lg0 _ Ht)
        as (Htowns & _ & Hlisted);
      split; [exact (Htowns eq_refl) | exact Hlisted]
  end.
Defined.

(** X20.  On a column that holds a text and a value that is not text - a
    missing town left by the cleaning, a number among the flat types -
    [get_towns] and [get_flat_types] raise the [TypeError] of [sorted]. *)
Theorem mixed_columns_cannot_be_listed
    (d : DataFrame) (fs : list (string * file)) (lg : list log_record) (t : Series)
    (w : string) (c : cell) :
  In (Str w) t -> In c t -> ~ text c ->
  (getcol "town" d = Ok t ->
   get_towns (mkState (Some d) fs lg) = (Raise not_ordered, mkState (Some d) fs lg)) /\
  (getcol "flat_type" d = Ok t ->
   get_flat_types (mkState (Some d) fs lg) = (Raise not_ordered, mkState (Some d) fs lg)).
Proof.
  intros Hw Hc Hn. pose proof (sorted_unique_mixed t w c Hw Hc Hn) as Hs.
  split; intro Hcol.
  - rewrite (get_towns_run d t fs lg Hcol), Hs. reflexivity.
  - rewrite (get_flat_types_run d t fs lg Hcol), Hs. reflexivity.
Qed.

Lemma mixed_columns_cannot_be_listed_witness :
  get_flat_types (mkState (Some (DataFrame_of_records mixed_records)) [] [])
  = (Raise not_ordered, mkState (Some (DataFrame_of_records mixed_records)) [] []).
Proof.
  refine (proj2 (mixed_columns_cannot_be_listed (DataFrame_of_records mixed_records) [] []
                   [Str "4 ROOM"; Num 5] "4 ROOM" (Num 5) _ _ _) eq_refl).
  - left. reflexivity.
  - right. left. reflexivity.
  - intro Hn. exact Hn.
Defined.



(** X22.  On the table that a successful cleaning of a non-empty table
    leaves, a town that matches no row yields the empty series, not an
    error; and no row is matched by an argument whose title-cased form
    has leading or trailing white space, since the cleaning trims the
    towns ([str.strip] being idempotent) and the query only title-cases
    its argument. *)
Theorem unmatched_town_yields_the_empty_series `{Pandas}
    (current_year : Z) (d : DataFrame) (fs : list (string * file)) (lg : list log_record)
    (s' : State) (d' : DataFrame) (town : string) :
  empty d = false ->
  _clean_data current_year (mkState (Some d) fs lg) = (Ok tt, s') ->
  df s' = Some d' ->
  ((forall s, strip (strip s) = strip s) /\ strip (title town) <> title town) \/
  (forall i, cell_at "town" i d' <> Some (Str (title town))) ->
  get_town_data town s' = (Ok empty_series, s').
Proof.
  intros He Hrun Hdf Hno.
  destruct (clean_ok current_year d fs lg s' He Hrun)
    as (m0 & p0 & a0 & t0 & _ & _ & _ & _ & _ & ->).
  cbn [df] in Hdf. injection Hdf as <-.
  destruct (cleaned_schema current_year d m0 p0 a0 t0)
    as (M & P & Q & L & Ht & HM & DM & HP & NP & HQ & NQ & HL & NL).
  destruct (town_series_typed town _ _ M P Q L fs
              (lg ++ snd (with_lease current_year (converted d m0 p0 a0)))
              Ht HM DM HP NP HQ NQ HL NL) as (groups & Hq & Hg & _ & _).
  assert (Hmask : Forall (fun b => b = false)
                    (town_mask town (select (keep_mask p0 a0) (normalize_town t0)))).
  { apply no_match_mask. intros c Hc Heq. subst c. destruct Hno as [[Hidem Hpad] | Hrow].
    - pose proof (Forall_select trimmed (keep_mask p0 a0) _
                    (normalize_town_trimmed t0 Hidem)) as Hall.
      rewrite Forall_forall in Hall. specialize (Hall _ Hc). simpl in Hall.
      exact (Hpad Hall).
    - apply In_nth_error in Hc. destruct Hc as [i Hi].
      apply (Hrow i). rewrite (cell_at_getcol _ _ _ i Ht). exact Hi. }
  rewrite Hq, Hg, !(select_none _ _ Hmask). reflexivity.
Qed.

Lemma unmatched_town_yields_the_empty_series_witness :
  get_town_data " bedok" scenario_cleaned = (Ok empty_series, scenario_cleaned).
Proof.
  match eval vm_compute in (df scenario_cleaned) with
  | Some ?d0 =>
      apply (@unmatched_town_yields_the_empty_series plain_text 2026
               (DataFrame_of_records scenario_records) [] [] scenario_cleaned d0 " bedok"
               eq_refl eq_refl eq_refl)
  end.
  left. split; [exact strip_idem | vm_compute; discriminate].
Defined.



(** X24.  The fetcher reads the total once, from the first page: two
    sources that agree on their first answer and, request by request, on
    the failure or on the records they deliver, are fetched alike,
    whatever totals - or none - their later pages report. *)
Theorem later_totals_are_ignored
    (r r' : nat -> response) (fuel : nat) (s : State) :
  same_stream r r' ->
  fetch_pages r fuel 0 [] 0%Z None s = fetch_pages r' fuel 0 [] 0%Z None s.
Proof.
  intros [H0 Hsame]. destruct fuel as [|fuel]; [reflexivity|].
  simpl. rewrite H0.
  destruct (r' 0) as [| |[t|] records]; try reflexivity.
  destruct (_ >=? _)%Z; [reflexivity|].
  apply fetch_pages_known_total. exact Hsame.
Qed.

Lemma later_totals_are_ignored_witness :
  fetch_pages three_records_untotalled 2 0 [] 0%Z None (mkState None [] [])
  = Some (Ok [[("town", Str "Bedok")]; [("town", Str "Yishun")]; [("town", Str "Tampines")]],
          mkState None [] []).
Proof.
  rewrite <- (later_totals_are_ignored three_records three_records_untotalled 2
                (mkState None [] [])).
  - reflexivity.
  - split; [reflexivity|]. intros [|k]; split; reflexivity.
Defined.

(** X25.  A first page that carries no total is fatal to the fetch: the
    [KeyError] is not one of the exceptions the loop handles, so the
    records of the page are dropped, nothing is logged by the fetcher,
    and an online construction continues with the cache load of its
    fallback. *)
Theorem first_page_without_total_is_fatal `{Pandas}
    (responses : nat -> response) (records : list record) (fuel : nat)
    (current_year : Z) (cache_file : string) (s0 : State) :
  responses 0 = Page None records ->
  fetch_pages responses (S fuel) 0 [] 0%Z None s0 = Some (Raise (KeyError "total"), s0) /\
  __init__ responses (S fuel) current_year true cache_file s0
  = Some (_load_from_cache cache_file
            (logged (fresh s0)
               [InitializationFailed (KeyError "total"); AttemptingFallback; TryingCache])).
Proof.
  intro H0.
  assert (Hf : forall s, fetch_pages responses (S fuel) 0 [] 0%Z None s
                         = Some (Raise (KeyError "total"), s)).
  { intro s. simpl. rewrite H0. reflexivity. }
  split; [apply Hf|].
  unfold __init__, _load_from_api. fold (fresh s0). rewrite Hf.
  rewrite init_handler_run. reflexivity.
Qed.

Lemma first_page_without_total_is_fatal_witness :
  __init__ untotalled_source 1 2026 true "hdb_data.parquet" (mkState None [] [])
  = Some (Ok tt,
          mkState None []
            [InitializationFailed (KeyError "total"); AttemptingFallback; TryingCache;
             NoCacheFileFound]).
Proof.
  rewrite (proj2 (@first_page_without_total_is_fatal plain_text untotalled_source
                    [[("town", Str "Bedok")]] 0 2026 "hdb_data.parquet"
                    (mkState None [] []) eq_refl)).
  reflexivity.
Defined.

(** X26.  The cache strategy applies no cleaning: an offline construction
    on a [.parquet] path at which a columnar file exists ends with exactly
    the table read from that file, whatever its rows and columns, and
    logs nothing. *)
Theorem offline_construction_loads_the_cache_as_is `{Pandas}
    (responses : nat -> response) (fuel : nat) (current_year : Z)
    (cache_file : string) (s0 : State) (f : file) (d : DataFrame) :
  endswith cache_file ".parquet" = true ->
  lookup cache_file (files s0) = Some f ->
  read_parquet f = Ok d ->
  __init__ responses fuel current_year false cache_file s0
  = Some (Ok tt, mkState (Some d) (files s0) (log s0)).
Proof.
  intros Hext Hfile Hread. unfold __init__.
  rewrite (load_parquet cache_file f d None (files s0) (log s0) Hext Hfile Hread).
  reflexivity.
Qed.

Lemma offline_construction_loads_the_cache_as_is_witness :
  __init__ failing_source 0 2026 false "hdb_data.parquet"
    (mkState None [("hdb_data.parquet", stale_cache)] [])
  = Some (Ok tt,
          mkState (Some (DataFrame_of_records unreadable_prices))
            [("hdb_data.parquet", stale_cache)] []).
Proof.
  exact (@offline_construction_loads_the_cache_as_is plain_text failing_source 0 2026
           "hdb_data.parquet" (mkState None [("hdb_data.parquet", stale_cache)] [])
           stale_cache (DataFrame_of_records unreadable_prices) eq_refl eq_refl eq_refl).
Defined.
